(** * DcxIssuer: the issuer side of the credential exchange

    A shallow embedding of [packages/issuer/src/dcx-issuer.ts].  The class
    [DcxIssuer] talks to three outside parties: the DWN (protocols and
    records), the credential library (presentation exchange, parsing,
    verification, creation and signing of credentials) and an HTTP data
    provider.  Each of them is an interface here; the methods of the class
    are written against those interfaces, statement by statement, with the
    logging left out. *)

From stdpp Require Import base option list strings pretty gmap.
From Stdlib Require Import ZArith Ascii.

Local Open Scope string_scope.
Local Open Scope list_scope.
Local Open Scope stdpp_scope.

(** ** Errors and outcomes

    The error classes the file throws, and one constructor for whatever an
    outside library raises on its own. *)

Inductive error : Type :=
| DwnError (code : Z) (detail : string)
| DcxDwnError (message : string)
| DcxProtocolHandlerError (message : string)
| TypeError (message : string)
| LibraryError (message : string).

Inductive outcome (A : Type) : Type :=
| Returns (a : A)
| Throws (e : error).

Arguments Returns {A} a.
Arguments Throws {A} e.

Definition returned {A} (o : outcome A) : bool :=
  match o with Returns _ => true | Throws _ => false end.

Definition thrown {A} (o : outcome A) : bool := negb (returned o).

(** An [async] method: it runs against a state [S] owned by an outside
    party, and either returns or throws; the state survives a throw. *)

Definition Eff (S A : Type) : Type := S -> outcome A * S.

Definition eff_ret {S A} (a : A) : Eff S A := fun s => (Returns a, s).

Definition eff_bind {S A B} (m : Eff S A) (k : A -> Eff S B) : Eff S B :=
  fun s =>
    match m s with
    | (Returns a, s') => k a s'
    | (Throws e, s') => (Throws e, s')
    end.

Definition throw {S A} (e : error) : Eff S A := fun s => (Throws e, s).

Definition lift {S A} (o : outcome A) : Eff S A := fun s => (o, s).

#[global] Instance eff_mret {S} : MRet (Eff S) := fun A => eff_ret.
#[global] Instance eff_mbind {S} : MBind (Eff S) := fun A B k m => eff_bind m k.

(** [Promise.all (xs.map (async x => f x))]: every call is started and runs
    to its end whatever happens to the others, so the effects of all of
    them reach the state; the joined promise is fulfilled with the results
    in the order of [xs] when all calls return and is rejected when one of
    them throws.  The calls are run here one after the other, in the
    order of [xs], and of several rejections the one of the earliest
    element is reported.  In the source the calls overlap, each running up
    to its first [await] before any of them goes on, and the rejection
    reported is the earliest in time: what is proved of a joined call is
    about its outcome and its results, not about the order in which the
    calls of different elements reach the state. *)

Fixpoint promiseAll {S A B} (f : A -> Eff S B) (xs : list A) : Eff S (list B) :=
  match xs with
  | [] => eff_ret []
  | x :: rest =>
      fun s =>
        let '(o, s1) := f x s in
        let '(os, s2) := promiseAll f rest s1 in
        (match o, os with
         | Returns b, Returns bs => Returns (b :: bs)
         | Throws e, _ => Throws e
         | Returns _, Throws e => Throws e
         end, s2)
  end.

(** ** JSON values, for everything the source types as [any] *)

#[local] Set Warnings "-register-all".

Inductive json : Type :=
| JNull
| JBool (b : bool)
| JNumber (n : Z)
| JString (s : string)
| JArray (items : list json)
| JObject (members : list (string * json)).

(** JavaScript truthiness of a value ([!v] is its negation). *)
Definition truthy (v : json) : bool :=
  match v with
  | JNull => false
  | JBool b => b
  | JNumber n => negb (n =? 0)%Z
  | JString s => negb (bool_decide (s = ""))
  | JArray _ => true
  | JObject _ => true
  end.

(** ** Data model *)

Module Issuer.
Record t : Type := mk { name : string; id : string }.
End Issuer.

Module OutputDescriptor.
Record t : Type := mk { id : string; name : string }.
End OutputDescriptor.

Module CredentialManifest.
Record t : Type := mk {
  id : string;
  issuer : Issuer.t;
  output_descriptors : list OutputDescriptor.t;
  presentation_definition : json;
}.
End CredentialManifest.

Module Provider.
Record t : Type := mk {
  id : string;
  method : option string;
  endpoint : string;
  headers : json;
}.
End Provider.

Module ServerHandler.
Record t (Handler : Type) : Type := mk { id : string; handler : Handler }.
Arguments mk {Handler} id handler.
Arguments id {Handler} t.
Arguments handler {Handler} t.
End ServerHandler.

Module DcxOptions.
Record t (Handler : Type) : Type := mk {
  handlers : list (ServerHandler.t Handler);
  providers : list Provider.t;
  manifests : list CredentialManifest.t;
  issuers : list Issuer.t;
  gateways : list string;
  dwns : list string;
}.
Arguments mk {Handler} handlers providers manifests issuers gateways dwns.
Arguments handlers {Handler} t.
Arguments providers {Handler} t.
Arguments manifests {Handler} t.
Arguments issuers {Handler} t.
Arguments gateways {Handler} t.
Arguments dwns {Handler} t.
End DcxOptions.

Module BearerDid.
Record t : Type := mk { uri : string }.
End BearerDid.

Module DcxAgent.
Record t : Type := mk { agentDid : BearerDid.t }.
End DcxAgent.

(** The fields of a [DcxIssuer] object that its methods read. *)
Module DcxIssuer.
Record t (Handler : Type) : Type := mk {
  dcxOptions : DcxOptions.t Handler;
  agent : DcxAgent.t;
}.
Arguments mk {Handler} dcxOptions agent.
Arguments dcxOptions {Handler} t.
Arguments agent {Handler} t.
End DcxIssuer.

(** ** findHandler

    [handlers.find(h => h.id === id)?.handler ?? staticHandler]: [find]
    yields the first entry whose id is [id]; [handler] is a function in
    every [ServerHandler], so [??] falls back exactly when [find] found
    nothing. *)

Definition findHandler {Handler} (this : DcxIssuer.t Handler)
    (id : string) (staticHandler : Handler) : Handler :=
  match List.find (fun serverHandler => bool_decide (ServerHandler.id serverHandler = id))
          (DcxOptions.handlers (DcxIssuer.dcxOptions this)) with
  | Some serverHandler => ServerHandler.handler serverHandler
  | None => staticHandler
  end.

(** ** filterRecords

    [manifests.filter(manifest => manifestRecords.find(manifestRecord =>
    manifest.id !== manifestRecord.id))]: [find] yields the first record
    whose id differs from the manifest's, an object and so truthy, or
    [undefined]. *)

Definition filterRecords {Handler} (this : DcxIssuer.t Handler)
    (manifestRecords : list CredentialManifest.t) : list CredentialManifest.t :=
  List.filter
    (fun manifest =>
       match List.find
               (fun manifestRecord =>
                  negb (bool_decide (CredentialManifest.id manifest
                                     = CredentialManifest.id manifestRecord)))
               manifestRecords with
       | Some _ => true
       | None => false
       end)
    (DcxOptions.manifests (DcxIssuer.dcxOptions this)).

(** ** What the methods import

    [DwnUtils.isFailure], [Objects.isEmpty] and [manifestSchema] come from
    the common package, [dcxIssuerConfig] and the protocol definition
    [issuer] from the package's index; none of them is defined in the file
    under study, so they are parameters of everything below. *)

Module ProtocolDefinition.
Record t : Type := mk { protocol : string; published : bool }.
End ProtocolDefinition.

Class Imports : Type := {
  DwnUtils_isFailure : Z -> bool;
  Objects_isEmpty : json -> bool;
  manifestSchema_id : string;
  DCX_INPUT_ISSUERS : list Issuer.t;
  issuer : ProtocolDefinition.t;
}.

(** ** The credential library *)

Module VcDataModel.
Record t : Type := mk { issuer : string; type : string; credentialSubject : json }.
End VcDataModel.

Module VerifiableCredential.
Record t : Type := mk { vcDataModel : VcDataModel.t; subject : string }.
End VerifiableCredential.

Module VerifiableCredentialCreateOptions.
Record t : Type := mk { data : json; subject : string; issuer : string; type : string }.
End VerifiableCredentialCreateOptions.

(** The calls a method makes to the library, in the order it makes them. *)
Inductive call : Type :=
| SatisfiesPresentationDefinition (vcJwts : list string) (presentationDefinition : json)
| ParseJwt (vcJwt : string)
| Verify (vcJwt : string)
| Create (options : VerifiableCredentialCreateOptions.t)
| Sign (vc : VerifiableCredential.t) (did : BearerDid.t).

Class CredentialLibrary : Type := {
  satisfiesPresentationDefinition : list string -> json -> outcome unit;
  parseJwt : string -> outcome VerifiableCredential.t;
  verify : string -> outcome json;
  create : VerifiableCredentialCreateOptions.t -> outcome VerifiableCredential.t;
  sign : VerifiableCredential.t -> BearerDid.t -> outcome string;
}.

(** A library call: its outcome, and the call appended to the record. *)
Definition invoke {A} (c : call) (o : outcome A) : Eff (list call) A :=
  fun calls => (o, calls ++ [c]).

Module DescriptorMapEntry.
Record t : Type := mk { id : string; format : string; path : string }.
End DescriptorMapEntry.

Module Fulfillment.
Record t : Type := mk { descriptor_map : list DescriptorMapEntry.t }.
End Fulfillment.

Module IssuedCredential.
Record t : Type := mk {
  fulfillment : Fulfillment.t;
  verifiableCredential : list string;
}.
End IssuedCredential.

Section Credentials.
Context {Handler : Type} `{Imports} `{CredentialLibrary}.
Variable this : DcxIssuer.t Handler.

(** [new Set(issuers)] of the loop body. *)
Definition issuerDidSet : gset string :=
  list_to_set
    (map Issuer.id (DcxOptions.issuers (DcxIssuer.dcxOptions this) ++ DCX_INPUT_ISSUERS)).

(** One turn of the [for] loop of [verifyCredentials]: [None] is
    [continue], [Some vc] is [verifiedCredentials.push(vc)]. *)
Definition verifyCredentials_body (subjectDid vcJwt : string)
  : Eff (list call) (option VerifiableCredential.t) :=
  vc ← invoke (ParseJwt vcJwt) (parseJwt vcJwt);
  if negb (bool_decide (VerifiableCredential.subject vc = subjectDid)) then eff_ret None
  else if negb (bool_decide
                  (VcDataModel.issuer (VerifiableCredential.vcDataModel vc) ∈ issuerDidSet))
  then eff_ret None
  else
    verified ← invoke (Verify vcJwt) (verify vcJwt);
    if negb (truthy verified) || Objects_isEmpty verified then eff_ret None
    else eff_ret (Some vc).

Fixpoint verifyCredentials_loop (subjectDid : string) (vcJwts : list string)
    (verifiedCredentials : list VerifiableCredential.t)
  : Eff (list call) (list VerifiableCredential.t) :=
  match vcJwts with
  | [] => eff_ret verifiedCredentials
  | vcJwt :: rest =>
      pushed ← verifyCredentials_body subjectDid vcJwt;
      verifyCredentials_loop subjectDid rest
        (match pushed with
         | Some vc => verifiedCredentials ++ [vc]
         | None => verifiedCredentials
         end)
  end.

Definition verifyCredentials (vcJwts : list string)
    (manifest : CredentialManifest.t) (subjectDid : string)
  : Eff (list call) (list VerifiableCredential.t) :=
  invoke
    (SatisfiesPresentationDefinition vcJwts
       (CredentialManifest.presentation_definition manifest))
    (satisfiesPresentationDefinition vcJwts
       (CredentialManifest.presentation_definition manifest)) ;;
  verifyCredentials_loop subjectDid vcJwts [].

(** [manifest.output_descriptors[0]] is [undefined] for an empty array,
    and reading its [id] is then a [TypeError]. *)
Definition issueCredential (data : json) (subjectDid : string)
    (manifest : CredentialManifest.t) : Eff (list call) IssuedCredential.t :=
  match CredentialManifest.output_descriptors manifest !! 0 with
  | None => throw (TypeError "Cannot read properties of undefined (reading 'id')")
  | Some manifestOutputDescriptor =>
      let options :=
        {| VerifiableCredentialCreateOptions.data := data;
           VerifiableCredentialCreateOptions.subject := subjectDid;
           VerifiableCredentialCreateOptions.issuer :=
             BearerDid.uri (DcxAgent.agentDid (DcxIssuer.agent this));
           VerifiableCredentialCreateOptions.type :=
             OutputDescriptor.name manifestOutputDescriptor |} in
      vc ← invoke (Create options) (create options);
      let did := DcxAgent.agentDid (DcxIssuer.agent this) in
      signed ← invoke (Sign vc did) (sign vc did);
      eff_ret
        {| IssuedCredential.fulfillment :=
             {| Fulfillment.descriptor_map :=
                  [ {| DescriptorMapEntry.id := OutputDescriptor.id manifestOutputDescriptor;
                       DescriptorMapEntry.format := "jwt_vc";
                       DescriptorMapEntry.path := "$.verifiableCredential[0]" |} ] |};
           IssuedCredential.verifiableCredential := [signed] |}
  end.

End Credentials.

(** ** The data provider *)

Module RequestInit.
Record t : Type := mk { method : string; headers : json; body : string }.
End RequestInit.

Module Response.
(** [json] is what [response.json()] does: the parsed body, or the error
    of a body that does not parse. *)
Record t : Type := mk { status : Z; json : outcome json }.
End Response.

Module RequestCredentialParams.
Record t : Type := mk { body : json; id : option string }.
End RequestCredentialParams.

Class Http : Type := {
  stringifier : json -> string;
  fetch : string -> RequestInit.t -> outcome Response.t;
}.

Section Provider.
Context {Handler : Type} `{Http}.
Variable this : DcxIssuer.t Handler.

(** The state is the list of requests sent so far. *)
Definition requestCredential (params : RequestCredentialParams.t)
  : Eff (list (string * RequestInit.t)) json :=
  match List.find
          (fun provider =>
             bool_decide (Some (Provider.id provider) = RequestCredentialParams.id params))
          (DcxOptions.providers (DcxIssuer.dcxOptions this)) with
  | None => throw (DcxProtocolHandlerError "No VC data provider configured")
  | Some provider =>
      let init :=
        {| RequestInit.method := default "POST" (Provider.method provider);
           RequestInit.headers := Provider.headers provider;
           RequestInit.body := stringifier (RequestCredentialParams.body params) |} in
      response ← (fun sent =>
                    (fetch (Provider.endpoint provider) init,
                     sent ++ [(Provider.endpoint provider, init)]));
      data ← lift (Response.json response);
      mret data
  end.

End Provider.

(** ** The DWN *)

Module DwnResponseStatus.
Record t : Type := mk { code : Z; detail : string }.
End DwnResponseStatus.

(** The handle of a configured protocol. *)
Module Protocol.
Record t : Type := mk { definition : ProtocolDefinition.t }.
End Protocol.

(** The handle of a stored record. *)
Module DwnRecord.
Record t : Type := mk { id : string; author : string }.
End DwnRecord.

Module RecordsFilter.
Record t : Type := mk {
  schema : string;
  dataFormat : string;
  protocol : string;
  protocolPath : string;
}.
End RecordsFilter.

Module RecordsCreateRequest.
Record t : Type := mk {
  store : bool;
  data : CredentialManifest.t;
  schema : string;
  dataFormat : string;
  protocol : string;
  protocolPath : string;
  published : bool;
}.
End RecordsCreateRequest.

Module ProtocolsQueryResponse.
Record t : Type := mk { status : DwnResponseStatus.t; protocols : list Protocol.t }.
End ProtocolsQueryResponse.

Module ProtocolsConfigureResponse.
Record t : Type := mk { status : DwnResponseStatus.t; protocol : Protocol.t }.
End ProtocolsConfigureResponse.

Module DcxRecordsQueryResponse.
Record t : Type := mk {
  status : DwnResponseStatus.t;
  records : list DwnRecord.t;
  cursor : option string;
}.
End DcxRecordsQueryResponse.

Module RecordsCreateResponse.
Record t : Type := mk { status : DwnResponseStatus.t; record : option DwnRecord.t }.
End RecordsCreateResponse.

(** [web5.dwn] and the handles it gives out, over the state [Node] of the
    DWN.  An optional component is a field the reply may leave
    [undefined]. *)
Class Dwn (Node : Type) : Type := {
  protocols_query :
    string -> Eff Node (DwnResponseStatus.t * option (list Protocol.t));
  protocols_configure :
    ProtocolDefinition.t -> Eff Node (DwnResponseStatus.t * option Protocol.t);
  protocol_send : Protocol.t -> string -> Eff Node DwnResponseStatus.t;
  records_query :
    RecordsFilter.t ->
    Eff Node (DwnResponseStatus.t * option (list DwnRecord.t) * option string);
  records_read : string -> Eff Node (option DwnRecord.t);
  record_data_json : DwnRecord.t -> Eff Node CredentialManifest.t;
  records_create :
    RecordsCreateRequest.t -> Eff Node (DwnResponseStatus.t * option DwnRecord.t);
  record_send : DwnRecord.t -> option string -> Eff Node DwnResponseStatus.t;
}.

Section Setup.
Context {Handler : Type} `{Imports} {Node : Type} `{Dwn Node}.
Variable this : DcxIssuer.t Handler.

Definition agentDid_uri : string :=
  BearerDid.uri (DcxAgent.agentDid (DcxIssuer.agent this)).

Definition queryProtocols : Eff Node ProtocolsQueryResponse.t :=
  '(query, protocols) ← protocols_query (ProtocolDefinition.protocol issuer);
  let protocols := default [] protocols in
  if DwnUtils_isFailure (DwnResponseStatus.code query) then
    throw (DwnError (DwnResponseStatus.code query) (DwnResponseStatus.detail query))
  else
    mret {| ProtocolsQueryResponse.status := query;
            ProtocolsQueryResponse.protocols := protocols |}.

(** When the guard is passed the handle is there; a missing handle after
    it would be a [TypeError] on [protocol.send]. *)
Definition configureProtocols : Eff Node ProtocolsConfigureResponse.t :=
  '(configure, protocol) ← protocols_configure issuer;
  if DwnUtils_isFailure (DwnResponseStatus.code configure)
     || negb (bool_decide (is_Some protocol))
  then
    throw (DwnError (DwnResponseStatus.code configure)
                    (DwnResponseStatus.detail configure))
  else
    match protocol with
    | None => throw (TypeError "Cannot read properties of undefined (reading 'send')")
    | Some protocol =>
        send ← protocol_send protocol agentDid_uri;
        if DwnUtils_isFailure (DwnResponseStatus.code send) then
          throw (DwnError (DwnResponseStatus.code send) (DwnResponseStatus.detail send))
        else
          mret {| ProtocolsConfigureResponse.status := send;
                  ProtocolsConfigureResponse.protocol := protocol |}
    end.

Definition queryRecords : Eff Node DcxRecordsQueryResponse.t :=
  '(status, records, cursor) ←
    records_query
      {| RecordsFilter.schema := manifestSchema_id;
         RecordsFilter.dataFormat := "application/json";
         RecordsFilter.protocol := ProtocolDefinition.protocol issuer;
         RecordsFilter.protocolPath := "manifest" |};
  let records := default [] records in
  if DwnUtils_isFailure (DwnResponseStatus.code status) then
    throw (DwnError (DwnResponseStatus.code status) (DwnResponseStatus.detail status))
  else
    mret {| DcxRecordsQueryResponse.status := status;
            DcxRecordsQueryResponse.records := records;
            DcxRecordsQueryResponse.cursor := cursor |}.

(** One callback of [readRecords]; reading [data] of a missing record is
    a [TypeError]. *)
Definition readRecord (manifestRecord : DwnRecord.t) : Eff Node CredentialManifest.t :=
  record ← records_read (DwnRecord.id manifestRecord);
  match record with
  | Some record => record_data_json record
  | None => throw (TypeError "Cannot read properties of undefined (reading 'data')")
  end.

Definition readRecords (manifestRecords : list DwnRecord.t)
  : Eff Node (list CredentialManifest.t) :=
  promiseAll readRecord manifestRecords.

(** [manifestRecord.issuer.id = this.agent.agentDid.uri]: the manifest as
    it is handed to the DWN.  The assignment is made on the configured
    manifest object itself; it changes [issuer.id] only, which no method
    below reads back, so the configured manifests are left as they are
    here. *)
Definition withAgentIssuer (manifestRecord : CredentialManifest.t) : CredentialManifest.t :=
  {| CredentialManifest.id := CredentialManifest.id manifestRecord;
     CredentialManifest.issuer :=
       {| Issuer.name := Issuer.name (CredentialManifest.issuer manifestRecord);
          Issuer.id := agentDid_uri |};
     CredentialManifest.output_descriptors :=
       CredentialManifest.output_descriptors manifestRecord;
     CredentialManifest.presentation_definition :=
       CredentialManifest.presentation_definition manifestRecord |}.

Definition createManifestRecord (manifestRecord : CredentialManifest.t)
  : Eff Node RecordsCreateResponse.t :=
  let manifestRecord := withAgentIssuer manifestRecord in
  '(create, record) ←
    records_create
      {| RecordsCreateRequest.store := true;
         RecordsCreateRequest.data := manifestRecord;
         RecordsCreateRequest.schema := manifestSchema_id;
         RecordsCreateRequest.dataFormat := "application/json";
         RecordsCreateRequest.protocol := ProtocolDefinition.protocol issuer;
         RecordsCreateRequest.protocolPath := "manifest";
         RecordsCreateRequest.published := true |};
  if DwnUtils_isFailure (DwnResponseStatus.code create) then
    throw (DwnError (DwnResponseStatus.code create) (DwnResponseStatus.detail create))
  else
    match record with
    | None =>
        throw (DcxDwnError
                 ("Failed to create missing dwn manifest record: "
                  +:+ CredentialManifest.id manifestRecord))
    | Some record =>
        send ← record_send record None;
        if DwnUtils_isFailure (DwnResponseStatus.code send) then
          throw (DwnError (DwnResponseStatus.code send) (DwnResponseStatus.detail send))
        else
          mret {| RecordsCreateResponse.status := send;
                  RecordsCreateResponse.record := Some record |}
    end.

(** [records.filter(record => record !== undefined)]. *)
Definition defined {A} (records : list (option A)) : list A :=
  omap (fun record => record) records.

(** The callback [createRecords] maps over the manifests. *)
Definition createRecords_callback (manifestRecord : CredentialManifest.t)
  : Eff Node (option DwnRecord.t) :=
  response ← createManifestRecord manifestRecord;
  mret (RecordsCreateResponse.record response).

Definition createRecords (manifestRecords : list CredentialManifest.t)
  : Eff Node (list DwnRecord.t) :=
  records ← promiseAll createRecords_callback manifestRecords;
  mret (defined records).

(** [catch (error) { Logger.error(...); throw error; }] hands every
    error on as it is. *)
Definition setup : Eff Node unit :=
  response ← queryProtocols;
  (if bool_decide (length (ProtocolsQueryResponse.protocols response) = 0)
   then configureProtocols ;; mret tt
   else mret tt) ;;
  response ← queryRecords;
  manifests ← readRecords (DcxRecordsQueryResponse.records response);
  if bool_decide (length manifests = 0) then
    createRecords (DcxOptions.manifests (DcxIssuer.dcxOptions this)) ;; mret tt
  else
    let records := filterRecords this manifests in
    createRecords records ;; mret tt.

End Setup.

(** ** An in-memory DWN

    A DWN that keeps the configured protocols and the stored manifest
    records in two lists and answers every call with a success status.  It
    is the DWN the examples below run against.  Three switches make it
    misbehave the way the guards of the methods expect: [configureStatus]
    is the status [configure] answers with, and the protocol is stored
    only under status 202; [dropsProtocol] makes [configure] answer with
    its status and no handle; [dropsRecord] makes [create] answer with a
    success status and no handle on the manifests it selects. *)

Module MemoryNode.

Record t : Type := mk {
  protocols : list ProtocolDefinition.t;
  records : list (DwnRecord.t * CredentialManifest.t);
}.

Definition empty : t := {| protocols := []; records := [] |}.

Definition ok : DwnResponseStatus.t :=
  {| DwnResponseStatus.code := 200; DwnResponseStatus.detail := "OK" |}.

Definition accepted : DwnResponseStatus.t :=
  {| DwnResponseStatus.code := 202; DwnResponseStatus.detail := "Accepted" |}.

Definition serverError : DwnResponseStatus.t :=
  {| DwnResponseStatus.code := 500; DwnResponseStatus.detail := "Internal Server Error" |}.

Record faults : Type := mkFaults {
  configureStatus : DwnResponseStatus.t;
  dropsProtocol : bool;
  dropsRecord : string -> bool;
}.

Definition noFaults : faults :=
  {| configureStatus := accepted; dropsProtocol := false; dropsRecord := fun _ => false |}.

Definition recordId (node : t) (manifest : CredentialManifest.t) : string :=
  "record-" +:+ pretty (length (records node)) +:+ "-" +:+ CredentialManifest.id manifest.

Definition dwn (f : faults) (owner : string) : Dwn t := {|
  protocols_query protocol := fun node =>
    (Returns
       (ok,
        Some (map Protocol.mk
                (List.filter
                   (fun definition =>
                      bool_decide (ProtocolDefinition.protocol definition = protocol))
                   (protocols node)))),
     node);
  protocols_configure definition := fun node =>
    if dropsProtocol f
       || negb (bool_decide (DwnResponseStatus.code (configureStatus f) = 202%Z))
    then (Returns (configureStatus f, None), node)
    else
      (Returns (configureStatus f, Some (Protocol.mk definition)),
       {| protocols := protocols node ++ [definition]; records := records node |});
  protocol_send _ _ := fun node => (Returns accepted, node);
  records_query _ := fun node => (Returns (ok, Some (map fst (records node)), None), node);
  records_read recordId := fun node =>
    (Returns
       (fst <$> List.find (fun entry => bool_decide (DwnRecord.id (fst entry) = recordId))
                  (records node)),
     node);
  record_data_json record := fun node =>
    match List.find (fun entry => bool_decide (DwnRecord.id (fst entry) = DwnRecord.id record))
            (records node) with
    | Some entry => (Returns (snd entry), node)
    | None => (Throws (LibraryError "record data not found"), node)
    end;
  records_create request := fun node =>
    let manifest := RecordsCreateRequest.data request in
    if dropsRecord f (CredentialManifest.id manifest) then (Returns (accepted, None), node)
    else
      let record := {| DwnRecord.id := recordId node manifest; DwnRecord.author := owner |} in
      (Returns (accepted, Some record),
       {| protocols := protocols node; records := records node ++ [(record, manifest)] |});
  record_send _ _ := fun node => (Returns accepted, node);
|}.

End MemoryNode.

(** ** Fixtures for the examples *)

Module Fixtures.

Definition imports : Imports := {|
  DwnUtils_isFailure code := negb ((200 <=? code)%Z && (code <=? 299)%Z);
  Objects_isEmpty v :=
    match v with
    | JObject [] | JArray [] | JString "" | JNull => true
    | _ => false
    end;
  manifestSchema_id := "https://dcxprotocol.com/schemas/manifest";
  DCX_INPUT_ISSUERS := [ {| Issuer.name := "mx"; Issuer.id := "did:x:trusted" |} ];
  issuer :=
    {| ProtocolDefinition.protocol := "https://dcxprotocol.com/issuer";
       ProtocolDefinition.published := true |};
|}.

Definition manifest (id : string) (descriptors : list OutputDescriptor.t)
  : CredentialManifest.t :=
  {| CredentialManifest.id := id;
     CredentialManifest.issuer := {| Issuer.name := "original"; Issuer.id := "did:x:original" |};
     CredentialManifest.output_descriptors := descriptors;
     CredentialManifest.presentation_definition := JObject [("id", JString id)] |}.

Definition descriptorA : OutputDescriptor.t :=
  {| OutputDescriptor.id := "output-a"; OutputDescriptor.name := "CredentialA" |}.
Definition descriptorB : OutputDescriptor.t :=
  {| OutputDescriptor.id := "output-b"; OutputDescriptor.name := "CredentialB" |}.

Definition manifestA : CredentialManifest.t := manifest "A" [descriptorA; descriptorB].
Definition manifestB : CredentialManifest.t := manifest "B" [descriptorB].

Definition provider : Provider.t :=
  {| Provider.id := "kyc"; Provider.method := None;
     Provider.endpoint := "https://provider.example/vc-data";
     Provider.headers := JObject [] |}.

(** An issuer object over handlers named by strings. *)
Definition dcxIssuer (handlers : list (ServerHandler.t string))
    (manifests : list CredentialManifest.t) : DcxIssuer.t string :=
  {| DcxIssuer.dcxOptions :=
       {| DcxOptions.handlers := handlers;
          DcxOptions.providers := [provider];
          DcxOptions.manifests := manifests;
          DcxOptions.issuers := [ {| Issuer.name := "local"; Issuer.id := "did:x:allowed" |} ];
          DcxOptions.gateways := [];
          DcxOptions.dwns := [] |};
     DcxIssuer.agent := {| DcxAgent.agentDid := {| BearerDid.uri := "did:x:agent" |} |} |}.

(** A credential library over tokens written [subject/issuer/signature];
    a token verifies when its signature part is [good], and every list of
    tokens satisfies a presentation definition except the one that holds
    the token [unsatisfying]. *)
Definition token (subject issuer signature : string) : string :=
  subject +:+ "/" +:+ issuer +:+ "/" +:+ signature.

Fixpoint split_slash (s : string) (field : string) : list string :=
  match s with
  | EmptyString => [field]
  | String c rest =>
      if bool_decide (c = "/"%char) then field :: split_slash rest ""
      else split_slash rest (field +:+ String c "")
  end.

Definition credential (subject issuer : string) : VerifiableCredential.t :=
  {| VerifiableCredential.vcDataModel :=
       {| VcDataModel.issuer := issuer; VcDataModel.type := "VerifiableCredential";
          VcDataModel.credentialSubject := JObject [("id", JString subject)] |};
     VerifiableCredential.subject := subject |}.

Definition library : CredentialLibrary := {|
  satisfiesPresentationDefinition vcJwts _ :=
    if bool_decide ("unsatisfying" ∈ vcJwts)
    then Throws (LibraryError "presentation definition not satisfied")
    else Returns tt;
  parseJwt vcJwt :=
    match split_slash vcJwt "" with
    | [subject; issuer; _] => Returns (credential subject issuer)
    | _ => Throws (LibraryError "malformed JWT")
    end;
  verify vcJwt :=
    match split_slash vcJwt "" with
    | [subject; issuer; "good"] =>
        Returns (JObject [("issuer", JString issuer); ("subject", JString subject)])
    | [_; _; "empty"] => Returns (JObject [])
    | _ => Returns JNull
    end;
  create options :=
    Returns
      {| VerifiableCredential.vcDataModel :=
           {| VcDataModel.issuer := VerifiableCredentialCreateOptions.issuer options;
              VcDataModel.type := VerifiableCredentialCreateOptions.type options;
              VcDataModel.credentialSubject := VerifiableCredentialCreateOptions.data options |};
         VerifiableCredential.subject := VerifiableCredentialCreateOptions.subject options |};
  sign vc did :=
    Returns (token (VerifiableCredential.subject vc) (BearerDid.uri did) "good");
|}.

(** The in-memory DWN whose [configure] fails, the one whose [configure]
    succeeds without a handle, and the one whose [create] succeeds
    without a handle for manifest [B]. *)
Definition configureFails : Dwn MemoryNode.t :=
  MemoryNode.dwn
    {| MemoryNode.configureStatus := MemoryNode.serverError;
       MemoryNode.dropsProtocol := false;
       MemoryNode.dropsRecord := λ _, false |}
    "did:x:agent".

Definition configureWithoutHandle : Dwn MemoryNode.t :=
  MemoryNode.dwn
    {| MemoryNode.configureStatus := MemoryNode.accepted;
       MemoryNode.dropsProtocol := true;
       MemoryNode.dropsRecord := λ _, false |}
    "did:x:agent".


(** Tokens for the author [did:x:B]: one that passes every check, one
    with a foreign subject, one from an issuer in neither list, and one
    with both defects. *)
Definition author : string := "did:x:B".
Definition tokenGood : string := token "did:x:B" "did:x:trusted" "good".
Definition tokenForeign : string := token "did:x:A" "did:x:trusted" "good".
Definition tokenUnlisted : string := token "did:x:B" "did:x:nobody" "good".
Definition tokenForeignUnlisted : string := token "did:x:A" "did:x:nobody" "good".

(** An issuer with the default handlers and no manifests of its own. *)
Definition verifier : DcxIssuer.t string := dcxIssuer [] [].

Definition overrides : list (ServerHandler.t string) :=
  [ ServerHandler.mk "issueCredential" "customIssue";
    ServerHandler.mk "verifyCredentials" "customVerify1";
    ServerHandler.mk "verifyCredentials" "customVerify2" ].

(** The in-memory DWN without faults, owned by the agent. *)
Definition healthy : Dwn MemoryNode.t := MemoryNode.dwn MemoryNode.noFaults "did:x:agent".

(** An issuer configured with the two manifests [A] and [B], and the DWN
    after its first and after its second [setup], starting empty. *)
Definition twoManifests : DcxIssuer.t string := dcxIssuer [] [manifestA; manifestB].

Definition afterFirstSetup : MemoryNode.t :=
  snd (@setup _ imports _ healthy twoManifests MemoryNode.empty).

Definition afterSecondSetup : MemoryNode.t :=
  snd (@setup _ imports _ healthy twoManifests afterFirstSetup).

Definition manifestIds (node : MemoryNode.t) : list string :=
  map (λ entry, CredentialManifest.id (snd entry)) (MemoryNode.records node).

(** A provider that answers every request with status [status] and the
    JSON body [body]. *)
Definition http (status : Z) (body : json) : Http := {|
  stringifier _ := "{}";
  fetch _ _ := Returns {| Response.status := status; Response.json := Returns body |};
|}.

End Fixtures.

(** The missing manifests in the words of the specification: the configured
    manifests no existing manifest shares its id with, in configured order,
    duplicates kept. *)
Definition computeMissing (configured existing : list CredentialManifest.t)
  : list CredentialManifest.t :=
  List.filter
    (λ manifest,
       negb (existsb
               (λ manifestRecord,
                  bool_decide (CredentialManifest.id manifestRecord
                               = CredentialManifest.id manifest))
               existing))
    configured.

(** The per-token policy of [verifyCredentials] in the words of the
    specification: a token is kept when it parses, its subject is the
    submission's author, its issuer is in the configured or in the static
    issuer list, and its verification returns a result that is neither
    falsy nor empty; the verified credentials are the kept ones in input
    order. *)
Section VerifyPolicy.
Context {Handler : Type} `{Imports} `{CredentialLibrary}.
Variable this : DcxIssuer.t Handler.

Definition allowedIssuer (issuerDid : string) : bool :=
  bool_decide (issuerDid ∈ map Issuer.id (DcxOptions.issuers (DcxIssuer.dcxOptions this)))
  || bool_decide (issuerDid ∈ map Issuer.id DCX_INPUT_ISSUERS).

Definition verificationPassed (vcJwt : string) : bool :=
  match verify vcJwt with
  | Returns verified => truthy verified && negb (Objects_isEmpty verified)
  | Throws _ => false
  end.

Definition keeps (subjectDid vcJwt : string) : option VerifiableCredential.t :=
  match parseJwt vcJwt with
  | Returns vc =>
      if bool_decide (VerifiableCredential.subject vc = subjectDid)
         && allowedIssuer (VcDataModel.issuer (VerifiableCredential.vcDataModel vc))
         && verificationPassed vcJwt
      then Some vc else None
  | Throws _ => None
  end.

(** The outcome of one turn of the loop, apart from the calls it makes. *)
Definition verdict (subjectDid vcJwt : string) : outcome (option VerifiableCredential.t) :=
  fst (verifyCredentials_body this subjectDid vcJwt []).

End VerifyPolicy.

(** The tokens a record of library calls shows as parsed, and as handed to
    [verify], in the order of the calls. *)
Definition parsedTokens (calls : list call) : list string :=
  omap (λ c, match c with ParseJwt vcJwt => Some vcJwt | _ => None end) calls.

Definition verifiedTokens (calls : list call) : list string :=
  omap (λ c, match c with Verify vcJwt => Some vcJwt | _ => None end) calls.

Section VerifyChecks.
Context {Handler : Type} `{Imports} `{CredentialLibrary}.
Variable this : DcxIssuer.t Handler.

(** The two checks a token passes before it is handed to [verify]: it
    parses with the author as subject and with an allowed issuer. *)
Definition passesChecks (subjectDid vcJwt : string) : bool :=
  match parseJwt vcJwt with
  | Returns vc =>
      bool_decide (VerifiableCredential.subject vc = subjectDid)
      && allowedIssuer this (VcDataModel.issuer (VerifiableCredential.vcDataModel vc))
  | Throws _ => false
  end.

End VerifyChecks.

(** The two phases [setup] goes through before it creates records, as
    relations between the states of the DWN: the protocol is there, found
    by the query or configured after a query that found none; and the
    manifest records have been queried and read. *)
Section SetupPhases.
Context {Handler : Type} `{Imports} {Node : Type} `{Dwn Node}.
Variable this : DcxIssuer.t Handler.

Definition protocolEnsured (node ensured : Node) : Prop :=
  ∃ response queried,
    queryProtocols node = (Returns response, queried)
    ∧ ((ProtocolsQueryResponse.protocols response ≠ [] ∧ ensured = queried)
       ∨ (ProtocolsQueryResponse.protocols response = []
          ∧ ∃ configured, configureProtocols this queried = (Returns configured, ensured))).

Definition manifestsRead (ensured : Node) (manifests : list CredentialManifest.t)
    (read : Node) : Prop :=
  ∃ response queried,
    queryRecords ensured = (Returns response, queried)
    ∧ readRecords (DcxRecordsQueryResponse.records response) queried
      = (Returns manifests, read).

End SetupPhases.

(** ** The constructor

    The class declares [dcxConfig], [dcxOptions], [agent] and [web5]
    without an initializer, so they are [undefined] on the object the
    constructor starts from; its methods come from the prototype.  The
    initializers of the other fields, [new DcxIdentityVault()] among them,
    have returned by then, or the body below is never entered.  [web5] is
    assigned and never read by the constructor and is left out. *)

#[global] Instance outcome_mret : MRet outcome := λ A a, Returns a.
#[global] Instance outcome_mbind : MBind outcome := λ A B k o,
  match o with
  | Returns a => k a
  | Throws e => Throws e
  end.

Module DcxIssuerConfig.
Record t : Type := mk {
  DCX_HANDSHAKE_MANIFEST : CredentialManifest.t;
  DCX_INPUT_ISSUERS : list Issuer.t;
  gatewayUris : list string;
  dwnEndpoints : list string;
}.
(** A [Partial<DcxIssuerConfig>], as [params.config] is. *)
Record partial : Type := mkPartial {
  DCX_HANDSHAKE_MANIFEST' : option CredentialManifest.t;
  DCX_INPUT_ISSUERS' : option (list Issuer.t);
  gatewayUris' : option (list string);
  dwnEndpoints' : option (list string);
}.
(** [{ ...base, ...over }]. *)
Definition spread (base : t) (over : partial) : t :=
  {| DCX_HANDSHAKE_MANIFEST := default (DCX_HANDSHAKE_MANIFEST base) (DCX_HANDSHAKE_MANIFEST' over);
     DCX_INPUT_ISSUERS := default (DCX_INPUT_ISSUERS base) (DCX_INPUT_ISSUERS' over);
     gatewayUris := default (gatewayUris base) (gatewayUris' over);
     dwnEndpoints := default (dwnEndpoints base) (dwnEndpoints' over) |}.
End DcxIssuerConfig.

Module DcxIssuerParams.
Record t (Handler : Type) : Type := mk {
  agent : DcxAgent.t;
  config : DcxIssuerConfig.partial;
  options : option (DcxOptions.t Handler);
}.
Arguments mk {Handler} agent config options.
Arguments agent {Handler} t.
Arguments config {Handler} t.
Arguments options {Handler} t.
End DcxIssuerParams.

(** The four methods a handler can stand in for. *)
Module Methods.
Record t (Handler : Type) : Type := mk {
  selectCredentials : Handler;
  verifyCredentials : Handler;
  requestCredential : Handler;
  issueCredential : Handler;
}.
Arguments mk {Handler} selectCredentials verifyCredentials requestCredential issueCredential.
Arguments selectCredentials {Handler} t.
Arguments verifyCredentials {Handler} t.
Arguments requestCredential {Handler} t.
Arguments issueCredential {Handler} t.
End Methods.

(** The object while its constructor runs. *)
Module Instance.
Record t (Handler : Type) : Type := mk {
  methods : Methods.t Handler;
  agent : option DcxAgent.t;
  dcxConfig : option DcxIssuerConfig.t;
  dcxOptions : option (DcxOptions.t Handler);
}.
Arguments mk {Handler} methods agent dcxConfig dcxOptions.
Arguments methods {Handler} t.
Arguments agent {Handler} t.
Arguments dcxConfig {Handler} t.
Arguments dcxOptions {Handler} t.

Definition fresh {Handler} (prototype : Methods.t Handler) : t Handler :=
  {| methods := prototype; agent := None; dcxConfig := None; dcxOptions := None |}.

Definition withMethods {Handler} (this : t Handler) (methods : Methods.t Handler) : t Handler :=
  {| methods := methods; agent := agent this; dcxConfig := dcxConfig this;
     dcxOptions := dcxOptions this |}.
End Instance.

(** [findHandler] called on the object under construction: reading
    [handlers] of an [undefined] [dcxOptions] is a [TypeError]. *)
Definition findHandler_on {Handler} (this : Instance.t Handler)
    (id : string) (staticHandler : Handler) : outcome Handler :=
  match Instance.dcxOptions this with
  | None => Throws (TypeError "Cannot read properties of undefined (reading 'handlers')")
  | Some dcxOptions =>
      Returns
        (match List.find
                 (fun serverHandler => bool_decide (ServerHandler.id serverHandler = id))
                 (DcxOptions.handlers dcxOptions) with
         | Some serverHandler => ServerHandler.handler serverHandler
         | None => staticHandler
         end)
  end.

Definition constructor {Handler} (prototype : Methods.t Handler)
    (dcxIssuerConfig : DcxIssuerConfig.t) (params : DcxIssuerParams.t Handler)
  : outcome (Instance.t Handler) :=
  let this := Instance.fresh prototype in
  selectCredentials ←
    findHandler_on this "selectCredentials" (Methods.selectCredentials (Instance.methods this));
  let this :=
    Instance.withMethods this
      {| Methods.selectCredentials := selectCredentials;
         Methods.verifyCredentials := Methods.verifyCredentials (Instance.methods this);
         Methods.requestCredential := Methods.requestCredential (Instance.methods this);
         Methods.issueCredential := Methods.issueCredential (Instance.methods this) |} in
  verifyCredentials ←
    findHandler_on this "verifyCredentials" (Methods.verifyCredentials (Instance.methods this));
  let this :=
    Instance.withMethods this
      {| Methods.selectCredentials := Methods.selectCredentials (Instance.methods this);
         Methods.verifyCredentials := verifyCredentials;
         Methods.requestCredential := Methods.requestCredential (Instance.methods this);
         Methods.issueCredential := Methods.issueCredential (Instance.methods this) |} in
  requestCredential ←
    findHandler_on this "requestCredential" (Methods.requestCredential (Instance.methods this));
  let this :=
    Instance.withMethods this
      {| Methods.selectCredentials := Methods.selectCredentials (Instance.methods this);
         Methods.verifyCredentials := Methods.verifyCredentials (Instance.methods this);
         Methods.requestCredential := requestCredential;
         Methods.issueCredential := Methods.issueCredential (Instance.methods this) |} in
  issueCredential ←
    findHandler_on this "issueCredential" (Methods.issueCredential (Instance.methods this));
  let this :=
    Instance.withMethods this
      {| Methods.selectCredentials := Methods.selectCredentials (Instance.methods this);
         Methods.verifyCredentials := Methods.verifyCredentials (Instance.methods this);
         Methods.requestCredential := Methods.requestCredential (Instance.methods this);
         Methods.issueCredential := issueCredential |} in
  let agent := DcxIssuerParams.agent params in
  let dcxConfig := DcxIssuerConfig.spread dcxIssuerConfig (DcxIssuerParams.config params) in
  let dcxOptions :=
    default
      {| DcxOptions.handlers := [];
         DcxOptions.providers := [];
         DcxOptions.manifests := [DcxIssuerConfig.DCX_HANDSHAKE_MANIFEST dcxConfig];
         DcxOptions.issuers := DcxIssuerConfig.DCX_INPUT_ISSUERS dcxConfig;
         DcxOptions.gateways := DcxIssuerConfig.gatewayUris dcxConfig;
         DcxOptions.dwns := DcxIssuerConfig.dwnEndpoints dcxConfig |}
      (DcxIssuerParams.options params) in
  mret {| Instance.methods := Instance.methods this;
          Instance.agent := Some agent;
          Instance.dcxConfig := Some dcxConfig;
          Instance.dcxOptions := Some dcxOptions |}.

(** ** The application pipeline

    [processRecord] works on the DWN, on the credential library and on the
    data provider at once; its state holds the three. *)

Module World.
Record t (Node : Type) : Type := mk {
  node : Node;
  calls : list call;
  sent : list (string * RequestInit.t);
}.
Arguments mk {Node} node calls sent.
Arguments node {Node} t.
Arguments calls {Node} t.
Arguments sent {Node} t.
End World.

Definition onNode {Node A} (m : Eff Node A) : Eff (World.t Node) A :=
  λ world,
    let '(o, node) := m (World.node world) in
    (o, {| World.node := node; World.calls := World.calls world;
           World.sent := World.sent world |}).

Definition onCalls {Node A} (m : Eff (list call) A) : Eff (World.t Node) A :=
  λ world,
    let '(o, calls) := m (World.calls world) in
    (o, {| World.node := World.node world; World.calls := calls;
           World.sent := World.sent world |}).

Definition onSent {Node A} (m : Eff (list (string * RequestInit.t)) A)
  : Eff (World.t Node) A :=
  λ world,
    let '(o, sent) := m (World.sent world) in
    (o, {| World.node := World.node world; World.calls := World.calls world;
           World.sent := sent |}).

Module VerifiablePresentation.
Record t : Type := mk { verifiableCredential : list string }.
End VerifiablePresentation.

Module ResponseCreateRequest.
Record t : Type := mk {
  data : IssuedCredential.t;
  store : bool;
  schema : string;
  protocol : string;
  dataFormat : string;
  protocolPath : string;
}.
End ResponseCreateRequest.

(** What the pipeline imports besides [Imports]: the schema of a response,
    the selection function of the credential library, and the JSON a
    credential object is serialized to in the body of the request to the
    provider. *)
Class PipelineImports : Type := {
  responseSchema_id : string;
  PresentationExchange_selectCredentials : list string -> json -> outcome (list string);
  credentialJson : VerifiableCredential.t -> json;
}.

(** The DWN calls of the pipeline that [Dwn] does not list: the payload of
    an application record, and the creation of a response record. *)
Class ApplicationDwn (Node : Type) : Type := {
  application_data_json : DwnRecord.t -> Eff Node VerifiablePresentation.t;
  response_create :
    ResponseCreateRequest.t -> Eff Node (DwnResponseStatus.t * option DwnRecord.t);
}.

(** The four stages as they are bound on the object: the methods of the
    class, or the handlers that stand in for them. *)
Module Stages.
Record t (Node : Type) : Type := mk {
  selectCredentials :
    VerifiablePresentation.t -> CredentialManifest.t -> Eff (World.t Node) (list string);
  verifyCredentials :
    list string -> CredentialManifest.t -> string ->
    Eff (World.t Node) (list VerifiableCredential.t);
  requestCredential : RequestCredentialParams.t -> Eff (World.t Node) json;
  issueCredential :
    json -> string -> CredentialManifest.t -> Eff (World.t Node) IssuedCredential.t;
}.
Arguments mk {Node} selectCredentials verifyCredentials requestCredential issueCredential.
Arguments selectCredentials {Node} t.
Arguments verifyCredentials {Node} t.
Arguments requestCredential {Node} t.
Arguments issueCredential {Node} t.
End Stages.

Section Pipeline.
Context {Handler : Type} `{Imports} `{CredentialLibrary} `{Http} `{PipelineImports}
  {Node : Type} `{Dwn Node} `{ApplicationDwn Node}.
Variable this : DcxIssuer.t Handler.

Definition selectCredentials (vp : VerifiablePresentation.t)
    (manifest : CredentialManifest.t) : outcome (list string) :=
  PresentationExchange_selectCredentials
    (VerifiablePresentation.verifiableCredential vp)
    (CredentialManifest.presentation_definition manifest).

(** The methods of the class as stages. *)
Definition methods : Stages.t Node :=
  {| Stages.selectCredentials vp manifest := lift (selectCredentials vp manifest);
     Stages.verifyCredentials vcJwts manifest subjectDid :=
       onCalls (verifyCredentials this vcJwts manifest subjectDid);
     Stages.requestCredential params := onSent (requestCredential this params);
     Stages.issueCredential data subjectDid manifest :=
       onCalls (issueCredential this data subjectDid manifest) |}.

(** [{ vcs: verified }]. *)
Definition requestBody (verified : list VerifiableCredential.t) : json :=
  JObject [("vcs", JArray (map credentialJson verified))].

Definition processRecord (stages : Stages.t Node) (record : DwnRecord.t)
    (manifest : CredentialManifest.t) (providerId : option string)
  : Eff (World.t Node) DwnResponseStatus.t :=
  vp ← onNode (application_data_json record);
  vcJwts ← Stages.selectCredentials stages vp manifest;
  let recordAuthor := DwnRecord.author record in
  verified ← Stages.verifyCredentials stages vcJwts manifest recordAuthor;
  data ← Stages.requestCredential stages
           {| RequestCredentialParams.body := requestBody verified;
              RequestCredentialParams.id := providerId |};
  vc ← Stages.issueCredential stages data recordAuthor manifest;
  '(create, responseRecord) ←
    onNode
      (response_create
         {| ResponseCreateRequest.data := vc;
            ResponseCreateRequest.store := true;
            ResponseCreateRequest.schema := responseSchema_id;
            ResponseCreateRequest.protocol := ProtocolDefinition.protocol issuer;
            ResponseCreateRequest.dataFormat := "application/json";
            ResponseCreateRequest.protocolPath := "application/response" |});
  if DwnUtils_isFailure (DwnResponseStatus.code create) then
    throw (DwnError (DwnResponseStatus.code create) (DwnResponseStatus.detail create))
  else
    match responseRecord with
    | None => throw (DcxProtocolHandlerError "Failed to create application response record.")
    | Some responseRecord =>
        send ← onNode (record_send responseRecord (Some recordAuthor));
        if DwnUtils_isFailure (DwnResponseStatus.code send) then
          throw (DwnError (DwnResponseStatus.code send) (DwnResponseStatus.detail send))
        else mret send
    end.

End Pipeline.

Section PipelineStages.
Context {Handler : Type} `{Imports} `{PipelineImports}
  {Node : Type} `{Dwn Node} `{ApplicationDwn Node}.

(** The four stages have returned: the credential [vc] has been issued,
    and the pipeline is about to create the response record in the state
    [issued]. *)
Definition stagesReturn (stages : Stages.t Node) (record : DwnRecord.t)
    (manifest : CredentialManifest.t) (providerId : option string)
    (world : World.t Node) (vc : IssuedCredential.t) (issued : World.t Node) : Prop :=
  ∃ vp read vcJwts selected verified checked data requested,
    onNode (application_data_json record) world = (Returns vp, read)
    ∧ Stages.selectCredentials stages vp manifest read = (Returns vcJwts, selected)
    ∧ Stages.verifyCredentials stages vcJwts manifest (DwnRecord.author record) selected
      = (Returns verified, checked)
    ∧ Stages.requestCredential stages
        {| RequestCredentialParams.body := requestBody verified;
           RequestCredentialParams.id := providerId |} checked
      = (Returns data, requested)
    ∧ Stages.issueCredential stages data (DwnRecord.author record) manifest requested
      = (Returns vc, issued).

End PipelineStages.

(** ** The applicant's configuration

    [applicantConfig] spreads the common configuration and sets ten keys
    from the environment.  [process.env] is a finite map from names to
    strings. *)

(** [value || fallback] for a string or [undefined] value: the empty
    string is falsy. *)
Definition orElse {A} (inject : string -> A) (value : option string) (fallback : A) : A :=
  match value with
  | Some s => if bool_decide (s = "") then fallback else inject s
  | None => fallback
  end.

(** [s.split(sep)] for a separator of one character. *)
Fixpoint split (sep : ascii) (s : string) : list string :=
  match s with
  | EmptyString => [""]
  | String c rest =>
      if bool_decide (c = sep) then "" :: split sep rest
      else
        match split sep rest with
        | first :: others => String c first :: others
        | [] => [String c ""]
        end
  end.

(** [value?.split(',') || fallback]: an array is truthy, the empty one
    too. *)
Definition splitOrElse (value : option string) (fallback : list string) : list string :=
  match value with
  | Some s => split "," s
  | None => fallback
  end.

Module ApplicantConfig.
Record t (DcxConfig : Type) : Type := mk {
  dcxConfig : DcxConfig;
  port : json;
  serviceName : string;
  serviceId : string;
  cursorFile : string;
  lastRecordIdFile : string;
  dwnEndpoints : list string;
  gatewayUris : list string;
  agentDataPath : string;
  web5Password : string;
  web5RecoveryPhrase : string;
}.
Arguments mk {DcxConfig}.
Arguments dcxConfig {DcxConfig} t.
Arguments port {DcxConfig} t.
Arguments serviceName {DcxConfig} t.
Arguments serviceId {DcxConfig} t.
Arguments cursorFile {DcxConfig} t.
Arguments lastRecordIdFile {DcxConfig} t.
Arguments dwnEndpoints {DcxConfig} t.
Arguments gatewayUris {DcxConfig} t.
Arguments agentDataPath {DcxConfig} t.
Arguments web5Password {DcxConfig} t.
Arguments web5RecoveryPhrase {DcxConfig} t.
End ApplicantConfig.

(** The keys of [dcxConfig] that [applicantConfig] does not set are in
    the field [dcxConfig]. *)
Definition applicantConfig {DcxConfig} (dcxConfig : DcxConfig) (env : gmap string string)
  : ApplicantConfig.t DcxConfig :=
  {| ApplicantConfig.dcxConfig := dcxConfig;
     ApplicantConfig.port := orElse JString (env !! "APPLICANT_PORT") (JNumber 5000);
     ApplicantConfig.serviceName :=
       orElse id (env !! "APPLICANT_SERVICE_NAME") "@dcx-protocol/applicant";
     ApplicantConfig.serviceId := orElse id (env !! "APPLICANT_SERVICE_ID") "dcx-applicant";
     ApplicantConfig.cursorFile :=
       orElse id (env !! "APPLICANT_CURSOR") "applicant-cursor.json";
     ApplicantConfig.lastRecordIdFile :=
       orElse id (env !! "APPLICANT_LAST_RECORD_ID") "lastRecordId.applicant";
     ApplicantConfig.dwnEndpoints :=
       splitOrElse (env !! "APPLICANT_DWN_ENDPOINTS") ["https://dwn.tbddev.org/beta"];
     ApplicantConfig.gatewayUris :=
       splitOrElse (env !! "APPLICANT_GATEWAY_URIS") ["https://diddht.tbddev.org/"];
     ApplicantConfig.agentDataPath :=
       orElse id (env !! "APPLICANT_WEB5_AGENT_DATA_PATH") "DATA/DCX/APPLICANT/AGENT";
     ApplicantConfig.web5Password := orElse id (env !! "APPLICANT_WEB5_PASSWORD") "";
     ApplicantConfig.web5RecoveryPhrase :=
       orElse id (env !! "APPLICANT_WEB5_RECOVERY_PHRASE") "" |}.

(** ** A scripted DWN

    A DWN that answers every call with a reply fixed in advance, and whose
    state is the list of the calls it has received, by name.  It serves to
    run the methods through replies the in-memory DWN never gives. *)

Module Scripted.

Record replies : Type := mk {
  protocolsQuery : outcome (DwnResponseStatus.t * option (list Protocol.t));
  protocolsConfigure : outcome (DwnResponseStatus.t * option Protocol.t);
  protocolSend : outcome DwnResponseStatus.t;
  recordsQuery : outcome (DwnResponseStatus.t * option (list DwnRecord.t) * option string);
  recordsRead : outcome (option DwnRecord.t);
  recordDataJson : outcome CredentialManifest.t;
  recordsCreate : outcome (DwnResponseStatus.t * option DwnRecord.t);
  recordSend : outcome DwnResponseStatus.t;
  applicationDataJson : outcome VerifiablePresentation.t;
  responseCreate : outcome (DwnResponseStatus.t * option DwnRecord.t);
}.

Definition answer {A} (name : string) (reply : outcome A) : Eff (list string) A :=
  λ received, (reply, received ++ [name]).

Definition dwn (r : replies) : Dwn (list string) := {|
  protocols_query _ := answer "protocols.query" (protocolsQuery r);
  protocols_configure _ := answer "protocols.configure" (protocolsConfigure r);
  protocol_send _ _ := answer "protocol.send" (protocolSend r);
  records_query _ := answer "records.query" (recordsQuery r);
  records_read _ := answer "records.read" (recordsRead r);
  record_data_json _ := answer "record.data.json" (recordDataJson r);
  records_create _ := answer "records.create" (recordsCreate r);
  record_send _ target := answer ("record.send " +:+ default "" target) (recordSend r);
|}.

Definition applicationDwn (r : replies) : ApplicationDwn (list string) := {|
  application_data_json _ := answer "record.data.json" (applicationDataJson r);
  response_create _ := answer "records.create" (responseCreate r);
|}.

Definition stored : DwnRecord.t :=
  {| DwnRecord.id := "record-0"; DwnRecord.author := "did:x:agent" |}.

Definition presentation : VerifiablePresentation.t :=
  {| VerifiablePresentation.verifiableCredential :=
       [Fixtures.tokenGood; Fixtures.tokenUnlisted] |}.

(** Every call succeeds: one protocol and one manifest record, for
    manifest [A], are on the DWN. *)
Definition fine : replies :=
  {| protocolsQuery :=
       Returns (MemoryNode.ok, Some [Protocol.mk (issuer (Imports := Fixtures.imports))]);
     protocolsConfigure :=
       Returns (MemoryNode.accepted,
                Some (Protocol.mk (issuer (Imports := Fixtures.imports))));
     protocolSend := Returns MemoryNode.accepted;
     recordsQuery := Returns (MemoryNode.ok, Some [stored], None);
     recordsRead := Returns (Some stored);
     recordDataJson := Returns Fixtures.manifestA;
     recordsCreate := Returns (MemoryNode.accepted, Some stored);
     recordSend := Returns MemoryNode.accepted;
     applicationDataJson := Returns presentation;
     responseCreate := Returns (MemoryNode.accepted, Some stored) |}.

Definition crash : error := LibraryError "connection reset".

(** [fine] with one reply changed. *)
Definition withProtocolsQuery reply : replies :=
  {| protocolsQuery := reply; protocolsConfigure := protocolsConfigure fine;
     protocolSend := protocolSend fine; recordsQuery := recordsQuery fine;
     recordsRead := recordsRead fine; recordDataJson := recordDataJson fine;
     recordsCreate := recordsCreate fine; recordSend := recordSend fine;
     applicationDataJson := applicationDataJson fine; responseCreate := responseCreate fine |}.

Definition withRecordsQuery reply : replies :=
  {| protocolsQuery := protocolsQuery fine; protocolsConfigure := protocolsConfigure fine;
     protocolSend := protocolSend fine; recordsQuery := reply;
     recordsRead := recordsRead fine; recordDataJson := recordDataJson fine;
     recordsCreate := recordsCreate fine; recordSend := recordSend fine;
     applicationDataJson := applicationDataJson fine; responseCreate := responseCreate fine |}.

Definition withRecordsRead reply : replies :=
  {| protocolsQuery := protocolsQuery fine; protocolsConfigure := protocolsConfigure fine;
     protocolSend := protocolSend fine; recordsQuery := recordsQuery fine;
     recordsRead := reply; recordDataJson := recordDataJson fine;
     recordsCreate := recordsCreate fine; recordSend := recordSend fine;
     applicationDataJson := applicationDataJson fine; responseCreate := responseCreate fine |}.

Definition withRecordsCreate reply : replies :=
  {| protocolsQuery := protocolsQuery fine; protocolsConfigure := protocolsConfigure fine;
     protocolSend := protocolSend fine; recordsQuery := recordsQuery fine;
     recordsRead := recordsRead fine; recordDataJson := recordDataJson fine;
     recordsCreate := reply; recordSend := recordSend fine;
     applicationDataJson := applicationDataJson fine; responseCreate := responseCreate fine |}.

Definition withRecordSend reply : replies :=
  {| protocolsQuery := protocolsQuery fine; protocolsConfigure := protocolsConfigure fine;
     protocolSend := protocolSend fine; recordsQuery := recordsQuery fine;
     recordsRead := recordsRead fine; recordDataJson := recordDataJson fine;
     recordsCreate := recordsCreate fine; recordSend := reply;
     applicationDataJson := applicationDataJson fine; responseCreate := responseCreate fine |}.

Definition withApplication reply : replies :=
  {| protocolsQuery := protocolsQuery fine; protocolsConfigure := protocolsConfigure fine;
     protocolSend := protocolSend fine; recordsQuery := recordsQuery fine;
     recordsRead := recordsRead fine; recordDataJson := recordDataJson fine;
     recordsCreate := recordsCreate fine; recordSend := recordSend fine;
     applicationDataJson := reply; responseCreate := responseCreate fine |}.

Definition withResponseCreate reply : replies :=
  {| protocolsQuery := protocolsQuery fine; protocolsConfigure := protocolsConfigure fine;
     protocolSend := protocolSend fine; recordsQuery := recordsQuery fine;
     recordsRead := recordsRead fine; recordDataJson := recordDataJson fine;
     recordsCreate := recordsCreate fine; recordSend := recordSend fine;
     applicationDataJson := applicationDataJson fine; responseCreate := reply |}.

(** No protocol on the DWN, and a configuration that throws. *)
Definition unconfigurable : replies :=
  {| protocolsQuery := Returns (MemoryNode.ok, Some []);
     protocolsConfigure := Throws crash;
     protocolSend := protocolSend fine; recordsQuery := recordsQuery fine;
     recordsRead := recordsRead fine; recordDataJson := recordDataJson fine;
     recordsCreate := recordsCreate fine; recordSend := recordSend fine;
     applicationDataJson := applicationDataJson fine; responseCreate := responseCreate fine |}.

End Scripted.

(** ** Further fixtures *)

Module Scenarios.

(** The credential library of the fixtures, with a creation or a signing
    that throws. *)
Definition library (createThrows signThrows : bool) : CredentialLibrary := {|
  satisfiesPresentationDefinition :=
    satisfiesPresentationDefinition (CredentialLibrary := Fixtures.library);
  parseJwt := parseJwt (CredentialLibrary := Fixtures.library);
  verify := verify (CredentialLibrary := Fixtures.library);
  create options :=
    if createThrows then Throws (LibraryError "cannot create")
    else create (CredentialLibrary := Fixtures.library) options;
  sign vc did :=
    if signThrows then Throws (LibraryError "cannot sign")
    else sign (CredentialLibrary := Fixtures.library) vc did;
|}.

(** A manifest without output descriptors. *)
Definition manifestE : CredentialManifest.t := Fixtures.manifest "E" [].

(** The selection keeps every token, and throws on an empty
    presentation. *)
Definition pipelineImports : PipelineImports := {|
  responseSchema_id := "https://dcxprotocol.com/schemas/response";
  PresentationExchange_selectCredentials vcJwts _ :=
    match vcJwts with
    | [] => Throws (LibraryError "nothing to select from")
    | _ => Returns vcJwts
    end;
  credentialJson vc :=
    JObject [("subject", JString (VerifiableCredential.subject vc));
             ("issuer",
              JString (VcDataModel.issuer (VerifiableCredential.vcDataModel vc)))];
|}.

Definition data : json := JObject [("score", JNumber 7)].

Definition http : Http := Fixtures.http 200 data.

(** An application by [did:x:B]. *)
Definition application : DwnRecord.t :=
  {| DwnRecord.id := "application-0"; DwnRecord.author := Fixtures.author |}.

Definition emptyPresentation : VerifiablePresentation.t :=
  {| VerifiablePresentation.verifiableCredential := [] |}.

Definition unsatisfyingPresentation : VerifiablePresentation.t :=
  {| VerifiablePresentation.verifiableCredential := ["unsatisfying"] |}.

(** A presentation whose only credential is from an issuer in neither
    list. *)
Definition unlistedPresentation : VerifiablePresentation.t :=
  {| VerifiablePresentation.verifiableCredential := [Fixtures.tokenUnlisted] |}.

Definition start : World.t (list string) :=
  {| World.node := []; World.calls := []; World.sent := [] |}.

(** The methods of the class as stages, over the scripted DWN. *)
Definition stages : Stages.t (list string) :=
  @methods _ Fixtures.imports Fixtures.library http pipelineImports (list string)
    Fixtures.verifier.

Definition run (r : Scripted.replies) (manifest : CredentialManifest.t)
    (providerId : option string) (world : World.t (list string))
  : outcome DwnResponseStatus.t * World.t (list string) :=
  @processRecord Fixtures.imports pipelineImports (list string)
    (Scripted.dwn r) (Scripted.applicationDwn r) stages application manifest providerId
    world.

(** An issuer configured with manifest [A] alone, and the in-memory DWN
    after its [setup]. *)
Definition oneManifest : DcxIssuer.t string := Fixtures.dcxIssuer [] [Fixtures.manifestA].

Definition afterOneSetup : MemoryNode.t :=
  snd (@setup _ Fixtures.imports _ Fixtures.healthy oneManifest MemoryNode.empty).

(** Manifests [A] and [B] as [setup] stores them. *)
Definition storedA : CredentialManifest.t := withAgentIssuer Fixtures.verifier Fixtures.manifestA.
Definition storedB : CredentialManifest.t := withAgentIssuer Fixtures.verifier Fixtures.manifestB.

(** The state in which the scripted DWN has answered the given calls. *)
Definition answered (received : list string) (calls : list call)
    (sent : list (string * RequestInit.t)) : World.t (list string) :=
  {| World.node := received; World.calls := calls; World.sent := sent |}.

(** The calls of a verification of [tokenGood] and [tokenUnlisted], and
    of an issuance to the author over the provider's data. *)
Definition verificationCalls (manifest : CredentialManifest.t) : list call :=
  [ SatisfiesPresentationDefinition [Fixtures.tokenGood; Fixtures.tokenUnlisted]
      (CredentialManifest.presentation_definition manifest);
    ParseJwt Fixtures.tokenGood; Verify Fixtures.tokenGood; ParseJwt Fixtures.tokenUnlisted ].

Definition issuanceCalls : list call :=
  [ Create
      {| VerifiableCredentialCreateOptions.data := data;
         VerifiableCredentialCreateOptions.subject := Fixtures.author;
         VerifiableCredentialCreateOptions.issuer := "did:x:agent";
         VerifiableCredentialCreateOptions.type := "CredentialA" |};
    Sign
      {| VerifiableCredential.vcDataModel :=
           {| VcDataModel.issuer := "did:x:agent";
              VcDataModel.type := "CredentialA";
              VcDataModel.credentialSubject := data |};
         VerifiableCredential.subject := Fixtures.author |}
      {| BearerDid.uri := "did:x:agent" |} ].

Definition request : string * RequestInit.t :=
  ("https://provider.example/vc-data",
   {| RequestInit.method := "POST"; RequestInit.headers := JObject [];
      RequestInit.body := "{}" |}).

Definition issued : IssuedCredential.t :=
  {| IssuedCredential.fulfillment :=
       {| Fulfillment.descriptor_map :=
            [ {| DescriptorMapEntry.id := "output-a";
                 DescriptorMapEntry.format := "jwt_vc";
                 DescriptorMapEntry.path := "$.verifiableCredential[0]" |} ] |};
     IssuedCredential.verifiableCredential :=
       [Fixtures.token Fixtures.author "did:x:agent" "good"] |}.

Definition environment : gmap string string :=
  {[ "APPLICANT_DWN_ENDPOINTS" := "https://a.example,https://b.example";
     "APPLICANT_GATEWAY_URIS" := "";
     "APPLICANT_SERVICE_NAME" := "";
     "APPLICANT_SERVICE_ID" := "applicant-7";
     "APPLICANT_PORT" := "8080" ]}.

End Scenarios.

(** * Properties *)

(** ** Handler registry *)

Section HandlerRegistry.
Context {Handler : Type}.
Implicit Types (this : DcxIssuer.t Handler) (id : string).

Lemma find_first_match (entries before after : list (ServerHandler.t Handler)) entry id :
  entries = before ++ entry :: after →
  ServerHandler.id entry = id →
  Forall (λ earlier, ServerHandler.id earlier ≠ id) before →
  List.find (λ serverHandler, bool_decide (ServerHandler.id serverHandler = id)) entries
  = Some entry.
Proof.
  intros -> Hid Hbefore.
  induction Hbefore as [|earlier before Hne _ IH]; simpl.
  - by rewrite bool_decide_eq_true_2.
  - by rewrite bool_decide_eq_false_2.
Qed.

Lemma find_no_match (entries : list (ServerHandler.t Handler)) id :
  Forall (λ entry, ServerHandler.id entry ≠ id) entries →
  List.find (λ serverHandler, bool_decide (ServerHandler.id serverHandler = id)) entries
  = None.
Proof.
  induction 1 as [|entry entries Hne _ IH]; simpl; [done|].
  by rewrite bool_decide_eq_false_2.
Qed.

(** C10.  When several entries of the caller's handler list carry the
    operation id, [findHandler] returns the handler of the first of them
    in list order, whatever follows it; when no entry carries the id, it
    returns the built-in handler it was given. *)
Theorem findHandler_first_match_or_default this id (staticHandler : Handler) :
  (∀ before entry after,
      DcxOptions.handlers (DcxIssuer.dcxOptions this) = before ++ entry :: after →
      ServerHandler.id entry = id →
      Forall (λ earlier, ServerHandler.id earlier ≠ id) before →
      findHandler this id staticHandler = ServerHandler.handler entry)
  ∧ (Forall (λ entry, ServerHandler.id entry ≠ id)
       (DcxOptions.handlers (DcxIssuer.dcxOptions this)) →
     findHandler this id staticHandler = staticHandler).
Proof.
  split.
  - intros before entry after Hsplit Hid Hbefore. unfold findHandler.
    by rewrite (find_first_match _ before after entry id).
  - intros Hnone. unfold findHandler. by rewrite find_no_match.
Qed.

End HandlerRegistry.

(** Two overrides of [verifyCredentials] and one of [issueCredential]:
    the first override of [verifyCredentials] wins, and [selectCredentials],
    which has no override, keeps its built-in handler. *)
Lemma findHandler_first_match_or_default_witness :
  findHandler (Fixtures.dcxIssuer Fixtures.overrides []) "verifyCredentials" "builtinVerify"
  = "customVerify1"
  ∧ findHandler (Fixtures.dcxIssuer Fixtures.overrides []) "selectCredentials" "builtinSelect"
    = "builtinSelect".
Proof.
  split.
  - apply (proj1 (findHandler_first_match_or_default
                    (Fixtures.dcxIssuer Fixtures.overrides []) "verifyCredentials"
                    "builtinVerify")
             [ServerHandler.mk "issueCredential" "customIssue"]
             (ServerHandler.mk "verifyCredentials" "customVerify1")
             [ServerHandler.mk "verifyCredentials" "customVerify2"]).
    + reflexivity.
    + reflexivity.
    + repeat constructor. simpl. discriminate.
  - apply (proj2 (findHandler_first_match_or_default
                    (Fixtures.dcxIssuer Fixtures.overrides []) "selectCredentials"
                    "builtinSelect")).
    repeat constructor; simpl; discriminate.
Defined.

(** ** Manifest reconciliation *)

Section ManifestReconciler.
Context {Handler : Type}.
Implicit Types (this : DcxIssuer.t Handler).

(** What [filterRecords] computes: the configured manifests for which
    some existing manifest has a different id. *)
Lemma filterRecords_keeps this (manifestRecords : list CredentialManifest.t) manifest :
  manifest ∈ filterRecords this manifestRecords ↔
  manifest ∈ DcxOptions.manifests (DcxIssuer.dcxOptions this)
  ∧ ∃ manifestRecord,
      manifestRecord ∈ manifestRecords
      ∧ CredentialManifest.id manifestRecord ≠ CredentialManifest.id manifest.
Proof.
  unfold filterRecords. rewrite !list_elem_of_In, filter_In.
  apply and_iff_compat_l.
  destruct (List.find _ manifestRecords) as [found|] eqn:Hfind; split.
  - intros _. apply find_some in Hfind as [Hin Hne].
    exists found. rewrite list_elem_of_In. split; [done|].
    apply negb_true_iff, bool_decide_eq_false in Hne. congruence.
  - done.
  - done.
  - intros (manifestRecord & Hin & Hne). exfalso.
    apply list_elem_of_In in Hin.
    pose proof (find_none _ _ Hfind _ Hin) as Hnone. simpl in Hnone.
    apply negb_false_iff, bool_decide_eq_true in Hnone. congruence.
Qed.

End ManifestReconciler.

(** C1.  With manifest [A] configured and manifests [A] and [B] on the DWN,
    [filterRecords] reports [A] as missing, because [B] has another id,
    where the missing set of the specification is empty; and against an
    empty list of existing manifests it reports nothing, where every
    configured manifest is missing. *)
Theorem filterRecords_differs_from_computeMissing :
  filterRecords (Fixtures.dcxIssuer [] [Fixtures.manifestA])
    [Fixtures.manifestA; Fixtures.manifestB] = [Fixtures.manifestA]
  ∧ computeMissing [Fixtures.manifestA] [Fixtures.manifestA; Fixtures.manifestB] = []
  ∧ filterRecords (Fixtures.dcxIssuer [] [Fixtures.manifestA]) [] = []
  ∧ computeMissing [Fixtures.manifestA] [] = [Fixtures.manifestA].
Proof. repeat split; vm_compute; reflexivity. Qed.

(** C2.  An issuer configured with manifests [A] and [B] sets up an empty
    DWN: the first run stores one record for each.  The second run, against
    that state, finds both records, its filter step reports both manifests
    as missing, and it stores them again: the DWN ends with two records for
    each manifest id.  The protocol is configured once. *)
Theorem setup_second_run_duplicates_manifest_records :
  fst (@setup _ Fixtures.imports _ Fixtures.healthy Fixtures.twoManifests MemoryNode.empty)
  = Returns tt
  ∧ Fixtures.manifestIds Fixtures.afterFirstSetup = ["A"; "B"]
  ∧ filterRecords Fixtures.twoManifests
      (map snd (MemoryNode.records Fixtures.afterFirstSetup))
    = [Fixtures.manifestA; Fixtures.manifestB]
  ∧ fst (@setup _ Fixtures.imports _ Fixtures.healthy Fixtures.twoManifests
           Fixtures.afterFirstSetup)
    = Returns tt
  ∧ Fixtures.manifestIds Fixtures.afterSecondSetup = ["A"; "B"; "A"; "B"]
  ∧ length (MemoryNode.protocols Fixtures.afterFirstSetup) = 1
  ∧ length (MemoryNode.protocols Fixtures.afterSecondSetup) = 1.
Proof. repeat split; vm_compute; reflexivity. Qed.

(** ** Verification of the presented credentials *)

Section VerifyCredentials.
Context {Handler : Type} `{Imports} `{CredentialLibrary}.
Variable this : DcxIssuer.t Handler.
Implicit Types (vcJwt subjectDid : string) (vcJwts : list string)
  (calls : list call) (vc : VerifiableCredential.t).

Lemma issuerDidSet_allowedIssuer (issuerDid : string) :
  bool_decide (issuerDid ∈ issuerDidSet this) = allowedIssuer this issuerDid.
Proof.
  unfold issuerDidSet, allowedIssuer.
  apply eq_true_iff_eq.
  rewrite orb_true_iff, !bool_decide_eq_true, elem_of_list_to_set, map_app, elem_of_app.
  done.
Qed.

(** One turn of the loop, by cases on what the library answers. *)
Lemma body_parse_throws subjectDid vcJwt calls e :
  parseJwt vcJwt = Throws e →
  verifyCredentials_body this subjectDid vcJwt calls = (Throws e, calls ++ [ParseJwt vcJwt]).
Proof.
  intros Hparse. unfold verifyCredentials_body, mbind, eff_mbind, eff_bind, invoke.
  by rewrite Hparse.
Qed.

Lemma body_subject_differs subjectDid vcJwt calls vc :
  parseJwt vcJwt = Returns vc →
  VerifiableCredential.subject vc ≠ subjectDid →
  verifyCredentials_body this subjectDid vcJwt calls
  = (Returns None, calls ++ [ParseJwt vcJwt]).
Proof.
  intros Hparse Hsubject. unfold verifyCredentials_body, mbind, eff_mbind, eff_bind, invoke.
  rewrite Hparse. by rewrite bool_decide_eq_false_2.
Qed.

Lemma body_issuer_not_allowed subjectDid vcJwt calls vc :
  parseJwt vcJwt = Returns vc →
  VerifiableCredential.subject vc = subjectDid →
  allowedIssuer this (VcDataModel.issuer (VerifiableCredential.vcDataModel vc)) = false →
  verifyCredentials_body this subjectDid vcJwt calls
  = (Returns None, calls ++ [ParseJwt vcJwt]).
Proof.
  intros Hparse Hsubject Hissuer.
  unfold verifyCredentials_body, mbind, eff_mbind, eff_bind, invoke.
  rewrite Hparse, bool_decide_eq_true_2 by done. simpl.
  by rewrite issuerDidSet_allowedIssuer, Hissuer.
Qed.

Lemma body_verified subjectDid vcJwt calls vc :
  parseJwt vcJwt = Returns vc →
  VerifiableCredential.subject vc = subjectDid →
  allowedIssuer this (VcDataModel.issuer (VerifiableCredential.vcDataModel vc)) = true →
  verifyCredentials_body this subjectDid vcJwt calls
  = (match verify vcJwt with
     | Returns verified =>
         Returns (if negb (truthy verified) || Objects_isEmpty verified
                  then None else Some vc)
     | Throws e => Throws e
     end,
     calls ++ [ParseJwt vcJwt; Verify vcJwt]).
Proof.
  intros Hparse Hsubject Hissuer.
  unfold verifyCredentials_body, mbind, eff_mbind, eff_bind, invoke.
  rewrite Hparse, bool_decide_eq_true_2 by done. simpl.
  rewrite issuerDidSet_allowedIssuer, Hissuer. simpl.
  rewrite <- app_assoc. simpl.
  destruct (verify vcJwt) as [verified|e]; [|done].
  by destruct (negb (truthy verified) || Objects_isEmpty verified).
Qed.

(** The four cases are all there are. *)
Lemma body_cases subjectDid vcJwt calls :
  (∃ e, parseJwt vcJwt = Throws e
        ∧ verifyCredentials_body this subjectDid vcJwt calls
          = (Throws e, calls ++ [ParseJwt vcJwt]))
  ∨ (∃ vc, parseJwt vcJwt = Returns vc
           ∧ (VerifiableCredential.subject vc ≠ subjectDid
              ∨ allowedIssuer this
                  (VcDataModel.issuer (VerifiableCredential.vcDataModel vc)) = false)
           ∧ keeps this subjectDid vcJwt = None
           ∧ verifyCredentials_body this subjectDid vcJwt calls
             = (Returns None, calls ++ [ParseJwt vcJwt]))
  ∨ (∃ vc, parseJwt vcJwt = Returns vc
           ∧ VerifiableCredential.subject vc = subjectDid
           ∧ allowedIssuer this
               (VcDataModel.issuer (VerifiableCredential.vcDataModel vc)) = true
           ∧ verifyCredentials_body this subjectDid vcJwt calls
             = (match verify vcJwt with
                | Returns _ => Returns (keeps this subjectDid vcJwt)
                | Throws e => Throws e
                end,
                calls ++ [ParseJwt vcJwt; Verify vcJwt])).
Proof.
  destruct (parseJwt vcJwt) as [vc|e] eqn:Hparse.
  - right.
    destruct (decide (VerifiableCredential.subject vc = subjectDid)) as [Hsubject|Hsubject].
    + destruct (allowedIssuer this (VcDataModel.issuer (VerifiableCredential.vcDataModel vc)))
        eqn:Hissuer.
      * right. exists vc. repeat split; try done.
        rewrite (body_verified _ _ _ vc) by done.
        unfold keeps, verificationPassed. rewrite Hparse, Hissuer.
        rewrite bool_decide_eq_true_2 by done. simpl.
        destruct (verify vcJwt) as [verified|e]; [|done].
        by destruct (truthy verified), (Objects_isEmpty verified).
      * left. exists vc. repeat split; try done.
        -- by right.
        -- unfold keeps. rewrite Hparse, Hissuer.
           by rewrite andb_false_r.
        -- by apply (body_issuer_not_allowed _ _ _ vc).
    + left. exists vc. repeat split; try done.
      * by left.
      * unfold keeps. rewrite Hparse. by rewrite bool_decide_eq_false_2.
      * by apply (body_subject_differs _ _ _ vc).
  - left. exists e. split; [done|]. by apply body_parse_throws.
Qed.

(** A turn that returns, returns what the policy says. *)
Lemma body_returns subjectDid vcJwt calls pushed calls' :
  verifyCredentials_body this subjectDid vcJwt calls = (Returns pushed, calls') →
  pushed = keeps this subjectDid vcJwt.
Proof.
  intros Hbody.
  destruct (body_cases subjectDid vcJwt calls)
    as [(e & _ & Heq)|[(vc & _ & _ & Hkeeps & Heq)|(vc & _ & _ & _ & Heq)]];
    rewrite Heq in Hbody.
  - done.
  - congruence.
  - destruct (verify vcJwt); congruence.
Qed.

(** The outcome of a turn does not depend on the calls made before it. *)
Lemma body_outcome subjectDid vcJwt calls :
  fst (verifyCredentials_body this subjectDid vcJwt calls) = verdict this subjectDid vcJwt.
Proof.
  unfold verdict.
  destruct (body_cases subjectDid vcJwt calls)
    as [(e & Hparse & Heq)|[(vc & Hparse & Hwhy & _ & Heq)|(vc & Hparse & Hs & Hi & Heq)]];
    rewrite Heq; simpl.
  - by rewrite (body_parse_throws _ _ _ e).
  - destruct Hwhy as [Hsubject|Hissuer].
    + by rewrite (body_subject_differs _ _ _ vc).
    + destruct (decide (VerifiableCredential.subject vc = subjectDid)) as [Hsubject|Hsubject].
      * by rewrite (body_issuer_not_allowed _ _ _ vc).
      * by rewrite (body_subject_differs _ _ _ vc).
  - destruct (body_cases subjectDid vcJwt [])
      as [(e' & Hparse' & _)|[(vc' & Hparse' & Hwhy & _)|(vc' & _ & _ & _ & Heq')]].
    + congruence.
    + assert (vc' = vc) as -> by congruence.
      destruct Hwhy; congruence.
    + by rewrite Heq'.
Qed.

(** [Verify] is called on a token only after its subject and its issuer
    have been accepted. *)
Lemma body_calls subjectDid vcJwt calls :
  ∃ made,
    snd (verifyCredentials_body this subjectDid vcJwt calls) = calls ++ made
    ∧ ∀ other, Verify other ∈ made →
        ∃ vc, parseJwt other = Returns vc
              ∧ VerifiableCredential.subject vc = subjectDid
              ∧ allowedIssuer this
                  (VcDataModel.issuer (VerifiableCredential.vcDataModel vc)) = true.
Proof.
  destruct (body_cases subjectDid vcJwt calls)
    as [(e & _ & Heq)|[(vc & _ & _ & _ & Heq)|(vc & Hparse & Hs & Hi & Heq)]];
    rewrite Heq; simpl.
  - exists [ParseJwt vcJwt]. split; [done|].
    by intros other Hin%list_elem_of_singleton.
  - exists [ParseJwt vcJwt]. split; [done|].
    by intros other Hin%list_elem_of_singleton.
  - exists [ParseJwt vcJwt; Verify vcJwt]. split; [done|].
    intros other [Hin|Hin%list_elem_of_singleton]%elem_of_cons; [done|].
    injection Hin as ->. by exists vc.
Qed.

(** The loop: its result when it returns, and when it returns. *)
Lemma loop_returns subjectDid vcJwts :
  ∀ verifiedCredentials calls out calls',
    verifyCredentials_loop this subjectDid vcJwts verifiedCredentials calls
    = (Returns out, calls') →
    out = verifiedCredentials ++ omap (keeps this subjectDid) vcJwts
    ∧ Forall (λ vcJwt, returned (verdict this subjectDid vcJwt) = true) vcJwts.
Proof.
  induction vcJwts as [|vcJwt rest IH]; intros acc calls out calls' Hloop.
  - simpl in Hloop. unfold eff_ret in Hloop. injection Hloop as <- _.
    by rewrite app_nil_r.
  - simpl in Hloop. unfold mbind, eff_mbind, eff_bind in Hloop.
    pose proof (body_outcome subjectDid vcJwt calls) as Hout.
    destruct (verifyCredentials_body this subjectDid vcJwt calls) as [[pushed|e] calls1]
      eqn:Hbody; [|done].
    apply body_returns in Hbody as Hpushed. simpl in Hout.
    apply IH in Hloop as [-> Hrest]. split.
    + simpl. subst pushed. destruct (keeps this subjectDid vcJwt); [|done].
      by rewrite <- app_assoc.
    + constructor; [|done]. by rewrite <- Hout.
Qed.

Lemma loop_total subjectDid vcJwts :
  Forall (λ vcJwt, returned (verdict this subjectDid vcJwt) = true) vcJwts →
  ∀ verifiedCredentials calls,
    ∃ calls',
      verifyCredentials_loop this subjectDid vcJwts verifiedCredentials calls
      = (Returns (verifiedCredentials ++ omap (keeps this subjectDid) vcJwts), calls').
Proof.
  induction 1 as [|vcJwt rest Hhead _ IH]; intros acc calls.
  - exists calls. simpl. by rewrite app_nil_r.
  - simpl. unfold mbind, eff_mbind, eff_bind.
    pose proof (body_outcome subjectDid vcJwt calls) as Hout.
    destruct (verifyCredentials_body this subjectDid vcJwt calls) as [[pushed|e] calls1]
      eqn:Hbody; simpl in Hout.
    + apply body_returns in Hbody as ->.
      destruct (keeps this subjectDid vcJwt) as [vc|].
      * destruct (IH (acc ++ [vc]) calls1) as [calls' ->]. exists calls'.
        by rewrite <- app_assoc.
      * apply IH.
    + rewrite <- Hout in Hhead. done.
Qed.

Lemma loop_calls subjectDid vcJwts :
  ∀ verifiedCredentials calls,
    ∃ made,
      snd (verifyCredentials_loop this subjectDid vcJwts verifiedCredentials calls)
      = calls ++ made
      ∧ ∀ other, Verify other ∈ made →
          ∃ vc, parseJwt other = Returns vc
                ∧ VerifiableCredential.subject vc = subjectDid
                ∧ allowedIssuer this
                    (VcDataModel.issuer (VerifiableCredential.vcDataModel vc)) = true.
Proof.
  induction vcJwts as [|vcJwt rest IH]; intros acc calls.
  - exists []. simpl. rewrite app_nil_r. split; [done|].
    by intros other Hin%elem_of_nil.
  - simpl. unfold mbind, eff_mbind, eff_bind.
    destruct (body_calls subjectDid vcJwt calls) as (made1 & Hsnd & Hmade1).
    destruct (verifyCredentials_body this subjectDid vcJwt calls) as [[pushed|e] calls1];
      simpl in Hsnd; subst calls1.
    + match goal with |- context [verifyCredentials_loop _ _ _ ?a _] =>
        destruct (IH a (calls ++ made1)) as (made2 & -> & Hmade2) end.
      exists (made1 ++ made2). rewrite app_assoc. split; [done|].
      intros other [Hin|Hin]%elem_of_app; auto.
    + exists made1. split; [done|]. done.
Qed.

End VerifyCredentials.

Section VerifyCredentialsClaims.
Context {Handler : Type} `{Imports} `{CredentialLibrary}.
Variable this : DcxIssuer.t Handler.
Implicit Types (vcJwt subjectDid : string) (vcJwts : list string)
  (calls : list call) (vc : VerifiableCredential.t) (manifest : CredentialManifest.t).

Lemma keeps_Some subjectDid vcJwt vc :
  keeps this subjectDid vcJwt = Some vc →
  parseJwt vcJwt = Returns vc
  ∧ VerifiableCredential.subject vc = subjectDid
  ∧ allowedIssuer this (VcDataModel.issuer (VerifiableCredential.vcDataModel vc)) = true
  ∧ verificationPassed vcJwt = true.
Proof.
  unfold keeps. destruct (parseJwt vcJwt) as [parsed|e]; [|done].
  destruct (bool_decide _ && _ && _) eqn:Hall; [|done].
  intros [= ->].
  apply andb_true_iff in Hall as [[Hs%bool_decide_eq_true Hi]%andb_true_iff Hv].
  done.
Qed.

Lemma verifyCredentials_returns vcJwts manifest subjectDid calls out calls' :
  verifyCredentials this vcJwts manifest subjectDid calls = (Returns out, calls') →
  satisfiesPresentationDefinition vcJwts (CredentialManifest.presentation_definition manifest)
  = Returns tt
  ∧ out = omap (keeps this subjectDid) vcJwts
  ∧ Forall (λ vcJwt, returned (verdict this subjectDid vcJwt) = true) vcJwts.
Proof.
  unfold verifyCredentials, mbind, eff_mbind, eff_bind, invoke.
  destruct (satisfiesPresentationDefinition _ _) as [[]|e]; [|done].
  intros [-> Hall]%loop_returns. done.
Qed.

Lemma verifyCredentials_total vcJwts manifest subjectDid calls :
  satisfiesPresentationDefinition vcJwts (CredentialManifest.presentation_definition manifest)
  = Returns tt →
  Forall (λ vcJwt, returned (verdict this subjectDid vcJwt) = true) vcJwts →
  ∃ calls',
    verifyCredentials this vcJwts manifest subjectDid calls
    = (Returns (omap (keeps this subjectDid) vcJwts), calls').
Proof.
  intros Hsat Hall. unfold verifyCredentials, mbind, eff_mbind, eff_bind, invoke.
  rewrite Hsat.
  apply (loop_total this subjectDid vcJwts Hall []).
Qed.

(** C3.  A token whose parsed subject is not the submission's author ends
    its turn of the loop with [continue]: nothing is thrown, nothing is
    pushed, and the token is not verified.  Every credential
    [verifyCredentials] returns has the author as its subject.  And when
    a token the call keeps (subject the author, issuer allowed,
    verification neither falsy nor empty) is replaced by a token with
    another subject, and the token list still satisfies the presentation
    definition, the call returns one credential less. *)
Theorem verifyCredentials_drops_foreign_subject manifest subjectDid :
  (∀ vcJwt vc calls,
      parseJwt vcJwt = Returns vc →
      VerifiableCredential.subject vc ≠ subjectDid →
      verifyCredentials_body this subjectDid vcJwt calls
      = (Returns None, calls ++ [ParseJwt vcJwt]))
  ∧ (∀ vcJwts calls out calls',
        verifyCredentials this vcJwts manifest subjectDid calls = (Returns out, calls') →
        Forall (λ vc, VerifiableCredential.subject vc = subjectDid) out)
  ∧ (∀ before kept after swapped vcKept vcSwapped verified calls out calls',
        parseJwt kept = Returns vcKept →
        VerifiableCredential.subject vcKept = subjectDid →
        allowedIssuer this
          (VcDataModel.issuer (VerifiableCredential.vcDataModel vcKept)) = true →
        verify kept = Returns verified →
        truthy verified = true →
        Objects_isEmpty verified = false →
        parseJwt swapped = Returns vcSwapped →
        VerifiableCredential.subject vcSwapped ≠ subjectDid →
        satisfiesPresentationDefinition (before ++ swapped :: after)
          (CredentialManifest.presentation_definition manifest) = Returns tt →
        verifyCredentials this (before ++ kept :: after) manifest subjectDid calls
        = (Returns out, calls') →
        ∃ out' calls'',
          verifyCredentials this (before ++ swapped :: after) manifest subjectDid calls
          = (Returns out', calls'')
          ∧ length out = S (length out')).
Proof.
  split; [|split].
  - intros vcJwt vc calls Hparse Hsubject. by apply (body_subject_differs _ _ _ _ vc).
  - intros vcJwts calls out calls' (_ & -> & _)%verifyCredentials_returns.
    apply Forall_forall. intros vc (vcJwt & _ & Hkeeps)%list_elem_of_omap.
    by apply keeps_Some in Hkeeps as (_ & ? & _).
  - intros before kept after swapped vcKept vcSwapped verified calls out calls'
      HparseK HsubjectK HissuerK HverifyK Htruthy Hempty HparseS HsubjectS Hsat Hrun.
    apply verifyCredentials_returns in Hrun as (_ & -> & Hall).
    apply Forall_app in Hall as [Hbefore Hafter%Forall_cons_1]. destruct Hafter as [_ Hafter].
    assert (verdict this subjectDid swapped = Returns None) as Hverdict.
    { unfold verdict. by rewrite (body_subject_differs _ _ _ _ vcSwapped). }
    assert (keeps this subjectDid swapped = None) as HkeepsS.
    { unfold keeps. rewrite HparseS. by rewrite bool_decide_eq_false_2. }
    assert (keeps this subjectDid kept = Some vcKept) as HkeepsK.
    { unfold keeps, verificationPassed.
      rewrite HparseK, HissuerK, HverifyK, Htruthy, Hempty.
      by rewrite bool_decide_eq_true_2. }
    destruct (verifyCredentials_total (before ++ swapped :: after) manifest subjectDid calls)
      as [calls'' Hrun']; [done| |].
    { apply Forall_app. split; [done|]. constructor; [|done]. by rewrite Hverdict. }
    eexists _, calls''. split; [exact Hrun'|].
    rewrite !omap_app. simpl. rewrite HkeepsS, HkeepsK.
    rewrite !length_app. simpl. lia.
Qed.

(** A turn returns when the token parses and, in case it passes the two
    checks, its verification returns. *)
Lemma verdict_returns subjectDid vcJwt :
  (∃ vc, parseJwt vcJwt = Returns vc
         ∧ (VerifiableCredential.subject vc = subjectDid →
            allowedIssuer this
              (VcDataModel.issuer (VerifiableCredential.vcDataModel vc)) = true →
            returned (verify vcJwt) = true)) →
  returned (verdict this subjectDid vcJwt) = true.
Proof.
  intros (vc & Hparse & Hverify). unfold verdict.
  destruct (body_cases this subjectDid vcJwt [])
    as [(e & Hthrows & _)|[(vc' & _ & _ & _ & ->)|(vc' & Hparse' & Hs & Hi & ->)]].
  - congruence.
  - done.
  - assert (vc' = vc) as -> by congruence.
    specialize (Hverify Hs Hi). simpl.
    by destruct (verify vcJwt).
Qed.

(** C4.  A token whose parsed issuer is neither in the configured nor in
    the static issuer list ends its turn of the loop with [continue]:
    nothing is thrown, nothing is pushed, and the token is not handed to
    [verify], whatever its signature.  When the token list satisfies the
    presentation definition, every token parses, and the verification of
    the tokens that pass the subject and the issuer check returns,
    [verifyCredentials] returns, and what it returns is the list of the
    kept tokens in input order, those of an unlisted issuer not among
    them.  Whatever [verifyCredentials] returns is that list, each
    credential in it has an issuer from one of the two lists, and in no
    run is a token of an issuer in neither list handed to [verify]. *)
Theorem verifyCredentials_drops_unlisted_issuer vcJwts manifest subjectDid calls :
  (∀ vcJwt vc calls0,
      parseJwt vcJwt = Returns vc →
      VcDataModel.issuer (VerifiableCredential.vcDataModel vc)
        ∉ map Issuer.id (DcxOptions.issuers (DcxIssuer.dcxOptions this)) →
      VcDataModel.issuer (VerifiableCredential.vcDataModel vc)
        ∉ map Issuer.id DCX_INPUT_ISSUERS →
      verifyCredentials_body this subjectDid vcJwt calls0
      = (Returns None, calls0 ++ [ParseJwt vcJwt]))
  ∧ (satisfiesPresentationDefinition vcJwts
       (CredentialManifest.presentation_definition manifest) = Returns tt →
     Forall
       (λ vcJwt,
          ∃ vc, parseJwt vcJwt = Returns vc
                ∧ (VerifiableCredential.subject vc = subjectDid →
                   allowedIssuer this
                     (VcDataModel.issuer (VerifiableCredential.vcDataModel vc)) = true →
                   returned (verify vcJwt) = true))
       vcJwts →
     ∃ calls',
       verifyCredentials this vcJwts manifest subjectDid calls
       = (Returns (omap (keeps this subjectDid) vcJwts), calls'))
  ∧ (∀ out calls',
        verifyCredentials this vcJwts manifest subjectDid calls = (Returns out, calls') →
        out = omap (keeps this subjectDid) vcJwts
        ∧ ∀ vc, vc ∈ out →
            VcDataModel.issuer (VerifiableCredential.vcDataModel vc)
              ∈ map Issuer.id (DcxOptions.issuers (DcxIssuer.dcxOptions this))
            ∨ VcDataModel.issuer (VerifiableCredential.vcDataModel vc)
              ∈ map Issuer.id DCX_INPUT_ISSUERS)
  ∧ ∃ made,
      snd (verifyCredentials this vcJwts manifest subjectDid calls) = calls ++ made
      ∧ ∀ vcJwt vc,
          parseJwt vcJwt = Returns vc →
          VcDataModel.issuer (VerifiableCredential.vcDataModel vc)
            ∉ map Issuer.id (DcxOptions.issuers (DcxIssuer.dcxOptions this)) →
          VcDataModel.issuer (VerifiableCredential.vcDataModel vc)
            ∉ map Issuer.id DCX_INPUT_ISSUERS →
          keeps this subjectDid vcJwt = None ∧ Verify vcJwt ∉ made.
Proof.
  assert (∀ vcJwt vc,
             parseJwt vcJwt = Returns vc →
             VcDataModel.issuer (VerifiableCredential.vcDataModel vc)
               ∉ map Issuer.id (DcxOptions.issuers (DcxIssuer.dcxOptions this)) →
             VcDataModel.issuer (VerifiableCredential.vcDataModel vc)
               ∉ map Issuer.id DCX_INPUT_ISSUERS →
             allowedIssuer this (VcDataModel.issuer (VerifiableCredential.vcDataModel vc))
             = false) as Hunlisted.
  { intros vcJwt vc _ Hconfigured Hstatic. unfold allowedIssuer.
    by rewrite !bool_decide_eq_false_2. }
  split; [|split; [|split]].
  - intros vcJwt vc calls0 Hparse Hconfigured Hstatic.
    pose proof (Hunlisted _ _ Hparse Hconfigured Hstatic) as Hissuer.
    destruct (decide (VerifiableCredential.subject vc = subjectDid)) as [Hsubject|Hsubject].
    + by apply (body_issuer_not_allowed _ _ _ _ vc).
    + by apply (body_subject_differs _ _ _ _ vc).
  - intros Hsat Hall.
    apply verifyCredentials_total; [done|].
    eapply Forall_impl; [exact Hall|].
    intros vcJwt Hreturns. by apply verdict_returns.
  - intros out calls' (_ & -> & _)%verifyCredentials_returns. split; [done|].
    intros vc (vcJwt & _ & Hkeeps)%list_elem_of_omap.
    apply keeps_Some in Hkeeps as (_ & _ & Hissuer & _).
    unfold allowedIssuer in Hissuer.
    by apply orb_true_iff in Hissuer as [?%bool_decide_eq_true|?%bool_decide_eq_true];
      [left|right].
  - unfold verifyCredentials, mbind, eff_mbind, eff_bind, invoke.
    set (check := SatisfiesPresentationDefinition _ _).
    assert (∀ vcJwt vc,
               parseJwt vcJwt = Returns vc →
               allowedIssuer this (VcDataModel.issuer (VerifiableCredential.vcDataModel vc))
               = false →
               keeps this subjectDid vcJwt = None) as Hdropped.
    { intros vcJwt vc Hparse Hissuer. unfold keeps.
      by rewrite Hparse, Hissuer, andb_false_r. }
    destruct (satisfiesPresentationDefinition _ _) as [[]|e].
    + destruct (loop_calls this subjectDid vcJwts [] (calls ++ [check]))
        as (made & -> & Hmade).
      exists (check :: made). split; [by rewrite <- app_assoc|].
      intros vcJwt vc Hparse Hconfigured Hstatic.
      pose proof (Hunlisted _ _ Hparse Hconfigured Hstatic) as Hissuer.
      split; [by eapply Hdropped|].
      intros [Hin|Hin]%elem_of_cons; [done|].
      apply Hmade in Hin as (vc' & Hparse' & _ & Hallowed). congruence.
    + exists [check]. split; [done|].
      intros vcJwt vc Hparse Hconfigured Hstatic.
      pose proof (Hunlisted _ _ Hparse Hconfigured Hstatic) as Hissuer.
      split; [by eapply Hdropped|].
      by intros Hin%list_elem_of_singleton.
Qed.

(** C5.  The first thing [verifyCredentials] does is the satisfaction
    check over the whole token list.  When the check throws, the call
    throws the same error, and the check is the only library call it has
    made: no token was parsed or verified.  When the check passes, the
    call is the loop over the tokens, started with an empty result. *)
Theorem verifyCredentials_unsatisfied_aborts vcJwts manifest subjectDid calls :
  (∀ e,
      satisfiesPresentationDefinition vcJwts
        (CredentialManifest.presentation_definition manifest) = Throws e →
      verifyCredentials this vcJwts manifest subjectDid calls
      = (Throws e,
         calls ++ [SatisfiesPresentationDefinition vcJwts
                     (CredentialManifest.presentation_definition manifest)]))
  ∧ (satisfiesPresentationDefinition vcJwts
       (CredentialManifest.presentation_definition manifest) = Returns tt →
     verifyCredentials this vcJwts manifest subjectDid calls
     = verifyCredentials_loop this subjectDid vcJwts []
         (calls ++ [SatisfiesPresentationDefinition vcJwts
                      (CredentialManifest.presentation_definition manifest)]))
  ∧ (∃ made,
        snd (verifyCredentials this vcJwts manifest subjectDid calls)
        = calls ++ SatisfiesPresentationDefinition vcJwts
                     (CredentialManifest.presentation_definition manifest) :: made).
Proof.
  unfold verifyCredentials, mbind, eff_mbind, eff_bind, invoke.
  split; [|split].
  - by intros e ->.
  - by intros ->.
  - destruct (satisfiesPresentationDefinition _ _) as [[]|e].
    + match goal with |- context [verifyCredentials_loop _ _ _ _ ?c] =>
        destruct (loop_calls this subjectDid vcJwts [] c) as (made & -> & _) end.
      exists made. by rewrite <- app_assoc.
    + by exists [].
Qed.

(** C6.  For a manifest whose output descriptors are [first :: others],
    [issueCredential] asks the library for a credential over the given
    data with subject [subjectDid], issuer the agent's DID and type the
    name of [first], has the agent's DID sign it, and returns the signed
    credential with a fulfillment whose descriptor map is the single
    entry of [first]'s id, format [jwt_vc] and path
    [$.verifiableCredential[0]]; [others] plays no part. *)
Theorem issueCredential_uses_first_output_descriptor
    (data : json) subjectDid manifest first others vc (signed : string) calls :
  CredentialManifest.output_descriptors manifest = first :: others →
  let options :=
    {| VerifiableCredentialCreateOptions.data := data;
       VerifiableCredentialCreateOptions.subject := subjectDid;
       VerifiableCredentialCreateOptions.issuer :=
         BearerDid.uri (DcxAgent.agentDid (DcxIssuer.agent this));
       VerifiableCredentialCreateOptions.type := OutputDescriptor.name first |} in
  create options = Returns vc →
  sign vc (DcxAgent.agentDid (DcxIssuer.agent this)) = Returns signed →
  issueCredential this data subjectDid manifest calls
  = (Returns
       {| IssuedCredential.fulfillment :=
            {| Fulfillment.descriptor_map :=
                 [ {| DescriptorMapEntry.id := OutputDescriptor.id first;
                      DescriptorMapEntry.format := "jwt_vc";
                      DescriptorMapEntry.path := "$.verifiableCredential[0]" |} ] |};
          IssuedCredential.verifiableCredential := [signed] |},
     calls ++ [Create options; Sign vc (DcxAgent.agentDid (DcxIssuer.agent this))]).
Proof.
  intros Hdescriptors options Hcreate Hsign.
  unfold issueCredential, mbind, eff_mbind, eff_bind, invoke.
  rewrite Hdescriptors. simpl. fold options.
  rewrite Hcreate, Hsign. unfold eff_ret.
  by rewrite <- app_assoc.
Qed.

End VerifyCredentialsClaims.

(** ** The request to the data provider *)

Section RequestCredential.
Context {Handler : Type} `{Http}.
Variable this : DcxIssuer.t Handler.

(** C9.  When no configured provider has the requested id, and so
    whenever the id is left out, [requestCredential] throws the
    provider-missing error and sends nothing.  With a provider of that id
    it sends one request to the first such provider: an error thrown by
    [fetch] and an error thrown by [response.json()] are thrown on as
    they are, and the parsed body of a response is returned as the data
    whatever the status of the response. *)
Theorem requestCredential_outcomes (params : RequestCredentialParams.t)
    (sent : list (string * RequestInit.t)) :
  (Forall (λ provider, Some (Provider.id provider) ≠ RequestCredentialParams.id params)
     (DcxOptions.providers (DcxIssuer.dcxOptions this)) →
   requestCredential this params sent
   = (Throws (DcxProtocolHandlerError "No VC data provider configured"), sent))
  ∧ (RequestCredentialParams.id params = None →
     requestCredential this params sent
     = (Throws (DcxProtocolHandlerError "No VC data provider configured"), sent))
  ∧ (∀ before provider after,
        DcxOptions.providers (DcxIssuer.dcxOptions this) = before ++ provider :: after →
        Some (Provider.id provider) = RequestCredentialParams.id params →
        Forall (λ earlier, Some (Provider.id earlier) ≠ RequestCredentialParams.id params)
          before →
        let init :=
          {| RequestInit.method := default "POST" (Provider.method provider);
             RequestInit.headers := Provider.headers provider;
             RequestInit.body := stringifier (RequestCredentialParams.body params) |} in
        requestCredential this params sent
        = (match fetch (Provider.endpoint provider) init with
           | Throws e => Throws e
           | Returns response => Response.json response
           end,
           sent ++ [(Provider.endpoint provider, init)])).
Proof.
  assert (∀ providers,
             Forall (λ provider : Provider.t,
                       Some (Provider.id provider) ≠ RequestCredentialParams.id params)
               providers →
             List.find
               (λ provider,
                  bool_decide (Some (Provider.id provider) = RequestCredentialParams.id params))
               providers = None) as Hnone.
  { induction 1 as [|provider providers Hne _ IH]; simpl; [done|].
    by rewrite bool_decide_eq_false_2. }
  split; [|split].
  - intros Hall. unfold requestCredential. by rewrite Hnone.
  - intros Hid. unfold requestCredential. rewrite Hnone; [done|].
    apply Forall_forall. intros provider _. by rewrite Hid.
  - intros before provider after Hsplit Hid Hbefore init.
    unfold requestCredential. rewrite Hsplit.
    assert (List.find
              (λ provider,
                 bool_decide (Some (Provider.id provider) = RequestCredentialParams.id params))
              (before ++ provider :: after) = Some provider) as ->.
    { clear Hsplit. induction Hbefore as [|earlier before Hne _ IH]; simpl.
      - by rewrite bool_decide_eq_true_2.
      - by rewrite bool_decide_eq_false_2. }
    unfold mbind, eff_mbind, eff_bind, lift, mret, eff_mret, eff_ret. fold init.
    destruct (fetch (Provider.endpoint provider) init) as [response|e]; [|done].
    by destruct (Response.json response).
Qed.

End RequestCredential.

(** ** Protocol and manifest records on the DWN *)

Section PromiseAll.
Context {S A B : Type}.
Implicit Types (f : A → Eff S B) (xs : list A) (s : S).

Lemma promiseAll_cons f x xs s :
  promiseAll f (x :: xs) s
  = (match fst (f x s), fst (promiseAll f xs (snd (f x s))) with
     | Returns b, Returns bs => Returns (b :: bs)
     | Throws e, _ => Throws e
     | Returns _, Throws e => Throws e
     end,
     snd (promiseAll f xs (snd (f x s)))).
Proof.
  simpl. destruct (f x s) as [o s1]. simpl.
  by destruct (promiseAll f xs s1) as [os s2].
Qed.

(** When the joined promise returns, every call has returned, and the
    results stand in the order of the inputs. *)
Lemma promiseAll_returns (P : A → B → Prop) f :
  (∀ x s b s', f x s = (Returns b, s') → P x b) →
  ∀ xs s bs s', promiseAll f xs s = (Returns bs, s') → Forall2 P xs bs.
Proof.
  intros Hf. induction xs as [|x xs IH]; intros s bs s' Hall.
  - simpl in Hall. injection Hall as <- _. constructor.
  - rewrite promiseAll_cons in Hall.
    destruct (f x s) as [[b|e] s1] eqn:Hx; simpl in Hall; [|done].
    destruct (promiseAll f xs s1) as [[bs'|e] s2] eqn:Hxs; simpl in Hall; [|done].
    injection Hall as <- _. constructor; eauto.
Qed.

End PromiseAll.

Section Reconciliation.
Context {Handler : Type} `{Imports} {Node : Type} `{Dwn Node}.
Variable this : DcxIssuer.t Handler.
Implicit Types (node : Node) (manifest : CredentialManifest.t).

(** C7.  [configureProtocols] throws a [DwnError] carrying the code and
    the detail of the configure status both when that status is a
    failure and when the reply has no protocol handle, whatever its
    status; in either case the protocol is not sent.  With a success
    status and a handle, it sends the handle to the agent's DID and
    throws a [DwnError] carrying the code and detail of the send status
    when that is a failure, and otherwise returns the send status with
    the handle. *)
Theorem configureProtocols_outcomes node configure protocol node1 :
  protocols_configure issuer node = (Returns (configure, protocol), node1) →
  (DwnUtils_isFailure (DwnResponseStatus.code configure) = true ∨ protocol = None →
   configureProtocols this node
   = (Throws (DwnError (DwnResponseStatus.code configure)
                       (DwnResponseStatus.detail configure)),
      node1))
  ∧ (∀ handle send node2,
        DwnUtils_isFailure (DwnResponseStatus.code configure) = false →
        protocol = Some handle →
        protocol_send handle (agentDid_uri this) node1 = (Returns send, node2) →
        configureProtocols this node
        = (if DwnUtils_isFailure (DwnResponseStatus.code send)
           then Throws (DwnError (DwnResponseStatus.code send)
                                 (DwnResponseStatus.detail send))
           else Returns {| ProtocolsConfigureResponse.status := send;
                           ProtocolsConfigureResponse.protocol := handle |},
           node2)).
Proof.
  intros Hconfigure. split.
  - intros Hwhy. unfold configureProtocols, mbind, eff_mbind, eff_bind.
    rewrite Hconfigure.
    destruct Hwhy as [->| ->]; [done|].
    by rewrite orb_true_r.
  - intros handle send node2 Hsuccess -> Hsend.
    unfold configureProtocols, mbind, eff_mbind, eff_bind.
    rewrite Hconfigure, Hsuccess. simpl. rewrite Hsend.
    by destruct (DwnUtils_isFailure (DwnResponseStatus.code send)).
Qed.

(** [createManifestRecord] returns only with a record in its reply. *)
Lemma createManifestRecord_returns_record manifest node response node' :
  createManifestRecord this manifest node = (Returns response, node') →
  is_Some (RecordsCreateResponse.record response).
Proof.
  unfold createManifestRecord, mbind, eff_mbind, eff_bind, throw, mret, eff_mret, eff_ret.
  destruct (records_create _ node) as [[[create record]|e] node1]; [|done].
  destruct (DwnUtils_isFailure (DwnResponseStatus.code create)); [done|].
  destruct record as [record|]; [|done].
  destruct (record_send record None node1) as [[send|e] node2]; [|done].
  destruct (DwnUtils_isFailure (DwnResponseStatus.code send)); [done|].
  intros [= <- _]. by eexists.
Qed.

Lemma createRecords_callback_outcome manifest node :
  fst (createRecords_callback this manifest node)
  = match fst (createManifestRecord this manifest node) with
    | Returns response => Returns (RecordsCreateResponse.record response)
    | Throws e => Throws e
    end
  ∧ snd (createRecords_callback this manifest node)
    = snd (createManifestRecord this manifest node).
Proof.
  unfold createRecords_callback, mbind, eff_mbind, eff_bind.
  by destruct (createManifestRecord this manifest node) as [[response|e] node'].
Qed.

Lemma createRecords_unfold manifestRecords node :
  createRecords this manifestRecords node
  = (match fst (promiseAll (createRecords_callback this) manifestRecords node) with
     | Returns records => Returns (defined records)
     | Throws e => Throws e
     end,
     snd (promiseAll (createRecords_callback this) manifestRecords node)).
Proof.
  change (createRecords this manifestRecords node)
    with (eff_bind (promiseAll (createRecords_callback this) manifestRecords)
            (λ records, eff_ret (defined records)) node).
  unfold eff_bind.
  by destruct (promiseAll (createRecords_callback this) manifestRecords node)
    as [[records|e] node'].
Qed.

End Reconciliation.

(** * Examples on the fixtures *)

Module Examples.
Import Fixtures.
#[local] Existing Instance imports.
#[local] Existing Instance library.

(** Against C3 as it is worded: [tokenUnlisted] has the author as its
    subject, [tokenForeignUnlisted] has another subject, and putting the
    second in the place of the first leaves the number of verified
    credentials where it was, at none, because the first was dropped for
    its issuer already. *)
Lemma verifyCredentials_count_unchanged_by_subject_swap :
  parseJwt tokenUnlisted = Returns (credential author "did:x:nobody")
  ∧ parseJwt tokenForeignUnlisted = Returns (credential "did:x:A" "did:x:nobody")
  ∧ "did:x:A" ≠ author
  ∧ fst (@verifyCredentials _ imports library verifier [tokenUnlisted] manifestA author [])
    = Returns []
  ∧ fst (@verifyCredentials _ imports library verifier [tokenForeignUnlisted] manifestA
           author [])
    = Returns []
  ∧ length (@nil VerifiableCredential.t) ≠ S (length (@nil VerifiableCredential.t)).
Proof. repeat split; try (vm_compute; reflexivity); discriminate. Qed.

Lemma verifyCredentials_drops_foreign_subject_witness :
  @verifyCredentials_body _ imports library verifier author tokenForeign []
  = (Returns None, [ParseJwt tokenForeign])
  ∧ Forall (λ vc, VerifiableCredential.subject vc = author)
      [credential author "did:x:trusted"]
  ∧ ∃ out' calls'',
      @verifyCredentials _ imports library verifier [tokenUnlisted; tokenForeign] manifestA
        author []
      = (Returns out', calls'')
      ∧ length [credential author "did:x:trusted"] = S (length out').
Proof.
  destruct (@verifyCredentials_drops_foreign_subject _ imports library verifier manifestA
              author) as (Hbody & Hsubject & Hswap).
  split; [|split].
  - apply (Hbody tokenForeign (credential "did:x:A" "did:x:trusted") []).
    + vm_compute. reflexivity.
    + discriminate.
  - apply (Hsubject [tokenGood; tokenForeign] []
             [credential author "did:x:trusted"]
             [SatisfiesPresentationDefinition [tokenGood; tokenForeign]
                (CredentialManifest.presentation_definition manifestA);
              ParseJwt tokenGood; Verify tokenGood; ParseJwt tokenForeign]).
    vm_compute. reflexivity.
  - apply (Hswap [tokenUnlisted] tokenGood [] tokenForeign
             (credential author "did:x:trusted") (credential "did:x:A" "did:x:trusted")
             (JObject [("issuer", JString "did:x:trusted"); ("subject", JString author)])
             []
             [credential author "did:x:trusted"]
             [SatisfiesPresentationDefinition [tokenUnlisted; tokenGood]
                (CredentialManifest.presentation_definition manifestA);
              ParseJwt tokenUnlisted; ParseJwt tokenGood; Verify tokenGood]).
    + vm_compute. reflexivity.
    + reflexivity.
    + vm_compute. reflexivity.
    + vm_compute. reflexivity.
    + reflexivity.
    + reflexivity.
    + vm_compute. reflexivity.
    + discriminate.
    + vm_compute. reflexivity.
    + vm_compute. reflexivity.
Defined.

Lemma verifyCredentials_drops_unlisted_issuer_witness :
  @verifyCredentials_body _ imports library verifier author tokenUnlisted []
  = (Returns None, [] ++ [ParseJwt tokenUnlisted])
  ∧ (∃ calls',
        @verifyCredentials _ imports library verifier [tokenGood; tokenUnlisted]
          manifestA author []
        = (Returns (omap (@keeps _ imports library verifier author)
                      [tokenGood; tokenUnlisted]),
           calls'))
  ∧ [credential author "did:x:trusted"]
    = omap (@keeps _ imports library verifier author) [tokenGood; tokenUnlisted]
  ∧ ∃ made,
      snd (@verifyCredentials _ imports library verifier [tokenGood; tokenUnlisted]
             manifestA author [])
      = [] ++ made
      ∧ @keeps _ imports library verifier author tokenUnlisted = None
      ∧ Verify tokenUnlisted ∉ made.
Proof.
  destruct (@verifyCredentials_drops_unlisted_issuer _ imports library verifier
              [tokenGood; tokenUnlisted] manifestA author [])
    as (Hturn & Htotal & Hreturns & made & Hsnd & Hmade).
  assert (VcDataModel.issuer
            (VerifiableCredential.vcDataModel (credential author "did:x:nobody"))
          ∉ map Issuer.id (DcxOptions.issuers (DcxIssuer.dcxOptions verifier)))
    as Hconfigured.
  { intros Hin. apply (bool_decide_eq_true_2 _) in Hin. vm_compute in Hin. discriminate. }
  assert (VcDataModel.issuer
            (VerifiableCredential.vcDataModel (credential author "did:x:nobody"))
          ∉ map Issuer.id DCX_INPUT_ISSUERS) as Hstatic.
  { intros Hin. apply (bool_decide_eq_true_2 _) in Hin. vm_compute in Hin. discriminate. }
  split; [|split; [|split]].
  - apply (Hturn tokenUnlisted (credential author "did:x:nobody") []).
    + vm_compute. reflexivity.
    + exact Hconfigured.
    + exact Hstatic.
  - apply Htotal.
    + vm_compute. reflexivity.
    + constructor; [|constructor; [|constructor]].
      * exists (credential author "did:x:trusted"). split; [vm_compute; reflexivity|].
        intros _ _. vm_compute. reflexivity.
      * exists (credential author "did:x:nobody"). split; [vm_compute; reflexivity|].
        intros _ _. vm_compute. reflexivity.
  - apply (Hreturns [credential author "did:x:trusted"]
             [SatisfiesPresentationDefinition [tokenGood; tokenUnlisted]
                (CredentialManifest.presentation_definition manifestA);
              ParseJwt tokenGood; Verify tokenGood; ParseJwt tokenUnlisted]).
    vm_compute. reflexivity.
  - exists made. split; [exact Hsnd|].
    apply (Hmade tokenUnlisted (credential author "did:x:nobody")).
    + vm_compute. reflexivity.
    + exact Hconfigured.
    + exact Hstatic.
Defined.

Lemma verifyCredentials_unsatisfied_aborts_witness :
  @verifyCredentials _ imports library verifier ["unsatisfying"; tokenGood] manifestA author []
  = (Throws (LibraryError "presentation definition not satisfied"),
     [] ++ [SatisfiesPresentationDefinition ["unsatisfying"; tokenGood]
              (CredentialManifest.presentation_definition manifestA)])
  ∧ @verifyCredentials _ imports library verifier [tokenGood] manifestA author []
    = @verifyCredentials_loop _ imports library verifier author [tokenGood] []
        ([] ++ [SatisfiesPresentationDefinition [tokenGood]
                  (CredentialManifest.presentation_definition manifestA)]).
Proof.
  split.
  - apply (proj1 (@verifyCredentials_unsatisfied_aborts _ imports library verifier
                    ["unsatisfying"; tokenGood] manifestA author [])).
    vm_compute. reflexivity.
  - apply (proj1 (proj2 (@verifyCredentials_unsatisfied_aborts _ imports library verifier
                           [tokenGood] manifestA author []))).
    vm_compute. reflexivity.
Defined.

(** Manifest [A] has the two output descriptors [output-a] and
    [output-b]. *)
Lemma issueCredential_uses_first_output_descriptor_witness :
  @issueCredential _ library verifier (JObject []) author manifestA []
  = (Returns
       {| IssuedCredential.fulfillment :=
            {| Fulfillment.descriptor_map :=
                 [ {| DescriptorMapEntry.id := "output-a";
                      DescriptorMapEntry.format := "jwt_vc";
                      DescriptorMapEntry.path := "$.verifiableCredential[0]" |} ] |};
          IssuedCredential.verifiableCredential := [token author "did:x:agent" "good"] |},
     [] ++ [Create
              {| VerifiableCredentialCreateOptions.data := JObject [];
                 VerifiableCredentialCreateOptions.subject := author;
                 VerifiableCredentialCreateOptions.issuer := "did:x:agent";
                 VerifiableCredentialCreateOptions.type := "CredentialA" |};
            Sign
              {| VerifiableCredential.vcDataModel :=
                   {| VcDataModel.issuer := "did:x:agent";
                      VcDataModel.type := "CredentialA";
                      VcDataModel.credentialSubject := JObject [] |};
                 VerifiableCredential.subject := author |}
              {| BearerDid.uri := "did:x:agent" |}]).
Proof.
  apply (@issueCredential_uses_first_output_descriptor _ library verifier (JObject [])
           author manifestA descriptorA [descriptorB]).
  - reflexivity.
  - reflexivity.
  - reflexivity.
Defined.

(** Against C7 as it is worded: status 202 is no failure, and a
    [configure] that answers 202 without a handle makes
    [configureProtocols] throw the same kind of error, a [DwnError], that
    it throws for a [configure] that answers 500. *)
Lemma configureProtocols_missing_handle_is_DwnError :
  DwnUtils_isFailure (Imports := imports) 202 = false
  ∧ @configureProtocols _ imports _ configureWithoutHandle verifier MemoryNode.empty
    = (Throws (DwnError 202 "Accepted"), MemoryNode.empty)
  ∧ @configureProtocols _ imports _ configureFails verifier MemoryNode.empty
    = (Throws (DwnError 500 "Internal Server Error"), MemoryNode.empty).
Proof. repeat split; vm_compute; reflexivity. Qed.

Lemma configureProtocols_outcomes_witness :
  @configureProtocols _ imports _ configureWithoutHandle verifier MemoryNode.empty
  = (Throws (DwnError 202 "Accepted"), MemoryNode.empty)
  ∧ @configureProtocols _ imports _ healthy verifier MemoryNode.empty
    = (Returns
         {| ProtocolsConfigureResponse.status := MemoryNode.accepted;
            ProtocolsConfigureResponse.protocol := Protocol.mk (issuer (Imports := imports)) |},
       {| MemoryNode.protocols := [issuer (Imports := imports)];
          MemoryNode.records := [] |}).
Proof.
  split.
  - apply (proj1 (@configureProtocols_outcomes _ imports _ configureWithoutHandle verifier
                    MemoryNode.empty MemoryNode.accepted None MemoryNode.empty eq_refl)).
    right. reflexivity.
  - apply (proj2 (@configureProtocols_outcomes _ imports _ healthy verifier
                    MemoryNode.empty MemoryNode.accepted
                    (Some (Protocol.mk (issuer (Imports := imports))))
                    {| MemoryNode.protocols := [issuer (Imports := imports)];
                       MemoryNode.records := [] |}
                    eq_refl)
             (Protocol.mk (issuer (Imports := imports))) MemoryNode.accepted).
    + reflexivity.
    + reflexivity.
    + reflexivity.
Defined.


(** Against C9 as it is worded: the provider answers with status 500 and
    a JSON body, and [requestCredential] returns that body as the
    data. *)
Lemma requestCredential_returns_body_of_error_response :
  ¬ (200 ≤ 500 ≤ 299)%Z
  ∧ fst (@requestCredential _ (http 500 (JObject [("error", JString "boom")])) verifier
           {| RequestCredentialParams.body := JNull;
              RequestCredentialParams.id := Some "kyc" |} [])
    = Returns (JObject [("error", JString "boom")]).
Proof. split; [lia|]. vm_compute. reflexivity. Qed.

Lemma requestCredential_outcomes_witness :
  @requestCredential _ (http 200 JNull) verifier
    {| RequestCredentialParams.body := JNull; RequestCredentialParams.id := Some "other" |} []
  = (Throws (DcxProtocolHandlerError "No VC data provider configured"), [])
  ∧ @requestCredential _ (http 200 JNull) verifier
      {| RequestCredentialParams.body := JNull; RequestCredentialParams.id := None |} []
    = (Throws (DcxProtocolHandlerError "No VC data provider configured"), [])
  ∧ @requestCredential _ (http 500 (JString "boom")) verifier
      {| RequestCredentialParams.body := JNull; RequestCredentialParams.id := Some "kyc" |} []
    = (Returns (JString "boom"),
       [] ++ [("https://provider.example/vc-data",
               {| RequestInit.method := "POST"; RequestInit.headers := JObject [];
                  RequestInit.body := "{}" |})]).
Proof.
  split; [|split].
  - apply (proj1 (@requestCredential_outcomes _ (http 200 JNull) verifier
                    {| RequestCredentialParams.body := JNull;
                       RequestCredentialParams.id := Some "other" |} [])).
    repeat constructor. discriminate.
  - apply (proj1 (proj2 (@requestCredential_outcomes _ (http 200 JNull) verifier
                           {| RequestCredentialParams.body := JNull;
                              RequestCredentialParams.id := None |} []))).
    reflexivity.
  - apply (proj2 (proj2 (@requestCredential_outcomes _ (http 500 (JString "boom")) verifier
                           {| RequestCredentialParams.body := JNull;
                              RequestCredentialParams.id := Some "kyc" |} []))
             [] provider []).
    + reflexivity.
    + reflexivity.
    + constructor.
Defined.

End Examples.

(** * Further properties *)

(** ** What [filterRecords] returns, by the ids on the DWN *)

Section FilterRecords.
Context {Handler : Type}.
Implicit Types (this : DcxIssuer.t Handler) (manifestRecords : list CredentialManifest.t).

Lemma find_existsb {A} (f : A → bool) (l : list A) :
  match List.find f l with Some _ => true | None => false end = existsb f l.
Proof. induction l as [|x l IH]; simpl; [done|]. by destruct (f x). Qed.

Lemma filter_pointwise {A} (f g : A → bool) (l : list A) :
  (∀ x, f x = g x) → List.filter f l = List.filter g l.
Proof. intros Hfg. induction l as [|x l IH]; simpl; [done|]. by rewrite Hfg, IH. Qed.

Lemma filter_true {A} (l : list A) : List.filter (λ _, true) l = l.
Proof. induction l as [|x l IH]; simpl; [done|]. by rewrite IH. Qed.

Lemma filter_false {A} (l : list A) : List.filter (λ _, false) l = [].
Proof. by induction l. Qed.

(** Some existing manifest has an id other than [id]. *)
Lemma existsb_other_id manifestRecords (id : string) :
  existsb
    (λ manifestRecord, negb (bool_decide (id = CredentialManifest.id manifestRecord)))
    manifestRecords = true
  ↔ ∃ manifestRecord,
      manifestRecord ∈ manifestRecords ∧ CredentialManifest.id manifestRecord ≠ id.
Proof.
  rewrite existsb_exists. split.
  - intros (manifestRecord & Hin%list_elem_of_In & Hne%negb_true_iff%bool_decide_eq_false).
    exists manifestRecord. split; [done|]. congruence.
  - intros (manifestRecord & Hin%list_elem_of_In & Hne).
    exists manifestRecord. split; [done|].
    apply negb_true_iff, bool_decide_eq_false. congruence.
Qed.

(** X1.  Asked against an empty list of existing manifests, [filterRecords]
    returns no manifest, whatever manifests are configured. *)
Theorem filterRecords_without_existing this : filterRecords this [] = [].
Proof. unfold filterRecords. simpl. apply filter_false. Qed.

Lemma filterRecords_all_by_two_ids this manifestRecords first second :
  first ∈ manifestRecords →
  second ∈ manifestRecords →
  CredentialManifest.id first ≠ CredentialManifest.id second →
  filterRecords this manifestRecords = DcxOptions.manifests (DcxIssuer.dcxOptions this).
Proof.
  intros Hfirst Hsecond Hne. unfold filterRecords.
  rewrite <- (filter_true (DcxOptions.manifests _)) at 2.
  apply filter_pointwise. intros manifest. rewrite find_existsb.
  apply existsb_other_id.
  destruct (decide (CredentialManifest.id first = CredentialManifest.id manifest)) as [Heq|Hdiff].
  - exists second. split; [done|]. congruence.
  - by exists first.
Qed.

(** X2.  As soon as two of the existing manifests have different ids,
    [filterRecords] returns every configured manifest, those already on
    the DWN included. *)
Theorem filterRecords_two_existing_ids this manifestRecords first second :
  first ∈ manifestRecords →
  second ∈ manifestRecords →
  CredentialManifest.id first ≠ CredentialManifest.id second →
  filterRecords this manifestRecords = DcxOptions.manifests (DcxIssuer.dcxOptions this).
Proof. apply filterRecords_all_by_two_ids. Qed.

(** With one existing id, the code's test and the test of the
    specification both come down to a comparison with that id. *)
Lemma one_existing_id_tests manifestRecords (id : string) :
  manifestRecords ≠ [] →
  Forall (λ manifestRecord, CredentialManifest.id manifestRecord = id) manifestRecords →
  ∀ manifest,
    existsb
      (λ manifestRecord,
         negb (bool_decide (CredentialManifest.id manifest
                            = CredentialManifest.id manifestRecord)))
      manifestRecords
    = negb (bool_decide (CredentialManifest.id manifest = id))
    ∧ negb (existsb
              (λ manifestRecord,
                 bool_decide (CredentialManifest.id manifestRecord
                              = CredentialManifest.id manifest))
              manifestRecords)
      = negb (bool_decide (CredentialManifest.id manifest = id)).
Proof.
  intros Hnonempty Hall manifest. split.
  - apply eq_true_iff_eq.
    rewrite existsb_other_id, negb_true_iff, bool_decide_eq_false. split.
    + intros (manifestRecord & Hin & Hne) Heq.
      rewrite Forall_forall in Hall. apply Hall in Hin. congruence.
    + intros Hne. destruct manifestRecords as [|manifestRecord rest]; [done|].
      exists manifestRecord. split; [left|].
      apply Forall_cons_1 in Hall as [Hid _]. congruence.
  - f_equal. apply eq_true_iff_eq.
    rewrite existsb_exists, bool_decide_eq_true. split.
    + intros (manifestRecord & Hin%list_elem_of_In & Heq%bool_decide_eq_true).
      rewrite Forall_forall in Hall. apply Hall in Hin. congruence.
    + intros Heq. destruct manifestRecords as [|manifestRecord rest]; [done|].
      exists manifestRecord. split; [by left|].
      apply Forall_cons_1 in Hall as [Hid _]. apply bool_decide_eq_true. congruence.
Qed.

Lemma filterRecords_others_by_one_id this manifestRecords (id : string) :
  manifestRecords ≠ [] →
  Forall (λ manifestRecord, CredentialManifest.id manifestRecord = id) manifestRecords →
  filterRecords this manifestRecords
  = List.filter (λ manifest, negb (bool_decide (CredentialManifest.id manifest = id)))
      (DcxOptions.manifests (DcxIssuer.dcxOptions this)).
Proof.
  intros Hnonempty Hall. unfold filterRecords. apply filter_pointwise. intros manifest.
  rewrite find_existsb.
  by destruct (one_existing_id_tests manifestRecords id Hnonempty Hall manifest) as [-> _].
Qed.

(** X3.  When the existing manifests all have one id, and there is at
    least one, [filterRecords] returns the configured manifests with
    another id, in configured order: then, and with one existing id only,
    it returns the missing manifests. *)
Theorem filterRecords_one_existing_id this manifestRecords (id : string) :
  manifestRecords ≠ [] →
  Forall (λ manifestRecord, CredentialManifest.id manifestRecord = id) manifestRecords →
  filterRecords this manifestRecords
  = List.filter (λ manifest, negb (bool_decide (CredentialManifest.id manifest = id)))
      (DcxOptions.manifests (DcxIssuer.dcxOptions this))
  ∧ filterRecords this manifestRecords
    = computeMissing (DcxOptions.manifests (DcxIssuer.dcxOptions this)) manifestRecords.
Proof.
  intros Hnonempty Hall. split.
  - by apply filterRecords_others_by_one_id.
  - unfold filterRecords, computeMissing. apply filter_pointwise. intros manifest.
    rewrite find_existsb.
    by destruct (one_existing_id_tests manifestRecords id Hnonempty Hall manifest)
      as [-> ->].
Qed.

End FilterRecords.

Lemma filterRecords_two_existing_ids_witness :
  filterRecords Fixtures.twoManifests [Fixtures.manifestA; Fixtures.manifestB]
  = [Fixtures.manifestA; Fixtures.manifestB].
Proof.
  apply (filterRecords_two_existing_ids Fixtures.twoManifests
           [Fixtures.manifestA; Fixtures.manifestB] Fixtures.manifestA Fixtures.manifestB).
  - left.
  - right. left.
  - discriminate.
Defined.

Lemma filterRecords_one_existing_id_witness :
  filterRecords Fixtures.twoManifests [Fixtures.manifestA]
  = List.filter (λ manifest, negb (bool_decide (CredentialManifest.id manifest = "A")))
      [Fixtures.manifestA; Fixtures.manifestB]
  ∧ filterRecords Fixtures.twoManifests [Fixtures.manifestA]
    = computeMissing [Fixtures.manifestA; Fixtures.manifestB] [Fixtures.manifestA].
Proof.
  apply (filterRecords_one_existing_id Fixtures.twoManifests [Fixtures.manifestA] "A").
  - discriminate.
  - repeat constructor.
Defined.

(** ** The library calls of [verifyCredentials], and errors of the library *)

Section VerifyCredentialsCalls.
Context {Handler : Type} `{Imports} `{CredentialLibrary}.
Variable this : DcxIssuer.t Handler.
Implicit Types (vcJwt subjectDid : string) (vcJwts : list string)
  (calls : list call) (vc : VerifiableCredential.t) (manifest : CredentialManifest.t).

(** The calls of one turn of the loop: the token is parsed, and it is
    verified when it passes the two checks. *)
Lemma body_made subjectDid vcJwt calls :
  ∃ made,
    snd (verifyCredentials_body this subjectDid vcJwt calls) = calls ++ made
    ∧ parsedTokens made = [vcJwt]
    ∧ verifiedTokens made = List.filter (passesChecks this subjectDid) [vcJwt].
Proof.
  unfold passesChecks. simpl.
  destruct (body_cases this subjectDid vcJwt calls)
    as [(e & Hparse & Heq)|[(vc & Hparse & Hwhy & _ & Heq)|(vc & Hparse & Hs & Hi & Heq)]];
    rewrite Heq, Hparse; simpl.
  - by exists [ParseJwt vcJwt].
  - exists [ParseJwt vcJwt]. repeat split; try done.
    destruct Hwhy as [Hsubject|Hissuer].
    + by rewrite bool_decide_eq_false_2.
    + by rewrite Hissuer, andb_false_r.
  - exists [ParseJwt vcJwt; Verify vcJwt]. repeat split; try done.
    by rewrite Hi, bool_decide_eq_true_2.
Qed.

Lemma loop_made subjectDid vcJwts :
  ∀ verifiedCredentials calls out calls',
    verifyCredentials_loop this subjectDid vcJwts verifiedCredentials calls
    = (Returns out, calls') →
    ∃ made,
      calls' = calls ++ made
      ∧ parsedTokens made = vcJwts
      ∧ verifiedTokens made = List.filter (passesChecks this subjectDid) vcJwts.
Proof.
  induction vcJwts as [|vcJwt rest IH]; intros acc calls out calls' Hloop.
  - simpl in Hloop. injection Hloop as _ <-. exists []. by rewrite app_nil_r.
  - simpl in Hloop. unfold mbind, eff_mbind, eff_bind in Hloop.
    destruct (body_made subjectDid vcJwt calls) as (made1 & Hsnd & Hparsed & Hverified).
    destruct (verifyCredentials_body this subjectDid vcJwt calls) as [[pushed|e] calls1];
      [|done].
    simpl in Hsnd. subst calls1.
    apply IH in Hloop as (made2 & -> & Hparsed2 & Hverified2).
    exists (made1 ++ made2). split; [by rewrite app_assoc|].
    unfold parsedTokens, verifiedTokens in *. rewrite !omap_app.
    rewrite Hparsed, Hparsed2, Hverified, Hverified2.
    split; [done|]. simpl. by destruct (passesChecks this subjectDid vcJwt).
Qed.

(** X4.  A call of [verifyCredentials] that returns has made the
    satisfaction check, has then parsed every token once, in input order,
    and has handed to [verify], once and in input order, the tokens that
    parse with the author as subject and an allowed issuer, and no
    other. *)
Theorem verifyCredentials_library_calls vcJwts manifest subjectDid calls out calls' :
  verifyCredentials this vcJwts manifest subjectDid calls = (Returns out, calls') →
  ∃ made,
    calls' = calls ++ SatisfiesPresentationDefinition vcJwts
                        (CredentialManifest.presentation_definition manifest) :: made
    ∧ parsedTokens made = vcJwts
    ∧ verifiedTokens made = List.filter (passesChecks this subjectDid) vcJwts.
Proof.
  unfold verifyCredentials, mbind, eff_mbind, eff_bind, invoke.
  destruct (satisfiesPresentationDefinition _ _) as [[]|e]; [|done].
  intros (made & -> & Hparsed & Hverified)%loop_made.
  exists made. by rewrite <- app_assoc.
Qed.

(** When a turn throws. *)
Lemma verdict_throws subjectDid vcJwt e :
  parseJwt vcJwt = Throws e
  ∨ (∃ vc, parseJwt vcJwt = Returns vc
           ∧ VerifiableCredential.subject vc = subjectDid
           ∧ allowedIssuer this
               (VcDataModel.issuer (VerifiableCredential.vcDataModel vc)) = true
           ∧ verify vcJwt = Throws e) →
  verdict this subjectDid vcJwt = Throws e.
Proof.
  unfold verdict. intros [Hparse|(vc & Hparse & Hsubject & Hissuer & Hverify)].
  - by rewrite (body_parse_throws _ _ _ _ e).
  - rewrite (body_verified _ _ _ _ vc) by done. by rewrite Hverify.
Qed.

Lemma loop_throws subjectDid before vcJwt after e :
  Forall (λ earlier, returned (verdict this subjectDid earlier) = true) before →
  verdict this subjectDid vcJwt = Throws e →
  ∀ verifiedCredentials calls,
    ∃ made,
      verifyCredentials_loop this subjectDid (before ++ vcJwt :: after)
        verifiedCredentials calls
      = (Throws e, calls ++ made)
      ∧ parsedTokens made = before ++ [vcJwt].
Proof.
  intros Hbefore Hthrows.
  induction Hbefore as [|earlier before Hearlier _ IH]; intros acc calls.
  - simpl. unfold mbind, eff_mbind, eff_bind.
    pose proof (body_outcome this subjectDid vcJwt calls) as Hout.
    destruct (body_made subjectDid vcJwt calls) as (made & Hsnd & Hparsed & _).
    destruct (verifyCredentials_body this subjectDid vcJwt calls) as [o calls1].
    simpl in Hout, Hsnd. subst o calls1. rewrite Hthrows. by exists made.
  - simpl. unfold mbind, eff_mbind, eff_bind.
    pose proof (body_outcome this subjectDid earlier calls) as Hout.
    destruct (body_made subjectDid earlier calls) as (made1 & Hsnd & Hparsed & _).
    destruct (verifyCredentials_body this subjectDid earlier calls) as [o calls1].
    simpl in Hout, Hsnd. subst o calls1.
    destruct (verdict this subjectDid earlier) as [pushed|e']; [|done].
    match goal with |- context [verifyCredentials_loop _ _ _ ?a _] =>
      destruct (IH a (calls ++ made1)) as (made2 & -> & Hparsed2) end.
    exists (made1 ++ made2). split; [by rewrite app_assoc|].
    unfold parsedTokens in *. by rewrite omap_app, Hparsed, Hparsed2.
Qed.

(** X5.  An error of the library is not a reason to drop a token: when the
    token list satisfies the presentation definition and the first token
    on which [parseJwt] throws, or on which [verify] throws after the
    token passed the two checks, is [vcJwt], then [verifyCredentials]
    throws that error, and the tokens after [vcJwt] are not parsed. *)
Theorem verifyCredentials_library_error_aborts
    before vcJwt after manifest subjectDid calls e :
  satisfiesPresentationDefinition (before ++ vcJwt :: after)
    (CredentialManifest.presentation_definition manifest) = Returns tt →
  Forall (λ earlier, returned (verdict this subjectDid earlier) = true) before →
  parseJwt vcJwt = Throws e
  ∨ (∃ vc, parseJwt vcJwt = Returns vc
           ∧ VerifiableCredential.subject vc = subjectDid
           ∧ allowedIssuer this
               (VcDataModel.issuer (VerifiableCredential.vcDataModel vc)) = true
           ∧ verify vcJwt = Throws e) →
  ∃ made,
    verifyCredentials this (before ++ vcJwt :: after) manifest subjectDid calls
    = (Throws e,
       calls ++ SatisfiesPresentationDefinition (before ++ vcJwt :: after)
                  (CredentialManifest.presentation_definition manifest) :: made)
    ∧ parsedTokens made = before ++ [vcJwt].
Proof.
  intros Hsat Hbefore Hthrows%(verdict_throws subjectDid).
  unfold verifyCredentials, mbind, eff_mbind, eff_bind, invoke. rewrite Hsat.
  match goal with |- context [verifyCredentials_loop _ _ _ _ ?c] =>
    destruct (loop_throws subjectDid before vcJwt after e Hbefore Hthrows [] c)
      as (made & -> & Hparsed) end.
  exists made. by rewrite <- app_assoc.
Qed.

(** X6.  [issueCredential] on a manifest without output descriptors throws
    a [TypeError] before any credential is created; when the library
    throws on creating the credential, that error is thrown and nothing is
    signed; when it throws on signing, that error is thrown. *)
Theorem issueCredential_failures (data : json) subjectDid manifest calls :
  (CredentialManifest.output_descriptors manifest = [] →
   issueCredential this data subjectDid manifest calls
   = (Throws (TypeError "Cannot read properties of undefined (reading 'id')"), calls))
  ∧ (∀ first others e,
        CredentialManifest.output_descriptors manifest = first :: others →
        let options :=
          {| VerifiableCredentialCreateOptions.data := data;
             VerifiableCredentialCreateOptions.subject := subjectDid;
             VerifiableCredentialCreateOptions.issuer :=
               BearerDid.uri (DcxAgent.agentDid (DcxIssuer.agent this));
             VerifiableCredentialCreateOptions.type := OutputDescriptor.name first |} in
        (create options = Throws e →
         issueCredential this data subjectDid manifest calls
         = (Throws e, calls ++ [Create options]))
        ∧ (∀ vc,
              create options = Returns vc →
              sign vc (DcxAgent.agentDid (DcxIssuer.agent this)) = Throws e →
              issueCredential this data subjectDid manifest calls
              = (Throws e,
                 calls ++ [Create options;
                           Sign vc (DcxAgent.agentDid (DcxIssuer.agent this))]))).
Proof.
  split.
  - intros Hnone. unfold issueCredential. by rewrite Hnone.
  - intros first others e Hdescriptors options. split.
    + intros Hcreate. unfold issueCredential, mbind, eff_mbind, eff_bind, invoke.
      rewrite Hdescriptors. simpl. fold options. by rewrite Hcreate.
    + intros vc Hcreate Hsign. unfold issueCredential, mbind, eff_mbind, eff_bind, invoke.
      rewrite Hdescriptors. simpl. fold options. rewrite Hcreate, Hsign.
      by rewrite <- app_assoc.
Qed.

End VerifyCredentialsCalls.

(** ** Queries, reads and creations on the DWN *)

Section DwnOperations.
Context {Handler : Type} `{Imports} {Node : Type} `{Dwn Node}.
Variable this : DcxIssuer.t Handler.
Implicit Types (node : Node) (manifest : CredentialManifest.t).

(** X7.  [queryProtocols] and [queryRecords] throw a [DwnError] with the
    code and the detail of the status the DWN answered with when
    [DwnUtils.isFailure] holds of the code, whatever else the answer
    carries; otherwise they return the answer, with the empty list in the
    place of a list the answer leaves out. *)
Theorem queryProtocols_queryRecords_outcomes node :
  (∀ status protocols node1,
      protocols_query (ProtocolDefinition.protocol issuer) node
      = (Returns (status, protocols), node1) →
      queryProtocols node
      = (if DwnUtils_isFailure (DwnResponseStatus.code status)
         then Throws (DwnError (DwnResponseStatus.code status)
                               (DwnResponseStatus.detail status))
         else Returns {| ProtocolsQueryResponse.status := status;
                         ProtocolsQueryResponse.protocols := default [] protocols |},
         node1))
  ∧ (∀ status records cursor node1,
        records_query
          {| RecordsFilter.schema := manifestSchema_id;
             RecordsFilter.dataFormat := "application/json";
             RecordsFilter.protocol := ProtocolDefinition.protocol issuer;
             RecordsFilter.protocolPath := "manifest" |} node
        = (Returns (status, records, cursor), node1) →
        queryRecords node
        = (if DwnUtils_isFailure (DwnResponseStatus.code status)
           then Throws (DwnError (DwnResponseStatus.code status)
                                 (DwnResponseStatus.detail status))
           else Returns {| DcxRecordsQueryResponse.status := status;
                           DcxRecordsQueryResponse.records := default [] records;
                           DcxRecordsQueryResponse.cursor := cursor |},
           node1)).
Proof.
  split.
  - intros status protocols node1 Hquery.
    unfold queryProtocols, mbind, eff_mbind, eff_bind. rewrite Hquery.
    by destruct (DwnUtils_isFailure (DwnResponseStatus.code status)).
  - intros status records cursor node1 Hquery.
    unfold queryRecords, mbind, eff_mbind, eff_bind. rewrite Hquery.
    by destruct (DwnUtils_isFailure (DwnResponseStatus.code status)).
Qed.

(** X8.  [createManifestRecord] asks the DWN to store the manifest with
    the agent's DID as issuer id.  A failure status of the creation is
    thrown as a [DwnError] with its code and detail, and a creation that
    succeeds without a record as a [DcxDwnError] that names the manifest
    id; in both cases nothing is sent.  Otherwise the record is sent
    without a target, a failure status of the sending is thrown as a
    [DwnError] with its code and detail, and on success the record is
    returned with the status of the sending. *)
Theorem createManifestRecord_outcomes manifest node create record node1 :
  records_create
    {| RecordsCreateRequest.store := true;
       RecordsCreateRequest.data := withAgentIssuer this manifest;
       RecordsCreateRequest.schema := manifestSchema_id;
       RecordsCreateRequest.dataFormat := "application/json";
       RecordsCreateRequest.protocol := ProtocolDefinition.protocol issuer;
       RecordsCreateRequest.protocolPath := "manifest";
       RecordsCreateRequest.published := true |} node
  = (Returns (create, record), node1) →
  (DwnUtils_isFailure (DwnResponseStatus.code create) = true →
   createManifestRecord this manifest node
   = (Throws (DwnError (DwnResponseStatus.code create) (DwnResponseStatus.detail create)),
      node1))
  ∧ (DwnUtils_isFailure (DwnResponseStatus.code create) = false →
     record = None →
     createManifestRecord this manifest node
     = (Throws (DcxDwnError ("Failed to create missing dwn manifest record: "
                             +:+ CredentialManifest.id manifest)),
        node1))
  ∧ (∀ created send node2,
        DwnUtils_isFailure (DwnResponseStatus.code create) = false →
        record = Some created →
        record_send created None node1 = (Returns send, node2) →
        createManifestRecord this manifest node
        = (if DwnUtils_isFailure (DwnResponseStatus.code send)
           then Throws (DwnError (DwnResponseStatus.code send)
                                 (DwnResponseStatus.detail send))
           else Returns {| RecordsCreateResponse.status := send;
                           RecordsCreateResponse.record := Some created |},
           node2)).
Proof.
  intros Hcreate. unfold createManifestRecord, mbind, eff_mbind, eff_bind.
  rewrite Hcreate. split; [|split].
  - by intros ->.
  - by intros -> ->.
  - intros created send node2 -> -> Hsend. rewrite Hsend.
    by destruct (DwnUtils_isFailure (DwnResponseStatus.code send)).
Qed.

(** X9.  When [readRecords] returns, it returns one manifest for each
    record it was given, in the order of the records, and each manifest is
    what a read of its record returned; a record the DWN has no handle for
    makes its read throw a [TypeError]. *)
Theorem readRecords_returns_in_order (manifestRecords : list DwnRecord.t) node :
  (∀ manifests node',
      readRecords manifestRecords node = (Returns manifests, node') →
      length manifests = length manifestRecords
      ∧ Forall2
          (λ manifestRecord manifest,
             ∃ before after, readRecord manifestRecord before = (Returns manifest, after))
          manifestRecords manifests)
  ∧ (∀ manifestRecord before after,
        records_read (DwnRecord.id manifestRecord) before = (Returns None, after) →
        readRecord manifestRecord before
        = (Throws (TypeError "Cannot read properties of undefined (reading 'data')"),
           after)).
Proof.
  split.
  - intros manifests node' Hread. unfold readRecords in Hread.
    apply (promiseAll_returns
             (λ manifestRecord manifest,
                ∃ before after, readRecord manifestRecord before = (Returns manifest, after)))
      in Hread; [|by eauto].
    split; [|done]. symmetry. by eapply Forall2_length.
  - intros manifestRecord before after Hread.
    unfold readRecord, mbind, eff_mbind, eff_bind. by rewrite Hread.
Qed.

End DwnOperations.

(** ** The sequence of [setup] *)

Section SetupSequence.
Context {Handler : Type} `{Imports} {Node : Type} `{Dwn Node}.
Variable this : DcxIssuer.t Handler.
Implicit Types (node : Node) (manifests : list CredentialManifest.t) (e : error).

(** [setup] from the state in which the protocol is there. *)
Lemma setup_after_protocol node ensured :
  protocolEnsured this node ensured →
  setup this node
  = (response ← queryRecords;
     manifests ← readRecords (DcxRecordsQueryResponse.records response);
     if bool_decide (length manifests = 0) then
       createRecords this (DcxOptions.manifests (DcxIssuer.dcxOptions this)) ;; mret tt
     else
       createRecords this (filterRecords this manifests) ;; mret tt) ensured.
Proof.
  intros (response & queried & Hquery & [[Hsome ->]|[Hnone (configured & Hconfigure)]]).
  - unfold setup. unfold mbind at 1, eff_mbind at 1, eff_bind at 1. rewrite Hquery.
    rewrite bool_decide_eq_false_2
      by (by destruct (ProtocolsQueryResponse.protocols response)).
    done.
  - unfold setup. unfold mbind at 1, eff_mbind at 1, eff_bind at 1. rewrite Hquery.
    rewrite Hnone. simpl.
    unfold mbind at 1, eff_mbind at 1, eff_bind at 1.
    unfold mbind at 1, eff_mbind at 1, eff_bind at 1.
    by rewrite Hconfigure.
Qed.

(** [setup] from the state in which the manifests have been read. *)
Lemma setup_after_read node ensured manifests read :
  protocolEnsured this node ensured →
  manifestsRead ensured manifests read →
  setup this node
  = (createRecords this
       (if bool_decide (length manifests = 0)
        then DcxOptions.manifests (DcxIssuer.dcxOptions this)
        else filterRecords this manifests) ;; mret tt) read.
Proof.
  intros Hensured (response & queried & Hquery & Hread).
  rewrite (setup_after_protocol node ensured Hensured).
  unfold mbind at 1, eff_mbind at 1, eff_bind at 1. rewrite Hquery.
  unfold mbind at 1, eff_mbind at 1, eff_bind at 1. rewrite Hread.
  by destruct (bool_decide (length manifests = 0)).
Qed.

(** X10.  An error of a stage of [setup] is the error of [setup], and the
    DWN is left in the state of the stage that threw: the protocol query;
    the configuration after a query that found no protocol; the query for
    the manifest records; the reading of the records. *)
Theorem setup_stage_error_aborts node e :
  (∀ queried,
      queryProtocols node = (Throws e, queried) →
      setup this node = (Throws e, queried))
  ∧ (∀ response queried failed,
        queryProtocols node = (Returns response, queried) →
        ProtocolsQueryResponse.protocols response = [] →
        configureProtocols this queried = (Throws e, failed) →
        setup this node = (Throws e, failed))
  ∧ (∀ ensured failed,
        protocolEnsured this node ensured →
        queryRecords ensured = (Throws e, failed) →
        setup this node = (Throws e, failed))
  ∧ (∀ ensured response queried failed,
        protocolEnsured this node ensured →
        queryRecords ensured = (Returns response, queried) →
        readRecords (DcxRecordsQueryResponse.records response) queried = (Throws e, failed) →
        setup this node = (Throws e, failed)).
Proof.
  split; [|split; [|split]].
  - intros queried Hquery.
    unfold setup. unfold mbind at 1, eff_mbind at 1, eff_bind at 1. by rewrite Hquery.
  - intros response queried failed Hquery Hnone Hconfigure.
    unfold setup. unfold mbind at 1, eff_mbind at 1, eff_bind at 1. rewrite Hquery.
    rewrite Hnone. simpl.
    unfold mbind at 1, eff_mbind at 1, eff_bind at 1.
    unfold mbind at 1, eff_mbind at 1, eff_bind at 1.
    by rewrite Hconfigure.
  - intros ensured failed Hensured Hquery.
    rewrite (setup_after_protocol node ensured Hensured).
    unfold mbind at 1, eff_mbind at 1, eff_bind at 1. by rewrite Hquery.
  - intros ensured response queried failed Hensured Hquery Hread.
    rewrite (setup_after_protocol node ensured Hensured).
    unfold mbind at 1, eff_mbind at 1, eff_bind at 1. rewrite Hquery.
    unfold mbind at 1, eff_mbind at 1, eff_bind at 1. by rewrite Hread.
Qed.

(** X11.  Once the protocol is there and the manifests on the DWN have
    been read, [setup] creates every configured manifest, and ends as that
    creation ends, in two cases: when no manifest was read, and when two
    of the manifests read have different ids, so also when every
    configured manifest is among them. *)
Theorem setup_creates_every_configured_manifest node ensured manifests read :
  protocolEnsured this node ensured →
  manifestsRead ensured manifests read →
  manifests = []
  ∨ (∃ first second,
        first ∈ manifests ∧ second ∈ manifests
        ∧ CredentialManifest.id first ≠ CredentialManifest.id second) →
  setup this node
  = (createRecords this (DcxOptions.manifests (DcxIssuer.dcxOptions this)) ;; mret tt) read.
Proof.
  intros Hensured Hread Hwhy.
  rewrite (setup_after_read node ensured manifests read Hensured Hread).
  destruct Hwhy as [->|(first & second & Hfirst & Hsecond & Hne)]; [done|].
  rewrite bool_decide_eq_false_2.
  - by rewrite (filterRecords_all_by_two_ids this manifests first second).
  - intros Hlength. destruct manifests; [|done]. by apply elem_of_nil in Hfirst.
Qed.

(** X12.  Once the protocol is there and the manifests on the DWN have
    been read, and these are at least one and all have the id [id],
    [setup] creates the configured manifests with another id, and ends as
    that creation ends; when the configured manifests all have the id [id]
    as well, [setup] returns and leaves the DWN as the reading left it. *)
Theorem setup_with_one_existing_id node ensured manifests read (id : string) :
  protocolEnsured this node ensured →
  manifestsRead ensured manifests read →
  manifests ≠ [] →
  Forall (λ manifest, CredentialManifest.id manifest = id) manifests →
  setup this node
  = (createRecords this
       (List.filter (λ manifest, negb (bool_decide (CredentialManifest.id manifest = id)))
          (DcxOptions.manifests (DcxIssuer.dcxOptions this))) ;; mret tt) read
  ∧ (Forall (λ manifest, CredentialManifest.id manifest = id)
       (DcxOptions.manifests (DcxIssuer.dcxOptions this)) →
     setup this node = (Returns tt, read)).
Proof.
  intros Hensured Hread Hnonempty Hall.
  rewrite (setup_after_read node ensured manifests read Hensured Hread).
  rewrite bool_decide_eq_false_2 by (by destruct manifests).
  rewrite (filterRecords_others_by_one_id this manifests id Hnonempty Hall).
  split; [done|].
  intros Hconfigured.
  assert (List.filter (λ manifest, negb (bool_decide (CredentialManifest.id manifest = id)))
            (DcxOptions.manifests (DcxIssuer.dcxOptions this)) = []) as ->.
  { induction Hconfigured as [|manifest rest Hid _ IH]; simpl; [done|].
    by rewrite bool_decide_eq_true_2. }
  done.
Qed.

End SetupSequence.

(** ** The constructor *)

(** X13.  On an object whose [dcxOptions] is set, [findHandler] looks the
    id up as it does in the methods above.  The constructor calls it four
    times before it sets [dcxOptions], so the first call throws a
    [TypeError], and so does the constructor, for all parameters: it never
    returns an object. *)
Theorem constructor_throws {Handler} (prototype : Methods.t Handler)
    (dcxIssuerConfig : DcxIssuerConfig.t) (params : DcxIssuerParams.t Handler) :
  constructor prototype dcxIssuerConfig params
  = Throws (TypeError "Cannot read properties of undefined (reading 'handlers')")
  ∧ ∀ (this : DcxIssuer.t Handler) dcxConfig (id : string) (staticHandler : Handler),
      findHandler_on
        {| Instance.methods := prototype;
           Instance.agent := Some (DcxIssuer.agent this);
           Instance.dcxConfig := dcxConfig;
           Instance.dcxOptions := Some (DcxIssuer.dcxOptions this) |}
        id staticHandler
      = Returns (findHandler this id staticHandler).
Proof. split; reflexivity. Qed.

(** ** The application pipeline *)

Section ProcessRecord.
Context {Handler : Type} `{Imports} `{CredentialLibrary} `{Http} `{PipelineImports}
  {Node : Type} `{Dwn Node} `{ApplicationDwn Node}.
Variable this : DcxIssuer.t Handler.
Implicit Types (stages : Stages.t Node) (record : DwnRecord.t)
  (manifest : CredentialManifest.t) (providerId : option string)
  (world : World.t Node) (e : error).

(** The pipeline from the state in which the credential is issued. *)
Lemma processRecord_after_stages stages record manifest providerId world vc issued :
  stagesReturn stages record manifest providerId world vc issued →
  processRecord stages record manifest providerId world
  = ('(create, responseRecord) ←
       onNode
         (response_create
            {| ResponseCreateRequest.data := vc;
               ResponseCreateRequest.store := true;
               ResponseCreateRequest.schema := responseSchema_id;
               ResponseCreateRequest.protocol := ProtocolDefinition.protocol issuer;
               ResponseCreateRequest.dataFormat := "application/json";
               ResponseCreateRequest.protocolPath := "application/response" |});
     if DwnUtils_isFailure (DwnResponseStatus.code create) then
       throw (DwnError (DwnResponseStatus.code create) (DwnResponseStatus.detail create))
     else
       match responseRecord with
       | None => throw (DcxProtocolHandlerError "Failed to create application response record.")
       | Some responseRecord =>
           send ← onNode (record_send responseRecord (Some (DwnRecord.author record)));
           if DwnUtils_isFailure (DwnResponseStatus.code send) then
             throw (DwnError (DwnResponseStatus.code send) (DwnResponseStatus.detail send))
           else mret send
       end) issued.
Proof.
  intros (vp & read & vcJwts & selected & verified & checked & data & requested
          & Hread & Hselect & Hverify & Hrequest & Hissue).
  unfold processRecord.
  unfold mbind at 1, eff_mbind at 1, eff_bind at 1. rewrite Hread.
  unfold mbind at 1, eff_mbind at 1, eff_bind at 1. rewrite Hselect.
  unfold mbind at 1, eff_mbind at 1, eff_bind at 1. rewrite Hverify.
  unfold mbind at 1, eff_mbind at 1, eff_bind at 1. rewrite Hrequest.
  unfold mbind at 1, eff_mbind at 1, eff_bind at 1. rewrite Hissue.
  done.
Qed.

(** X14.  Whatever the stages are, the methods of the class or handlers in
    their place, an error thrown by the reading of the application or by
    one of the four stages is thrown by [processRecord], which ends in the
    state that stage ended in: the later stages are not run and no
    response record is created. *)
Theorem processRecord_stage_error_aborts stages record manifest providerId world e :
  (∀ failed,
      onNode (application_data_json record) world = (Throws e, failed) →
      processRecord stages record manifest providerId world = (Throws e, failed))
  ∧ (∀ vp read,
        onNode (application_data_json record) world = (Returns vp, read) →
        (∀ failed,
            Stages.selectCredentials stages vp manifest read = (Throws e, failed) →
            processRecord stages record manifest providerId world = (Throws e, failed))
        ∧ (∀ vcJwts selected,
              Stages.selectCredentials stages vp manifest read = (Returns vcJwts, selected) →
              (∀ failed,
                  Stages.verifyCredentials stages vcJwts manifest (DwnRecord.author record)
                    selected = (Throws e, failed) →
                  processRecord stages record manifest providerId world = (Throws e, failed))
              ∧ (∀ verified checked,
                    Stages.verifyCredentials stages vcJwts manifest (DwnRecord.author record)
                      selected = (Returns verified, checked) →
                    (∀ failed,
                        Stages.requestCredential stages
                          {| RequestCredentialParams.body := requestBody verified;
                             RequestCredentialParams.id := providerId |} checked
                        = (Throws e, failed) →
                        processRecord stages record manifest providerId world
                        = (Throws e, failed))
                    ∧ (∀ data requested failed,
                          Stages.requestCredential stages
                            {| RequestCredentialParams.body := requestBody verified;
                               RequestCredentialParams.id := providerId |} checked
                          = (Returns data, requested) →
                          Stages.issueCredential stages data (DwnRecord.author record)
                            manifest requested = (Throws e, failed) →
                          processRecord stages record manifest providerId world
                          = (Throws e, failed))))).
Proof.
  split.
  { intros failed Hread. unfold processRecord.
    unfold mbind at 1, eff_mbind at 1, eff_bind at 1. by rewrite Hread. }
  intros vp read Hread. split.
  { intros failed Hselect. unfold processRecord.
    unfold mbind at 1, eff_mbind at 1, eff_bind at 1. rewrite Hread.
    unfold mbind at 1, eff_mbind at 1, eff_bind at 1. by rewrite Hselect. }
  intros vcJwts selected Hselect. split.
  { intros failed Hverify. unfold processRecord.
    unfold mbind at 1, eff_mbind at 1, eff_bind at 1. rewrite Hread.
    unfold mbind at 1, eff_mbind at 1, eff_bind at 1. rewrite Hselect.
    unfold mbind at 1, eff_mbind at 1, eff_bind at 1. by rewrite Hverify. }
  intros verified checked Hverify. split.
  { intros failed Hrequest. unfold processRecord.
    unfold mbind at 1, eff_mbind at 1, eff_bind at 1. rewrite Hread.
    unfold mbind at 1, eff_mbind at 1, eff_bind at 1. rewrite Hselect.
    unfold mbind at 1, eff_mbind at 1, eff_bind at 1. rewrite Hverify.
    unfold mbind at 1, eff_mbind at 1, eff_bind at 1. by rewrite Hrequest. }
  intros data requested failed Hrequest Hissue. unfold processRecord.
  unfold mbind at 1, eff_mbind at 1, eff_bind at 1. rewrite Hread.
  unfold mbind at 1, eff_mbind at 1, eff_bind at 1. rewrite Hselect.
  unfold mbind at 1, eff_mbind at 1, eff_bind at 1. rewrite Hverify.
  unfold mbind at 1, eff_mbind at 1, eff_bind at 1. rewrite Hrequest.
  unfold mbind at 1, eff_mbind at 1, eff_bind at 1. by rewrite Hissue.
Qed.

(** X15.  After the four stages have returned, [processRecord] asks the
    DWN to store the issued credential as a response.  A failure status
    of the creation is thrown as a [DwnError] with its code and detail,
    and a creation that succeeds without a record as a
    [DcxProtocolHandlerError]; in both cases nothing is sent, though the
    credential has been issued.  Otherwise the record is sent to the
    author of the application, a failure status of the sending is thrown
    as a [DwnError] with its code and detail, and on success the status of
    the sending is returned. *)
Theorem processRecord_response_outcomes
    stages record manifest providerId world vc issued create responseRecord created :
  stagesReturn stages record manifest providerId world vc issued →
  onNode
    (response_create
       {| ResponseCreateRequest.data := vc;
          ResponseCreateRequest.store := true;
          ResponseCreateRequest.schema := responseSchema_id;
          ResponseCreateRequest.protocol := ProtocolDefinition.protocol issuer;
          ResponseCreateRequest.dataFormat := "application/json";
          ResponseCreateRequest.protocolPath := "application/response" |}) issued
  = (Returns (create, responseRecord), created) →
  (DwnUtils_isFailure (DwnResponseStatus.code create) = true →
   processRecord stages record manifest providerId world
   = (Throws (DwnError (DwnResponseStatus.code create) (DwnResponseStatus.detail create)),
      created))
  ∧ (DwnUtils_isFailure (DwnResponseStatus.code create) = false →
     responseRecord = None →
     processRecord stages record manifest providerId world
     = (Throws (DcxProtocolHandlerError "Failed to create application response record."),
        created))
  ∧ (∀ stored send delivered,
        DwnUtils_isFailure (DwnResponseStatus.code create) = false →
        responseRecord = Some stored →
        onNode (record_send stored (Some (DwnRecord.author record))) created
        = (Returns send, delivered) →
        processRecord stages record manifest providerId world
        = (if DwnUtils_isFailure (DwnResponseStatus.code send)
           then Throws (DwnError (DwnResponseStatus.code send)
                                 (DwnResponseStatus.detail send))
           else Returns send,
           delivered)).
Proof.
  intros Hstages Hcreate.
  rewrite (processRecord_after_stages _ _ _ _ _ vc issued Hstages).
  unfold mbind, eff_mbind, eff_bind. rewrite Hcreate.
  split; [|split].
  - by intros ->.
  - by intros -> ->.
  - intros stored send delivered -> -> Hsend. rewrite Hsend.
    by destruct (DwnUtils_isFailure (DwnResponseStatus.code send)).
Qed.

(** The methods of the class as stages, in terms of the methods. *)
Lemma methods_stagesReturn record manifest providerId node calls sent
    vp node1 vcJwts verified calls1 data sent1 vc calls2 :
  application_data_json record node = (Returns vp, node1) →
  selectCredentials vp manifest = Returns vcJwts →
  verifyCredentials this vcJwts manifest (DwnRecord.author record) calls
  = (Returns verified, calls1) →
  requestCredential this
    {| RequestCredentialParams.body := requestBody verified;
       RequestCredentialParams.id := providerId |} sent
  = (Returns data, sent1) →
  issueCredential this data (DwnRecord.author record) manifest calls1 = (Returns vc, calls2) →
  stagesReturn (methods this) record manifest providerId
    {| World.node := node; World.calls := calls; World.sent := sent |} vc
    {| World.node := node1; World.calls := calls2; World.sent := sent1 |}.
Proof.
  intros Hread Hselect Hverify Hrequest Hissue.
  exists vp, {| World.node := node1; World.calls := calls; World.sent := sent |},
    vcJwts, {| World.node := node1; World.calls := calls; World.sent := sent |},
    verified, {| World.node := node1; World.calls := calls1; World.sent := sent |},
    data, {| World.node := node1; World.calls := calls1; World.sent := sent1 |}.
  repeat split.
  - unfold onNode. simpl. by rewrite Hread.
  - simpl. unfold lift. by rewrite Hselect.
  - simpl. unfold onCalls. simpl. by rewrite Hverify.
  - simpl. unfold onSent. simpl. by rewrite Hrequest.
  - simpl. unfold onCalls. simpl. by rewrite Hissue.
Qed.

(** X16.  With the methods of the class as stages, a run of
    [processRecord] in which every step succeeds is this chain: the
    credentials selected from the presentation are verified against the
    author of the record; the verified credentials, however few, are the
    body of the request to the provider; the data the provider returns is
    issued to the author; the issued credential is stored as the response,
    on the DWN as the reading of the application left it; and the
    response is sent to the author, whose sending status is returned. *)
Theorem processRecord_methods_chain
    record manifest providerId node calls sent
    vp node1 vcJwts verified calls1 data sent1 vc calls2
    create responseRecord node2 send node3 :
  application_data_json record node = (Returns vp, node1) →
  selectCredentials vp manifest = Returns vcJwts →
  verifyCredentials this vcJwts manifest (DwnRecord.author record) calls
  = (Returns verified, calls1) →
  requestCredential this
    {| RequestCredentialParams.body := requestBody verified;
       RequestCredentialParams.id := providerId |} sent
  = (Returns data, sent1) →
  issueCredential this data (DwnRecord.author record) manifest calls1 = (Returns vc, calls2) →
  response_create
    {| ResponseCreateRequest.data := vc;
       ResponseCreateRequest.store := true;
       ResponseCreateRequest.schema := responseSchema_id;
       ResponseCreateRequest.protocol := ProtocolDefinition.protocol issuer;
       ResponseCreateRequest.dataFormat := "application/json";
       ResponseCreateRequest.protocolPath := "application/response" |} node1
  = (Returns (create, Some responseRecord), node2) →
  DwnUtils_isFailure (DwnResponseStatus.code create) = false →
  record_send responseRecord (Some (DwnRecord.author record)) node2 = (Returns send, node3) →
  DwnUtils_isFailure (DwnResponseStatus.code send) = false →
  processRecord (methods this) record manifest providerId
    {| World.node := node; World.calls := calls; World.sent := sent |}
  = (Returns send, {| World.node := node3; World.calls := calls2; World.sent := sent1 |}).
Proof.
  intros Hread Hselect Hverify Hrequest Hissue Hcreate Hcreated Hsend Hsent.
  rewrite (processRecord_after_stages _ _ _ _ _ vc
             {| World.node := node1; World.calls := calls2; World.sent := sent1 |})
    by (by eapply methods_stagesReturn).
  unfold mbind, eff_mbind, eff_bind, onNode. simpl.
  rewrite Hcreate, Hcreated. simpl. by rewrite Hsend, Hsent.
Qed.

End ProcessRecord.

(** ** The applicant's configuration *)

Lemma split_nonempty (sep : ascii) (s : string) : split sep s ≠ [].
Proof.
  destruct s as [|c rest]; simpl; [done|].
  destruct (bool_decide (c = sep)); [done|]. by destruct (split sep rest).
Qed.

Lemma concat_split (sep : ascii) (s : string) :
  String.concat (String sep "") (split sep s) = s.
Proof.
  induction s as [|c rest IH]; simpl; [done|].
  pose proof (split_nonempty sep rest) as Hnonempty.
  destruct (bool_decide (c = sep)) eqn:Hsep.
  - apply bool_decide_eq_true in Hsep as ->.
    destruct (split sep rest) as [|first others]; [done|].
    simpl in *. by rewrite IH.
  - destruct (split sep rest) as [|first others]; [done|].
    destruct others as [|second others]; simpl in *; by rewrite <- IH.
Qed.

(** X17.  For the two list settings, a variable that is set is split at
    the commas, also when it is empty: the setting is then the list of the
    empty string, not the default; the list is never empty, and joined
    with commas it is the variable again.  For the six other settings with
    a default that is not the empty string, a variable that is unset or
    empty gives the default, and any other value is taken as it is; the
    port is then that string, and the number 5000 by default. *)
Theorem applicantConfig_environment {DcxConfig} (dcxConfig : DcxConfig)
    (env : gmap string string) :
  Forall
    (λ '(setting, name, fallback),
       (∀ value, env !! name = Some value →
                 setting (applicantConfig dcxConfig env) = split "," value
                 ∧ setting (applicantConfig dcxConfig env) ≠ []
                 ∧ String.concat "," (setting (applicantConfig dcxConfig env)) = value)
       ∧ (env !! name = Some "" → setting (applicantConfig dcxConfig env) = [""])
       ∧ (env !! name = None → setting (applicantConfig dcxConfig env) = fallback))
    [ (ApplicantConfig.dwnEndpoints, "APPLICANT_DWN_ENDPOINTS", ["https://dwn.tbddev.org/beta"]);
      (ApplicantConfig.gatewayUris, "APPLICANT_GATEWAY_URIS", ["https://diddht.tbddev.org/"]) ]
  ∧ Forall
      (λ '(setting, name, fallback),
         (env !! name = None ∨ env !! name = Some "" →
          setting (applicantConfig dcxConfig env) = fallback)
         ∧ (∀ value, env !! name = Some value → value ≠ "" →
                     setting (applicantConfig dcxConfig env) = value))
      [ (ApplicantConfig.serviceName, "APPLICANT_SERVICE_NAME", "@dcx-protocol/applicant");
        (ApplicantConfig.serviceId, "APPLICANT_SERVICE_ID", "dcx-applicant");
        (ApplicantConfig.cursorFile, "APPLICANT_CURSOR", "applicant-cursor.json");
        (ApplicantConfig.lastRecordIdFile, "APPLICANT_LAST_RECORD_ID",
         "lastRecordId.applicant");
        (ApplicantConfig.agentDataPath, "APPLICANT_WEB5_AGENT_DATA_PATH",
         "DATA/DCX/APPLICANT/AGENT") ]
  ∧ (env !! "APPLICANT_PORT" = None ∨ env !! "APPLICANT_PORT" = Some "" →
     ApplicantConfig.port (applicantConfig dcxConfig env) = JNumber 5000)
  ∧ (∀ value, env !! "APPLICANT_PORT" = Some value → value ≠ "" →
              ApplicantConfig.port (applicantConfig dcxConfig env) = JString value).
Proof.
  assert (∀ name fallback,
             (∀ value, env !! name = Some value →
                       splitOrElse (env !! name) fallback = split "," value
                       ∧ splitOrElse (env !! name) fallback ≠ []
                       ∧ String.concat "," (splitOrElse (env !! name) fallback) = value)
             ∧ (env !! name = Some "" → splitOrElse (env !! name) fallback = [""])
             ∧ (env !! name = None → splitOrElse (env !! name) fallback = fallback)) as Hlist.
  { intros name fallback. repeat split.
    - by rewrite H.
    - rewrite H. apply split_nonempty.
    - rewrite H. apply concat_split.
    - by intros ->.
    - by intros ->. }
  assert (∀ A (inject : string → A) name fallback,
             (env !! name = None ∨ env !! name = Some "" →
              orElse inject (env !! name) fallback = fallback)
             ∧ (∀ value, env !! name = Some value → value ≠ "" →
                         orElse inject (env !! name) fallback = inject value)) as Hscalar.
  { intros A inject name fallback. split.
    - by intros [-> | ->].
    - intros value -> Hvalue. simpl. by rewrite bool_decide_eq_false_2. }
  split; [|split; [|split]].
  - repeat (apply Forall_cons_2; [exact (Hlist _ _)|]). apply Forall_nil_2.
  - repeat (apply Forall_cons_2; [exact (Hscalar string id _ _)|]). apply Forall_nil_2.
  - apply (Hscalar json JString).
  - apply (Hscalar json JString).
Qed.

(** ** The records [createRecords] returns *)

Section CreateRecords.
Context {Handler : Type} `{Imports} {Node : Type} `{Dwn Node}.
Variable this : DcxIssuer.t Handler.
Implicit Types (node : Node) (manifest : CredentialManifest.t).

(** X18.  Given no manifest, [createRecords] returns no record and leaves
    the DWN alone.  When it returns, the records stand in the order of the
    manifests, and each is the record a creation of its manifest returned
    after it was sent. *)
Theorem createRecords_returns_in_order (manifestRecords : list CredentialManifest.t) node :
  createRecords this [] node = (Returns [], node)
  ∧ ∀ records node',
      createRecords this manifestRecords node = (Returns records, node') →
      Forall2
        (λ manifest record,
           ∃ before send after,
             createManifestRecord this manifest before
             = (Returns {| RecordsCreateResponse.status := send;
                           RecordsCreateResponse.record := Some record |},
                after))
        manifestRecords records.
Proof.
  split; [done|].
  intros records node' Hreturns. rewrite createRecords_unfold in Hreturns.
  destruct (promiseAll (createRecords_callback this) manifestRecords node)
    as [[created|e] node1] eqn:Hall; simpl in Hreturns; [|done].
  injection Hreturns as <- _.
  apply (promiseAll_returns
           (λ manifest created,
              ∃ record, created = Some record
                ∧ ∃ before send after,
                    createManifestRecord this manifest before
                    = (Returns {| RecordsCreateResponse.status := send;
                                  RecordsCreateResponse.record := Some record |},
                       after))) in Hall.
  - clear -Hall.
    induction Hall as [|manifest ? manifests others (record & -> & Hcreated) _ IH].
    + constructor.
    + change (defined (Some record :: others)) with (record :: defined others).
      by constructor.
  - intros manifest before outcome after Hcallback.
    pose proof (createRecords_callback_outcome this manifest before) as [Hfst Hsnd].
    rewrite Hcallback in Hfst, Hsnd. simpl in Hfst, Hsnd.
    destruct (createManifestRecord this manifest before) as [[response|e] after'] eqn:Hcreate;
      simpl in Hfst, Hsnd; [|done].
    injection Hfst as ->. subst after'.
    destruct (createManifestRecord_returns_record this manifest before response after Hcreate)
      as [record Hrecord].
    exists record. split; [done|].
    exists before, (RecordsCreateResponse.status response), after.
    rewrite Hcreate. destruct response as [send stored]. simpl in *. by subst stored.
Qed.

End CreateRecords.

(** * Further examples on the fixtures *)

Module FurtherExamples.
Import Fixtures Scenarios.
#[local] Existing Instance imports.

Lemma verifyCredentials_library_calls_witness :
  ∃ made,
    [ SatisfiesPresentationDefinition [tokenGood; tokenUnlisted]
        (CredentialManifest.presentation_definition manifestA);
      ParseJwt tokenGood; Verify tokenGood; ParseJwt tokenUnlisted ]
    = [] ++ SatisfiesPresentationDefinition [tokenGood; tokenUnlisted]
              (CredentialManifest.presentation_definition manifestA) :: made
    ∧ parsedTokens made = [tokenGood; tokenUnlisted]
    ∧ verifiedTokens made
      = List.filter (@passesChecks _ imports Fixtures.library verifier author)
          [tokenGood; tokenUnlisted].
Proof.
  apply (@verifyCredentials_library_calls _ imports Fixtures.library verifier
           [tokenGood; tokenUnlisted] manifestA author []
           [credential author "did:x:trusted"]).
  vm_compute. reflexivity.
Defined.

Lemma verifyCredentials_library_error_aborts_witness :
  ∃ made,
    @verifyCredentials _ imports Fixtures.library verifier
      ([tokenGood] ++ "garbage" :: [tokenUnlisted]) manifestA author []
    = (Throws (LibraryError "malformed JWT"),
       [] ++ SatisfiesPresentationDefinition ([tokenGood] ++ "garbage" :: [tokenUnlisted])
               (CredentialManifest.presentation_definition manifestA) :: made)
    ∧ parsedTokens made = [tokenGood] ++ ["garbage"].
Proof.
  apply (@verifyCredentials_library_error_aborts _ imports Fixtures.library verifier
           [tokenGood] "garbage" [tokenUnlisted] manifestA author []
           (LibraryError "malformed JWT")).
  - vm_compute. reflexivity.
  - constructor; [|constructor]. vm_compute. reflexivity.
  - left. vm_compute. reflexivity.
Defined.

Lemma issueCredential_failures_witness :
  @issueCredential _ Fixtures.library verifier data author manifestE []
  = (Throws (TypeError "Cannot read properties of undefined (reading 'id')"), [])
  ∧ @issueCredential _ (Scenarios.library true false) verifier data author manifestA []
    = (Throws (LibraryError "cannot create"),
       [] ++ [Create
                {| VerifiableCredentialCreateOptions.data := data;
                   VerifiableCredentialCreateOptions.subject := author;
                   VerifiableCredentialCreateOptions.issuer := "did:x:agent";
                   VerifiableCredentialCreateOptions.type := "CredentialA" |}])
  ∧ @issueCredential _ (Scenarios.library false true) verifier data author manifestA []
    = (Throws (LibraryError "cannot sign"),
       [] ++ [Create
                {| VerifiableCredentialCreateOptions.data := data;
                   VerifiableCredentialCreateOptions.subject := author;
                   VerifiableCredentialCreateOptions.issuer := "did:x:agent";
                   VerifiableCredentialCreateOptions.type := "CredentialA" |};
              Sign
                {| VerifiableCredential.vcDataModel :=
                     {| VcDataModel.issuer := "did:x:agent";
                        VcDataModel.type := "CredentialA";
                        VcDataModel.credentialSubject := data |};
                   VerifiableCredential.subject := author |}
                {| BearerDid.uri := "did:x:agent" |}]).
Proof.
  split; [|split].
  - apply (proj1 (@issueCredential_failures _ Fixtures.library verifier data author
                    manifestE [])).
    reflexivity.
  - apply (proj1 (proj2 (@issueCredential_failures _ (Scenarios.library true false) verifier
                           data author manifestA [])
                    descriptorA [descriptorB] (LibraryError "cannot create") eq_refl)).
    reflexivity.
  - apply (proj2 (proj2 (@issueCredential_failures _ (Scenarios.library false true) verifier
                           data author manifestA [])
                    descriptorA [descriptorB] (LibraryError "cannot sign") eq_refl)).
    + reflexivity.
    + reflexivity.
Defined.

Lemma queryProtocols_queryRecords_outcomes_witness :
  @queryProtocols imports _
    (Scripted.dwn (Scripted.withProtocolsQuery
                     (Returns (MemoryNode.serverError, Some [Protocol.mk issuer])))) []
  = (Throws (DwnError 500 "Internal Server Error"), ["protocols.query"])
  ∧ @queryRecords imports _
      (Scripted.dwn (Scripted.withRecordsQuery (Returns (MemoryNode.ok, None, None)))) []
    = (Returns {| DcxRecordsQueryResponse.status := MemoryNode.ok;
                  DcxRecordsQueryResponse.records := [];
                  DcxRecordsQueryResponse.cursor := None |},
       ["records.query"]).
Proof.
  split.
  - apply (proj1 (@queryProtocols_queryRecords_outcomes imports _
                    (Scripted.dwn (Scripted.withProtocolsQuery
                                     (Returns (MemoryNode.serverError,
                                               Some [Protocol.mk issuer])))) [])
             MemoryNode.serverError (Some [Protocol.mk issuer]) ["protocols.query"]).
    reflexivity.
  - apply (proj2 (@queryProtocols_queryRecords_outcomes imports _
                    (Scripted.dwn (Scripted.withRecordsQuery
                                     (Returns (MemoryNode.ok, None, None)))) [])
             MemoryNode.ok None None ["records.query"]).
    reflexivity.
Defined.

Lemma createManifestRecord_outcomes_witness :
  @createManifestRecord _ imports _
    (Scripted.dwn (Scripted.withRecordsCreate
                     (Returns (MemoryNode.serverError, Some Scripted.stored))))
    verifier manifestA []
  = (Throws (DwnError 500 "Internal Server Error"), ["records.create"])
  ∧ @createManifestRecord _ imports _
      (Scripted.dwn (Scripted.withRecordsCreate (Returns (MemoryNode.accepted, None))))
      verifier manifestA []
    = (Throws (DcxDwnError "Failed to create missing dwn manifest record: A"),
       ["records.create"])
  ∧ @createManifestRecord _ imports _
      (Scripted.dwn (Scripted.withRecordSend (Returns MemoryNode.serverError)))
      verifier manifestA []
    = (Throws (DwnError 500 "Internal Server Error"), ["records.create"; "record.send "]).
Proof.
  split; [|split].
  - apply (proj1 (@createManifestRecord_outcomes _ imports _
                    (Scripted.dwn (Scripted.withRecordsCreate
                                     (Returns (MemoryNode.serverError, Some Scripted.stored))))
                    verifier manifestA [] MemoryNode.serverError (Some Scripted.stored)
                    ["records.create"] eq_refl)).
    reflexivity.
  - apply (proj1 (proj2 (@createManifestRecord_outcomes _ imports _
                           (Scripted.dwn (Scripted.withRecordsCreate
                                            (Returns (MemoryNode.accepted, None))))
                           verifier manifestA [] MemoryNode.accepted None
                           ["records.create"] eq_refl))).
    + reflexivity.
    + reflexivity.
  - apply (proj2 (proj2 (@createManifestRecord_outcomes _ imports _
                           (Scripted.dwn (Scripted.withRecordSend
                                            (Returns MemoryNode.serverError)))
                           verifier manifestA [] MemoryNode.accepted (Some Scripted.stored)
                           ["records.create"] eq_refl))
             Scripted.stored MemoryNode.serverError ["records.create"; "record.send "]).
    + reflexivity.
    + reflexivity.
    + reflexivity.
Defined.

Lemma readRecords_returns_in_order_witness :
  (length [manifestA; manifestA] = length [Scripted.stored; Scripted.stored]
   ∧ Forall2
       (λ manifestRecord manifest,
          ∃ before after,
            @readRecord _ (Scripted.dwn Scripted.fine) manifestRecord before
            = (Returns manifest, after))
       [Scripted.stored; Scripted.stored] [manifestA; manifestA])
  ∧ @readRecord _ (Scripted.dwn (Scripted.withRecordsRead (Returns None)))
      Scripted.stored []
    = (Throws (TypeError "Cannot read properties of undefined (reading 'data')"),
       ["records.read"]).
Proof.
  split.
  - apply (proj1 (@readRecords_returns_in_order _ (Scripted.dwn Scripted.fine)
                    [Scripted.stored; Scripted.stored] [])
             [manifestA; manifestA]
             ["records.read"; "record.data.json"; "records.read"; "record.data.json"]).
    reflexivity.
  - apply (proj2 (@readRecords_returns_in_order _
                    (Scripted.dwn (Scripted.withRecordsRead (Returns None))) [] [])).
    reflexivity.
Defined.

Lemma setup_stage_error_aborts_witness :
  @setup _ imports _ (Scripted.dwn (Scripted.withProtocolsQuery (Throws Scripted.crash)))
    twoManifests []
  = (Throws Scripted.crash, ["protocols.query"])
  ∧ @setup _ imports _ (Scripted.dwn Scripted.unconfigurable) twoManifests []
    = (Throws Scripted.crash, ["protocols.query"; "protocols.configure"])
  ∧ @setup _ imports _ (Scripted.dwn (Scripted.withRecordsQuery (Throws Scripted.crash)))
      twoManifests []
    = (Throws Scripted.crash, ["protocols.query"; "records.query"])
  ∧ @setup _ imports _ (Scripted.dwn (Scripted.withRecordsRead (Throws Scripted.crash)))
      twoManifests []
    = (Throws Scripted.crash, ["protocols.query"; "records.query"; "records.read"]).
Proof.
  assert (∀ r,
             Scripted.protocolsQuery r = Scripted.protocolsQuery Scripted.fine →
             @protocolEnsured _ imports _ (Scripted.dwn r) twoManifests []
               ["protocols.query"]) as Hensured.
  { intros r Hquery.
    exists {| ProtocolsQueryResponse.status := MemoryNode.ok;
              ProtocolsQueryResponse.protocols := [Protocol.mk issuer] |},
      ["protocols.query"].
    split.
    - unfold queryProtocols, mbind, eff_mbind, eff_bind. simpl.
      unfold Scripted.answer. by rewrite Hquery.
    - left. by split. }
  split; [|split; [|split]].
  - apply (proj1 (@setup_stage_error_aborts _ imports _
                    (Scripted.dwn (Scripted.withProtocolsQuery (Throws Scripted.crash)))
                    twoManifests [] Scripted.crash)).
    reflexivity.
  - apply (proj1 (proj2 (@setup_stage_error_aborts _ imports _
                           (Scripted.dwn Scripted.unconfigurable)
                           twoManifests [] Scripted.crash))
             {| ProtocolsQueryResponse.status := MemoryNode.ok;
                ProtocolsQueryResponse.protocols := [] |}
             ["protocols.query"]).
    + reflexivity.
    + reflexivity.
    + reflexivity.
  - apply (proj1 (proj2 (proj2 (@setup_stage_error_aborts _ imports _
                                  (Scripted.dwn (Scripted.withRecordsQuery
                                                   (Throws Scripted.crash)))
                                  twoManifests [] Scripted.crash)))
             ["protocols.query"]).
    + by apply Hensured.
    + reflexivity.
  - apply (proj2 (proj2 (proj2 (@setup_stage_error_aborts _ imports _
                                  (Scripted.dwn (Scripted.withRecordsRead
                                                   (Throws Scripted.crash)))
                                  twoManifests [] Scripted.crash)))
             ["protocols.query"]
             {| DcxRecordsQueryResponse.status := MemoryNode.ok;
                DcxRecordsQueryResponse.records := [Scripted.stored];
                DcxRecordsQueryResponse.cursor := None |}
             ["protocols.query"; "records.query"]).
    + by apply Hensured.
    + reflexivity.
    + reflexivity.
Defined.

(** The in-memory DWN after the first [setup] of manifests [A] and [B]:
    the second [setup] creates both again. *)
Lemma setup_creates_every_configured_manifest_witness :
  @setup _ imports _ healthy twoManifests afterFirstSetup
  = (@createRecords _ imports _ healthy twoManifests [manifestA; manifestB] ;; mret tt)
      afterFirstSetup.
Proof.
  apply (@setup_creates_every_configured_manifest _ imports _ healthy twoManifests
           afterFirstSetup afterFirstSetup [storedA; storedB] afterFirstSetup).
  - exists {| ProtocolsQueryResponse.status := MemoryNode.ok;
              ProtocolsQueryResponse.protocols := [Protocol.mk issuer] |},
      afterFirstSetup.
    split; [vm_compute; reflexivity|]. left. by split.
  - exists {| DcxRecordsQueryResponse.status := MemoryNode.ok;
              DcxRecordsQueryResponse.records := map fst (MemoryNode.records afterFirstSetup);
              DcxRecordsQueryResponse.cursor := None |},
      afterFirstSetup.
    split; vm_compute; reflexivity.
  - right. exists storedA, storedB. split; [left|]. split; [right; left|]. discriminate.
Defined.

(** The in-memory DWN after the [setup] of manifest [A] alone: the second
    [setup] creates nothing. *)
Lemma setup_with_one_existing_id_witness :
  @setup _ imports _ healthy oneManifest afterOneSetup
  = (@createRecords _ imports _ healthy oneManifest
       (List.filter (λ manifest, negb (bool_decide (CredentialManifest.id manifest = "A")))
          [manifestA]) ;; mret tt) afterOneSetup
  ∧ @setup _ imports _ healthy oneManifest afterOneSetup = (Returns tt, afterOneSetup).
Proof.
  destruct (@setup_with_one_existing_id _ imports _ healthy oneManifest
              afterOneSetup afterOneSetup [storedA] afterOneSetup "A") as [Hfilter Hnothing].
  - exists {| ProtocolsQueryResponse.status := MemoryNode.ok;
              ProtocolsQueryResponse.protocols := [Protocol.mk issuer] |},
      afterOneSetup.
    split; [vm_compute; reflexivity|]. left. by split.
  - exists {| DcxRecordsQueryResponse.status := MemoryNode.ok;
              DcxRecordsQueryResponse.records := map fst (MemoryNode.records afterOneSetup);
              DcxRecordsQueryResponse.cursor := None |},
      afterOneSetup.
    split; vm_compute; reflexivity.
  - discriminate.
  - repeat constructor.
  - split; [exact Hfilter|]. apply Hnothing. repeat constructor.
Defined.

Lemma processRecord_stage_error_aborts_witness :
  run (Scripted.withApplication (Throws Scripted.crash)) manifestA (Some "kyc") start
  = (Throws Scripted.crash, answered ["record.data.json"] [] [])
  ∧ run (Scripted.withApplication (Returns emptyPresentation)) manifestA (Some "kyc") start
    = (Throws (LibraryError "nothing to select from"), answered ["record.data.json"] [] [])
  ∧ run (Scripted.withApplication (Returns unsatisfyingPresentation)) manifestA (Some "kyc")
      start
    = (Throws (LibraryError "presentation definition not satisfied"),
       answered ["record.data.json"]
         [SatisfiesPresentationDefinition ["unsatisfying"]
            (CredentialManifest.presentation_definition manifestA)] [])
  ∧ run Scripted.fine manifestA None start
    = (Throws (DcxProtocolHandlerError "No VC data provider configured"),
       answered ["record.data.json"] (verificationCalls manifestA) [])
  ∧ run Scripted.fine manifestE (Some "kyc") start
    = (Throws (TypeError "Cannot read properties of undefined (reading 'id')"),
       answered ["record.data.json"] (verificationCalls manifestE) [request]).
Proof.
  split; [|split; [|split; [|split]]].
  - apply (proj1 (@processRecord_stage_error_aborts imports pipelineImports _
                    (Scripted.dwn (Scripted.withApplication (Throws Scripted.crash)))
                    (Scripted.applicationDwn (Scripted.withApplication (Throws Scripted.crash)))
                    stages application manifestA (Some "kyc") start Scripted.crash)).
    reflexivity.
  - apply (proj1 (proj2 (@processRecord_stage_error_aborts imports pipelineImports _
                           (Scripted.dwn (Scripted.withApplication (Returns emptyPresentation)))
                           (Scripted.applicationDwn
                              (Scripted.withApplication (Returns emptyPresentation)))
                           stages application manifestA (Some "kyc") start
                           (LibraryError "nothing to select from"))
                    emptyPresentation (answered ["record.data.json"] [] []) eq_refl)).
    reflexivity.
  - apply (proj1 (proj2 (proj2 (@processRecord_stage_error_aborts imports pipelineImports _
                                  (Scripted.dwn
                                     (Scripted.withApplication (Returns unsatisfyingPresentation)))
                                  (Scripted.applicationDwn
                                     (Scripted.withApplication (Returns unsatisfyingPresentation)))
                                  stages application manifestA (Some "kyc") start
                                  (LibraryError "presentation definition not satisfied"))
                           unsatisfyingPresentation (answered ["record.data.json"] [] [])
                           eq_refl)
                    ["unsatisfying"] (answered ["record.data.json"] [] []) eq_refl)).
    vm_compute. reflexivity.
  - assert (Stages.verifyCredentials stages [tokenGood; tokenUnlisted] manifestA
              (DwnRecord.author application) (answered ["record.data.json"] [] [])
            = (Returns [credential author "did:x:trusted"],
               answered ["record.data.json"] (verificationCalls manifestA) [])) as Hverify.
    { vm_compute. reflexivity. }
    apply (proj1 (proj2 (proj2 (proj2 (@processRecord_stage_error_aborts imports
                                         pipelineImports _
                                         (Scripted.dwn Scripted.fine)
                                         (Scripted.applicationDwn Scripted.fine)
                                         stages application manifestA None start
                                         (DcxProtocolHandlerError
                                            "No VC data provider configured"))
                                  Scripted.presentation (answered ["record.data.json"] [] [])
                                  eq_refl)
                           [tokenGood; tokenUnlisted] (answered ["record.data.json"] [] [])
                           eq_refl)
                    [credential author "did:x:trusted"]
                    (answered ["record.data.json"] (verificationCalls manifestA) [])
                    Hverify)).
    vm_compute. reflexivity.
  - assert (Stages.verifyCredentials stages [tokenGood; tokenUnlisted] manifestE
              (DwnRecord.author application) (answered ["record.data.json"] [] [])
            = (Returns [credential author "did:x:trusted"],
               answered ["record.data.json"] (verificationCalls manifestE) [])) as Hverify.
    { vm_compute. reflexivity. }
    apply (proj2 (proj2 (proj2 (proj2 (@processRecord_stage_error_aborts imports
                                         pipelineImports _
                                         (Scripted.dwn Scripted.fine)
                                         (Scripted.applicationDwn Scripted.fine)
                                         stages application manifestE (Some "kyc") start
                                         (TypeError
                                            "Cannot read properties of undefined (reading 'id')"))
                                  Scripted.presentation (answered ["record.data.json"] [] [])
                                  eq_refl)
                           [tokenGood; tokenUnlisted] (answered ["record.data.json"] [] [])
                           eq_refl)
                    [credential author "did:x:trusted"]
                    (answered ["record.data.json"] (verificationCalls manifestE) [])
                    Hverify)
             data (answered ["record.data.json"] (verificationCalls manifestE) [request])).
    + vm_compute. reflexivity.
    + vm_compute. reflexivity.
Defined.

(** The stages of a run over [manifestA] with the provider [kyc], up to
    the issued credential. *)
Lemma stages_return (r : Scripted.replies) :
  Scripted.applicationDataJson r = Returns Scripted.presentation →
  @stagesReturn pipelineImports _ (Scripted.applicationDwn r) stages application manifestA
    (Some "kyc") start issued
    (answered ["record.data.json"] (verificationCalls manifestA ++ issuanceCalls) [request]).
Proof.
  intros Happlication.
  apply (@methods_stagesReturn _ imports Fixtures.library http pipelineImports _
           (Scripted.applicationDwn r) verifier application manifestA (Some "kyc")
           [] [] [] Scripted.presentation ["record.data.json"]
           [tokenGood; tokenUnlisted] [credential author "did:x:trusted"]
           (verificationCalls manifestA) data [request] issued
           (verificationCalls manifestA ++ issuanceCalls)).
  - simpl. unfold Scripted.answer. by rewrite Happlication.
  - reflexivity.
  - vm_compute. reflexivity.
  - vm_compute. reflexivity.
  - vm_compute. reflexivity.
Qed.

Lemma processRecord_response_outcomes_witness :
  run (Scripted.withResponseCreate (Returns (MemoryNode.serverError, Some Scripted.stored)))
    manifestA (Some "kyc") start
  = (Throws (DwnError 500 "Internal Server Error"),
     answered ["record.data.json"; "records.create"]
       (verificationCalls manifestA ++ issuanceCalls) [request])
  ∧ run (Scripted.withResponseCreate (Returns (MemoryNode.accepted, None)))
      manifestA (Some "kyc") start
    = (Throws (DcxProtocolHandlerError "Failed to create application response record."),
       answered ["record.data.json"; "records.create"]
         (verificationCalls manifestA ++ issuanceCalls) [request])
  ∧ run (Scripted.withRecordSend (Returns MemoryNode.serverError)) manifestA (Some "kyc") start
    = (Throws (DwnError 500 "Internal Server Error"),
       answered ["record.data.json"; "records.create"; "record.send did:x:B"]
         (verificationCalls manifestA ++ issuanceCalls) [request]).
Proof.
  split; [|split].
  - apply (proj1 (@processRecord_response_outcomes imports pipelineImports _
                    (Scripted.dwn (Scripted.withResponseCreate
                                     (Returns (MemoryNode.serverError, Some Scripted.stored))))
                    (Scripted.applicationDwn
                       (Scripted.withResponseCreate
                          (Returns (MemoryNode.serverError, Some Scripted.stored))))
                    stages application manifestA (Some "kyc") start issued
                    (answered ["record.data.json"]
                       (verificationCalls manifestA ++ issuanceCalls) [request])
                    MemoryNode.serverError (Some Scripted.stored)
                    (answered ["record.data.json"; "records.create"]
                       (verificationCalls manifestA ++ issuanceCalls) [request])
                    (stages_return
                       (Scripted.withResponseCreate
                          (Returns (MemoryNode.serverError, Some Scripted.stored)))
                       eq_refl) eq_refl)).
    reflexivity.
  - apply (proj1 (proj2 (@processRecord_response_outcomes imports pipelineImports _
                           (Scripted.dwn (Scripted.withResponseCreate
                                            (Returns (MemoryNode.accepted, None))))
                           (Scripted.applicationDwn
                              (Scripted.withResponseCreate
                                 (Returns (MemoryNode.accepted, None))))
                           stages application manifestA (Some "kyc") start issued
                           (answered ["record.data.json"]
                              (verificationCalls manifestA ++ issuanceCalls) [request])
                           MemoryNode.accepted None
                           (answered ["record.data.json"; "records.create"]
                              (verificationCalls manifestA ++ issuanceCalls) [request])
                           (stages_return
                              (Scripted.withResponseCreate
                                 (Returns (MemoryNode.accepted, None)))
                              eq_refl) eq_refl))).
    + reflexivity.
    + reflexivity.
  - apply (proj2 (proj2 (@processRecord_response_outcomes imports pipelineImports _
                           (Scripted.dwn (Scripted.withRecordSend
                                            (Returns MemoryNode.serverError)))
                           (Scripted.applicationDwn
                              (Scripted.withRecordSend (Returns MemoryNode.serverError)))
                           stages application manifestA (Some "kyc") start issued
                           (answered ["record.data.json"]
                              (verificationCalls manifestA ++ issuanceCalls) [request])
                           MemoryNode.accepted (Some Scripted.stored)
                           (answered ["record.data.json"; "records.create"]
                              (verificationCalls manifestA ++ issuanceCalls) [request])
                           (stages_return
                              (Scripted.withRecordSend (Returns MemoryNode.serverError))
                              eq_refl) eq_refl))
             Scripted.stored MemoryNode.serverError
             (answered ["record.data.json"; "records.create"; "record.send did:x:B"]
                (verificationCalls manifestA ++ issuanceCalls) [request])).
    + reflexivity.
    + reflexivity.
    + reflexivity.
Defined.

(** The only credential presented is from an issuer in neither list: none
    is verified, and the credential is issued all the same. *)
Lemma processRecord_methods_chain_witness :
  run (Scripted.withApplication (Returns unlistedPresentation)) manifestA (Some "kyc") start
  = (Returns MemoryNode.accepted,
     answered ["record.data.json"; "records.create"; "record.send did:x:B"]
       ([ SatisfiesPresentationDefinition [tokenUnlisted]
            (CredentialManifest.presentation_definition manifestA);
          ParseJwt tokenUnlisted ] ++ issuanceCalls)
       [request]).
Proof.
  apply (@processRecord_methods_chain _ imports Fixtures.library http pipelineImports _
           (Scripted.dwn (Scripted.withApplication (Returns unlistedPresentation)))
           (Scripted.applicationDwn (Scripted.withApplication (Returns unlistedPresentation)))
           verifier application manifestA (Some "kyc") [] [] []
           unlistedPresentation ["record.data.json"] [tokenUnlisted] []
           [ SatisfiesPresentationDefinition [tokenUnlisted]
               (CredentialManifest.presentation_definition manifestA);
             ParseJwt tokenUnlisted ]
           data [request] issued
           ([ SatisfiesPresentationDefinition [tokenUnlisted]
                (CredentialManifest.presentation_definition manifestA);
              ParseJwt tokenUnlisted ] ++ issuanceCalls)
           MemoryNode.accepted Scripted.stored ["record.data.json"; "records.create"]
           MemoryNode.accepted ["record.data.json"; "records.create"; "record.send did:x:B"]).
  - reflexivity.
  - reflexivity.
  - vm_compute. reflexivity.
  - vm_compute. reflexivity.
  - vm_compute. reflexivity.
  - reflexivity.
  - reflexivity.
  - reflexivity.
  - reflexivity.
Defined.

Lemma applicantConfig_environment_witness :
  (ApplicantConfig.dwnEndpoints (applicantConfig tt environment)
   = split "," "https://a.example,https://b.example"
   ∧ ApplicantConfig.dwnEndpoints (applicantConfig tt environment) ≠ []
   ∧ String.concat "," (ApplicantConfig.dwnEndpoints (applicantConfig tt environment))
     = "https://a.example,https://b.example")
  ∧ ApplicantConfig.gatewayUris (applicantConfig tt environment) = [""]
  ∧ ApplicantConfig.serviceName (applicantConfig tt environment) = "@dcx-protocol/applicant"
  ∧ ApplicantConfig.serviceId (applicantConfig tt environment) = "applicant-7"
  ∧ ApplicantConfig.cursorFile (applicantConfig tt environment) = "applicant-cursor.json"
  ∧ ApplicantConfig.port (applicantConfig tt environment) = JString "8080".
Proof.
  destruct (applicantConfig_environment tt environment) as (Hlists & Hscalars & _ & Hport).
  apply Forall_cons_1 in Hlists as [(Hendpoints & _ & _) Hlists].
  apply Forall_cons_1 in Hlists as [(_ & Hgateways & _) _].
  apply Forall_cons_1 in Hscalars as [(Hname & _) Hscalars].
  apply Forall_cons_1 in Hscalars as [(_ & Hid) Hscalars].
  apply Forall_cons_1 in Hscalars as [(Hcursor & _) _].
  split; [|split; [|split; [|split; [|split]]]].
  - apply Hendpoints. vm_compute. reflexivity.
  - apply Hgateways. vm_compute. reflexivity.
  - apply Hname. right. vm_compute. reflexivity.
  - apply Hid; [vm_compute; reflexivity|discriminate].
  - apply Hcursor. left. vm_compute. reflexivity.
  - apply Hport; [vm_compute; reflexivity|discriminate].
Defined.

Lemma createRecords_returns_in_order_witness :
  Forall2
    (λ manifest record,
       ∃ before send after,
         @createManifestRecord _ imports _ healthy twoManifests manifest before
         = (Returns {| RecordsCreateResponse.status := send;
                       RecordsCreateResponse.record := Some record |},
            after))
    [manifestA; manifestB] (map fst (MemoryNode.records afterFirstSetup)).
Proof.
  apply (proj2 (@createRecords_returns_in_order _ imports _ healthy twoManifests
                  [manifestA; manifestB] MemoryNode.empty)
           (map fst (MemoryNode.records afterFirstSetup))
           {| MemoryNode.protocols := [];
              MemoryNode.records := MemoryNode.records afterFirstSetup |}).
  vm_compute. reflexivity.
Defined.

End FurtherExamples.
